(** * weather_bot1: the weather client and the daily-forecast aggregator

    A shallow embedding of [weather_service.py] (class [WeatherService]) and
    of the part of [config.py] it reads, followed by the properties of the
    retrying HTTP client and of the per-day aggregation.

    Conventions of the embedding.
    - A Python object decoded from JSON is a [value]; Python [int] is [Z].
    - A Python [float] is the rational it denotes ([Q]): comparisons, [min],
      [max] and [round(x)] are exact on it, while [sum(xs) / len(xs)] and
      [round(x, 1)] are taken in exact arithmetic (no binary rounding error,
      no NaN or infinity).
    - Text is [string]; [str.title] uses the ASCII case table.
    - An exception is a [Raise] in the [result] monad; network I/O and
      [asyncio.sleep] are steps on an explicit [world].  Logging is left out. *)

(** The embedding goes on with [get_config], and with what consumes the
    results of the service: the pictograms, the wind direction and the
    advice of [utils.py], the inline keyboards of [keyboards.py], and the
    handlers of [main.py] that ask the service and keep the favourites.

    Further conventions.
    - [str.lower] and [str.strip], which follow the tables of Unicode, and
      the two message formatters of [utils.py] are parameters of the
      definitions that call them.
    - A keyboard is the sequence of its buttons; a message that a handler
      sends is kept as its kind and the values it shows, and the callback
      answers as their text.  The conversation state of the dispatcher is
      left out. *)

From Stdlib Require Import ZArith QArith Qround Qabs List String Ascii Bool.
From Stdlib Require Import Lia Lqa Sorted.
Import ListNotations.

Set Warnings "-register-all".

Local Open Scope string_scope.
Local Open Scope list_scope.
Local Open Scope Z_scope.

(* ================================================================== *)
(** * Python values, exceptions and the builtins the service calls *)
(* ================================================================== *)

Module Py.

(** The exception classes that can arise in the modelled code.
    [OutOfRange] stands for what [datetime.fromtimestamp] raises on a
    timestamp it cannot represent (ValueError, OverflowError or OSError,
    depending on the platform). *)
Inductive exn : Type :=
| KeyError | IndexError | TypeError | AttributeError
| ValueError | ZeroDivisionError | OutOfRange.

Inductive result (A : Type) : Type :=
| Ok (a : A)
| Raise (e : exn).
Arguments Ok {A} a.
Arguments Raise {A} e.

Definition bind {A B} (c : result A) (k : A -> result B) : result B :=
  match c with
  | Ok a => k a
  | Raise e => Raise e
  end.

Declare Scope py_scope.
Delimit Scope py_scope with py.
Notation "x <- c ;; k" := (bind c (fun x => k))
  (at level 61, c at next level, right associativity) : py_scope.
Notation "' p <- c ;; k" := (bind c (fun x => let p := x in k))
  (at level 61, p pattern, c at next level, right associativity) : py_scope.
Local Open Scope py_scope.

Fixpoint mapM {A B} (f : A -> result B) (l : list A) : result (list B) :=
  match l with
  | [] => Ok []
  | a :: l' => b <- f a ;; bs <- mapM f l' ;; Ok (b :: bs)
  end.

Fixpoint foldM {A S} (f : S -> A -> result S) (l : list A) (s : S) : result S :=
  match l with
  | [] => Ok s
  | a :: l' => s' <- f s a ;; foldM f l' s'
  end.

(** What [json.loads] can produce.  A [VDict] keeps its keys in insertion
    order, as a Python [dict] does, and holds each key once. *)
Inductive value : Type :=
| VNone
| VBool (b : bool)
| VInt (z : Z)
| VFloat (q : Q)
| VStr (s : string)
| VList (l : list value)
| VDict (d : list (string * value)).

Fixpoint lookup {A} (k : string) (d : list (string * A)) : option A :=
  match d with
  | [] => None
  | (k', v) :: d' => if String.eqb k k' then Some v else lookup k d'
  end.

(** Numbers: [bool] is a subclass of [int]. *)
Definition as_int (v : value) : option Z :=
  match v with
  | VBool b => Some (if b then 1 else 0)
  | VInt z => Some z
  | _ => None
  end.

Definition as_number (v : value) : option Q :=
  match v with
  | VBool b => Some (if b then 1 else 0)%Q
  | VInt z => Some (inject_Z z)
  | VFloat q => Some q
  | _ => None
  end.

(** The number a numeric value denotes (0 for anything else). *)
Definition num (v : value) : Q :=
  match as_number v with Some q => q | None => 0%Q end.

Definition Qltb (x y : Q) : bool :=
  match (x ?= y)%Q with Lt => true | _ => false end.

(** [bool(v)]. *)
Definition truthy (v : value) : bool :=
  match v with
  | VNone => false
  | VBool b => b
  | VInt z => negb (z =? 0)
  | VFloat q => negb (Qeq_bool q 0)
  | VStr s => negb (String.eqb s "")
  | VList l => match l with [] => false | _ => true end
  | VDict d => match d with [] => false | _ => true end
  end.

(** [v[k]] with a string key. *)
Definition getitem (v : value) (k : string) : result value :=
  match v with
  | VDict d => match lookup k d with Some x => Ok x | None => Raise KeyError end
  | _ => Raise TypeError
  end.

(** Python's index normalisation for sequences of length [n]. *)
Definition seq_index (n : nat) (i : Z) : option nat :=
  let len := Z.of_nat n in
  if (0 <=? i) && (i <? len) then Some (Z.to_nat i)
  else if (- len <=? i) && (i <? 0) then Some (Z.to_nat (len + i))
  else None.

Definition chars (s : string) : list value :=
  map (fun c => VStr (String c EmptyString)) (list_ascii_of_string s).

(** [v[i]] with an integer index.  A JSON object has string keys only, so
    an integer never is one of its keys. *)
Definition getindex (v : value) (i : Z) : result value :=
  match v with
  | VList l =>
      match seq_index (List.length l) i with
      | Some n => match nth_error l n with Some x => Ok x | None => Raise IndexError end
      | None => Raise IndexError
      end
  | VStr s =>
      match seq_index (String.length s) i with
      | Some n => match nth_error (chars s) n with Some x => Ok x | None => Raise IndexError end
      | None => Raise IndexError
      end
  | VDict _ => Raise KeyError
  | _ => Raise TypeError
  end.

(** [v.get(k, default)]: only a dict has the method. *)
Definition get (v : value) (k : string) (default : value) : result value :=
  match v with
  | VDict d => Ok (match lookup k d with Some x => x | None => default end)
  | _ => Raise AttributeError
  end.

(** [for item in v]. *)
Definition iter (v : value) : result (list value) :=
  match v with
  | VList l => Ok l
  | VDict d => Ok (map (fun kv => VStr (fst kv)) d)
  | VStr s => Ok (chars s)
  | _ => Raise TypeError
  end.

(** [a == b]; it never raises on these values. *)
Fixpoint eq (a b : value) : bool :=
  match a, b with
  | VNone, VNone => true
  | VStr s, VStr t => String.eqb s t
  | VList la, VList lb =>
      (fix eq_list (la lb : list value) : bool :=
         match la, lb with
         | [], [] => true
         | x :: xs, y :: ys => eq x y && eq_list xs ys
         | _, _ => false
         end) la lb
  | VDict da, VDict db =>
      Nat.eqb (List.length da) (List.length db)
      && forallb (fun kv => match lookup (fst kv) db with
                            | Some w => eq (snd kv) w
                            | None => false
                            end) da
  | _, _ =>
      match as_number a, as_number b with
      | Some x, Some y => Qeq_bool x y
      | _, _ => false
      end
  end.

(** [a < b]: numbers by value, strings and lists lexicographically,
    TypeError for anything else. *)
Fixpoint lt (a b : value) : result bool :=
  match a, b with
  | VStr s, VStr t => Ok (String.ltb s t)
  | VList la, VList lb =>
      (fix lt_list (la lb : list value) : result bool :=
         match la, lb with
         | [], [] => Ok false
         | [], _ :: _ => Ok true
         | _ :: _, [] => Ok false
         | x :: xs, y :: ys => if eq x y then lt_list xs ys else lt x y
         end) la lb
  | _, _ =>
      match as_number a, as_number b with
      | Some x, Some y => Ok (Qltb x y)
      | _, _ => Raise TypeError
      end
  end.

(** [min(a, b)] keeps [a] unless [b < a]; [max(a, b)] keeps [a] unless
    [b > a]. *)
Definition min (a b : value) : result value :=
  c <- lt b a ;; Ok (if c then b else a).

Definition max (a b : value) : result value :=
  c <- lt a b ;; Ok (if c then b else a).

(** Round half to even, the rule of Python's [round]. *)
Definition round_half_even (q : Q) : Z :=
  let f := Qfloor q in
  match (q - inject_Z f ?= 1 # 2)%Q with
  | Lt => f
  | Gt => f + 1
  | Eq => if Z.even f then f else f + 1
  end.

(** [round(v)]: an [int]. *)
Definition round (v : value) : result Z :=
  match v with
  | VBool b => Ok (if b then 1 else 0)
  | VInt z => Ok z
  | VFloat q => Ok (round_half_even q)
  | _ => Raise TypeError
  end.

(** [round(x, 1)] on a float. *)
Definition round1 (q : Q) : Q := (round_half_even (q * 10) # 10)%Q.

(** One step of [sum]: the accumulator starts at the int 0, so the left
    operand always is a number and [+] never concatenates. *)
Definition num_add (acc x : value) : result value :=
  match as_int acc, as_int x with
  | Some a, Some b => Ok (VInt (a + b))
  | _, _ =>
      match as_number acc, as_number x with
      | Some a, Some b => Ok (VFloat (a + b))
      | _, _ => Raise TypeError
      end
  end.

Definition sum (l : list value) : result value := foldM num_add l (VInt 0).

(** [v / n] where [n] is a [len(...)]: always a float. *)
Definition truediv (v : value) (n : nat) : result Q :=
  match as_number v with
  | Some q =>
      match n with
      | O => Raise ZeroDivisionError
      | S _ => Ok (q / inject_Z (Z.of_nat n))%Q
      end
  | None => Raise TypeError
  end.

(** [v // d] for an int [d > 0]. *)
Definition floordiv (v : value) (d : Z) : result value :=
  match v with
  | VBool b => Ok (VInt ((if b then 1 else 0) / d))
  | VInt z => Ok (VInt (z / d))
  | VFloat q => Ok (VFloat (inject_Z (Qfloor (q / inject_Z d))))
  | _ => Raise TypeError
  end.

(** [str.title]: a character is upper-cased unless the one before it is a
    cased letter, in which case it is lower-cased. *)
Definition is_upper (c : ascii) : bool :=
  let n := nat_of_ascii c in (65 <=? n)%nat && (n <=? 90)%nat.
Definition is_lower (c : ascii) : bool :=
  let n := nat_of_ascii c in (97 <=? n)%nat && (n <=? 122)%nat.
Definition to_upper (c : ascii) : ascii :=
  if is_lower c then ascii_of_nat (nat_of_ascii c - 32) else c.
Definition to_lower (c : ascii) : ascii :=
  if is_upper c then ascii_of_nat (nat_of_ascii c + 32) else c.

Fixpoint title_from (previous_is_cased : bool) (s : string) : string :=
  match s with
  | EmptyString => EmptyString
  | String c rest =>
      String (if previous_is_cased then to_lower c else to_upper c)
             (title_from (is_upper c || is_lower c) rest)
  end.

Definition title (s : string) : string := title_from false s.

(** [v.title()]. *)
Definition str_title (v : value) : result string :=
  match v with
  | VStr s => Ok (title s)
  | _ => Raise AttributeError
  end.

(** Lists and dicts cannot be dict keys. *)
Definition hashable (v : value) : bool :=
  match v with
  | VList _ | VDict _ => false
  | _ => true
  end.

End Py.

Import Py.
Local Open Scope py_scope.

(* ================================================================== *)
(** * datetime: [fromtimestamp] and [strftime('%Y-%m-%d')] *)
(* ================================================================== *)

Module Datetime.

(** A naive [datetime]: a point on the local clock, counted in microseconds
    from 1970-01-01T00:00:00 of that clock.  The calendar fields are read
    off it by the proleptic Gregorian calendar. *)
Record datetime : Type := { local_us : Z }.

Definition us_per_second : Z := 1000000.
Definition seconds_per_day : Z := 86400.

(** The number of the local day (day 0 is 1970-01-01). *)
Definition toordinal (d : datetime) : Z :=
  local_us d / (seconds_per_day * us_per_second).

(** Day number to (year, month, day) in the proleptic Gregorian calendar. *)
Definition civil_from_days (days : Z) : Z * Z * Z :=
  let z := days + 719468 in
  let era := z / 146097 in
  let doe := z - era * 146097 in
  let yoe := (doe - doe / 1460 + doe / 36524 - doe / 146096) / 365 in
  let doy := doe - (365 * yoe + yoe / 4 - yoe / 100) in
  let mp := (5 * doy + 2) / 153 in
  let d := doy - (153 * mp + 2) / 5 + 1 in
  let m := if mp <? 10 then mp + 3 else mp - 9 in
  let y := yoe + era * 400 + (if m <=? 2 then 1 else 0) in
  (y, m, d).

Definition year (d : datetime) : Z := fst (fst (civil_from_days (toordinal d))).
Definition month (d : datetime) : Z := snd (fst (civil_from_days (toordinal d))).
Definition day (d : datetime) : Z := snd (civil_from_days (toordinal d)).

Definition MINYEAR : Z := 1.
Definition MAXYEAR : Z := 9999.

Definition digit (n : Z) : ascii := ascii_of_nat (48 + Z.to_nat (n mod 10)).

Definition pad2 (n : Z) : string :=
  String (digit (n / 10)) (String (digit n) EmptyString).

Definition pad4 (n : Z) : string :=
  String (digit (n / 1000)) (String (digit (n / 100)) (pad2 n)).

(** [d.strftime('%Y-%m-%d')], the year on four digits. *)
Definition strftime_ymd (d : datetime) : string :=
  (pad4 (year d) ++ "-" ++ pad2 (month d) ++ "-" ++ pad2 (day d))%string.

Section Host.

(** The zone of the host: the offset from UTC, in seconds, that its zone
    database gives for an instant (seconds since the epoch). *)
Variable utcoffset : Z -> Z.

(** [datetime.fromtimestamp(v)]: the local time of the instant [v], rounded
    half-even to the microsecond; TypeError unless [v] is a number, and an
    error when the year leaves [MINYEAR..MAXYEAR]. *)
Definition fromtimestamp (v : value) : result datetime :=
  match as_number v with
  | None => Raise TypeError
  | Some q =>
      let us := round_half_even (q * inject_Z us_per_second) in
      let instant := us / us_per_second in
      let d := {| local_us := us + utcoffset instant * us_per_second |} in
      if (MINYEAR <=? year d) && (year d <=? MAXYEAR) then Ok d
      else Raise OutOfRange
  end.

End Host.

End Datetime.

(* ================================================================== *)
(** * config.py *)
(* ================================================================== *)

Module Config.

Record Config : Type := {
  bot_token : string;
  weather_api_key : string;
  weather_base_url : string;
  current_weather_url : string;
  forecast_url : string;
  request_timeout : Z;
  max_retries : Z;
  default_language : string;
  default_units : string;
  cache_ttl : Z
}.

(** [_get_env_var]: the variable, or ValueError when it is unset or empty. *)
Definition _get_env_var (environ : string -> option string) (var_name : string)
  : result string :=
  match environ var_name with
  | Some value => if String.eqb value "" then Raise ValueError else Ok value
  | None => Raise ValueError
  end.

(** [Config.__init__]. *)
Definition __init__ (environ : string -> option string) : result Config :=
  token <- _get_env_var environ "BOT_TOKEN" ;;
  key <- _get_env_var environ "WEATHER_API_KEY" ;;
  let base := "https://api.openweathermap.org/data/2.5" in
  Ok {| bot_token := token;
        weather_api_key := key;
        weather_base_url := base;
        current_weather_url := (base ++ "/weather")%string;
        forecast_url := (base ++ "/forecast")%string;
        request_timeout := 10;
        max_retries := 3;
        default_language := "ru";
        default_units := "metric";
        cache_ttl := 300 |}.

Definition get_weather_params (self : Config) (city : string) (forecast : bool)
  : list (string * value) :=
  let params := [ ("q", VStr city);
                  ("appid", VStr (weather_api_key self));
                  ("lang", VStr (default_language self));
                  ("units", VStr (default_units self)) ] in
  if forecast then params ++ [("cnt", VInt 40)] else params.

(** [get_config]: the module keeps one instance in [_config_instance],
    created by the first call whose [Config()] succeeds. *)
Definition get_config (environ : string -> option string)
    (_config_instance : option Config) : result Config * option Config :=
  match _config_instance with
  | None =>
      match __init__ environ with
      | Ok instance => (Ok instance, Some instance)
      | Raise e => (Raise e, None)
      end
  | Some instance => (Ok instance, Some instance)
  end.

End Config.

(* ================================================================== *)
(** * weather_service.py *)
(* ================================================================== *)

(** A function that returns either a filled dict or the empty dict [{}]. *)
Inductive or_empty (A : Type) : Type :=
| Empty
| Dict (a : A).
Arguments Empty {A}.
Arguments Dict {A} a.

(** The dict [_format_current_weather] builds. *)
Module CurrentWeather.
Record t : Type := {
  city : value;
  country : value;
  temperature : Z;
  feels_like : Z;
  description : string;
  icon : value;
  humidity : value;
  pressure : value;
  wind_speed : value;
  wind_direction : value;
  cloudiness : value;
  visibility : value;
  sunrise : Datetime.datetime;
  sunset : Datetime.datetime;
  timezone : value
}.
End CurrentWeather.

(** One value of [daily_forecasts]: the dict of a day.  The three last keys
    are absent until the second loop of [_format_forecast_data] adds them. *)
Module DailyForecast.
Record t : Type := {
  date : Datetime.datetime;
  temp_min : value;
  temp_max : value;
  descriptions : list value;
  humidity : list value;
  wind_speeds : list value;
  main_weather : value;
  icon : value;
  avg_humidity : option Z;
  avg_wind_speed : option Q;
  description : option string
}.
End DailyForecast.

(** The dict [_format_forecast_data] returns. *)
Module ForecastData.
Record t : Type := {
  city : value;
  country : value;
  forecasts : list DailyForecast.t
}.
End ForecastData.

Module WeatherService.

Import Datetime Config.

(** ** The formatters *)

(** An insertion-ordered dict with string keys: assignment to a present key
    keeps its place, assignment to a new key appends. *)
Fixpoint dict_set {A} (k : string) (v : A) (d : list (string * A))
  : list (string * A) :=
  match d with
  | [] => [(k, v)]
  | (k', v') :: d' =>
      if String.eqb k k' then (k', v) :: d' else (k', v') :: dict_set k v d'
  end.

Definition dict_mem {A} (k : string) (d : list (string * A)) : bool :=
  match lookup k d with Some _ => true | None => false end.

Definition dict_get {A} (k : string) (d : list (string * A)) : result A :=
  match lookup k d with Some v => Ok v | None => Raise KeyError end.

(** [description_counts]: a dict whose keys are the descriptions. *)
Fixpoint counts_get (k : value) (default : Z) (c : list (value * Z)) : Z :=
  match c with
  | [] => default
  | (k', n) :: c' => if Py.eq k k' then n else counts_get k default c'
  end.

Fixpoint counts_set (k : value) (n : Z) (c : list (value * Z))
  : list (value * Z) :=
  match c with
  | [] => [(k, n)]
  | (k', n') :: c' =>
      if Py.eq k k' then (k', n) :: c' else (k', n') :: counts_set k n c'
  end.

(** [for desc in descriptions: counts[desc] = counts.get(desc, 0) + 1]. *)
Definition count_descriptions (descs : list value) : result (list (value * Z)) :=
  foldM (fun counts desc =>
           if hashable desc
           then Ok (counts_set desc (counts_get desc 0 counts + 1) counts)
           else Raise TypeError)
        descs [].

(** [max(items, key=lambda x: x[1])]: the first item of greatest count. *)
Definition max_by_count (items : list (value * Z)) : result (value * Z) :=
  match items with
  | [] => Raise ValueError
  | x :: rest =>
      Ok (fold_left (fun best y => if snd best <? snd y then y else best) rest x)
  end.

Section Host.

Variable utcoffset : Z -> Z.

(** The body of the [try] block of [_format_current_weather]. *)
Definition format_current_weather_try (data : value) : result CurrentWeather.t :=
  main <- getitem data "main" ;;
  weathers <- getitem data "weather" ;;
  weather <- getindex weathers 0 ;;
  wind <- get data "wind" (VDict []) ;;
  clouds <- get data "clouds" (VDict []) ;;
  name <- getitem data "name" ;;
  sys <- getitem data "sys" ;;
  country <- getitem sys "country" ;;
  temp <- getitem main "temp" ;;
  temperature <- Py.round temp ;;
  feels <- getitem main "feels_like" ;;
  feels_like <- Py.round feels ;;
  desc <- getitem weather "description" ;;
  description <- str_title desc ;;
  icon <- getitem weather "icon" ;;
  humidity <- getitem main "humidity" ;;
  pressure <- getitem main "pressure" ;;
  wind_speed <- get wind "speed" (VInt 0) ;;
  wind_direction <- get wind "deg" (VInt 0) ;;
  cloudiness <- get clouds "all" (VInt 0) ;;
  vis <- get data "visibility" (VInt 0) ;;
  visibility <- floordiv vis 1000 ;;
  sys1 <- getitem data "sys" ;;
  rise <- getitem sys1 "sunrise" ;;
  sunrise <- fromtimestamp utcoffset rise ;;
  sys2 <- getitem data "sys" ;;
  set <- getitem sys2 "sunset" ;;
  sunset <- fromtimestamp utcoffset set ;;
  timezone <- getitem data "timezone" ;;
  Ok {| CurrentWeather.city := name;
        CurrentWeather.country := country;
        CurrentWeather.temperature := temperature;
        CurrentWeather.feels_like := feels_like;
        CurrentWeather.description := description;
        CurrentWeather.icon := icon;
        CurrentWeather.humidity := humidity;
        CurrentWeather.pressure := pressure;
        CurrentWeather.wind_speed := wind_speed;
        CurrentWeather.wind_direction := wind_direction;
        CurrentWeather.cloudiness := cloudiness;
        CurrentWeather.visibility := visibility;
        CurrentWeather.sunrise := sunrise;
        CurrentWeather.sunset := sunset;
        CurrentWeather.timezone := timezone |}.

(** [except KeyError: return {}]; any other exception propagates. *)
Definition except_KeyError {A} (body : result A) : result (or_empty A) :=
  match body with
  | Ok a => Ok (Dict a)
  | Raise KeyError => Ok Empty
  | Raise e => Raise e
  end.

Definition _format_current_weather (data : value)
  : result (or_empty CurrentWeather.t) :=
  except_KeyError (format_current_weather_try data).

(** [item['main'][k]] and [item['weather'][0][k]]. *)
Definition item_main (item : value) (k : string) : result value :=
  main <- getitem item "main" ;; getitem main k.

Definition item_weather0 (item : value) (k : string) : result value :=
  weathers <- getitem item "weather" ;;
  weather <- getindex weathers 0 ;;
  getitem weather k.

Definition item_wind_speed (item : value) : result value :=
  wind <- getitem item "wind" ;; getitem wind "speed".

(** The body of the first loop, [for item in forecast_list]. *)
Definition group_item (daily_forecasts : list (string * DailyForecast.t))
    (item : value) : result (list (string * DailyForecast.t)) :=
  dt <- getitem item "dt" ;;
  date_obj <- fromtimestamp utcoffset dt ;;
  let date_key := strftime_ymd date_obj in
  daily_forecasts <-
    (if negb (dict_mem date_key daily_forecasts) then
       t_min <- item_main item "temp" ;;
       t_max <- item_main item "temp" ;;
       main_weather <- item_weather0 item "main" ;;
       icon <- item_weather0 item "icon" ;;
       Ok (dict_set date_key
             {| DailyForecast.date := date_obj;
                DailyForecast.temp_min := t_min;
                DailyForecast.temp_max := t_max;
                DailyForecast.descriptions := [];
                DailyForecast.humidity := [];
                DailyForecast.wind_speeds := [];
                DailyForecast.main_weather := main_weather;
                DailyForecast.icon := icon;
                DailyForecast.avg_humidity := None;
                DailyForecast.avg_wind_speed := None;
                DailyForecast.description := None |}
             daily_forecasts)
     else Ok daily_forecasts) ;;
  forecast <- dict_get date_key daily_forecasts ;;
  temp <- item_main item "temp" ;;
  new_min <- Py.min (DailyForecast.temp_min forecast) temp ;;
  temp' <- item_main item "temp" ;;
  new_max <- Py.max (DailyForecast.temp_max forecast) temp' ;;
  desc <- item_weather0 item "description" ;;
  hum <- item_main item "humidity" ;;
  speed <- item_wind_speed item ;;
  Ok (dict_set date_key
        {| DailyForecast.date := DailyForecast.date forecast;
           DailyForecast.temp_min := new_min;
           DailyForecast.temp_max := new_max;
           DailyForecast.descriptions := DailyForecast.descriptions forecast ++ [desc];
           DailyForecast.humidity := DailyForecast.humidity forecast ++ [hum];
           DailyForecast.wind_speeds := DailyForecast.wind_speeds forecast ++ [speed];
           DailyForecast.main_weather := DailyForecast.main_weather forecast;
           DailyForecast.icon := DailyForecast.icon forecast;
           DailyForecast.avg_humidity := DailyForecast.avg_humidity forecast;
           DailyForecast.avg_wind_speed := DailyForecast.avg_wind_speed forecast;
           DailyForecast.description := DailyForecast.description forecast |}
        daily_forecasts).

(** The body of the second loop, on the dict of one day. *)
Definition average_day (forecast : DailyForecast.t) : result DailyForecast.t :=
  t_min <- Py.round (DailyForecast.temp_min forecast) ;;
  t_max <- Py.round (DailyForecast.temp_max forecast) ;;
  hum_sum <- Py.sum (DailyForecast.humidity forecast) ;;
  hum_mean <- truediv hum_sum (List.length (DailyForecast.humidity forecast)) ;;
  wind_sum <- Py.sum (DailyForecast.wind_speeds forecast) ;;
  wind_mean <- truediv wind_sum (List.length (DailyForecast.wind_speeds forecast)) ;;
  description_counts <- count_descriptions (DailyForecast.descriptions forecast) ;;
  best <- max_by_count description_counts ;;
  desc <- str_title (fst best) ;;
  Ok {| DailyForecast.date := DailyForecast.date forecast;
        DailyForecast.temp_min := VInt t_min;
        DailyForecast.temp_max := VInt t_max;
        DailyForecast.descriptions := DailyForecast.descriptions forecast;
        DailyForecast.humidity := DailyForecast.humidity forecast;
        DailyForecast.wind_speeds := DailyForecast.wind_speeds forecast;
        DailyForecast.main_weather := DailyForecast.main_weather forecast;
        DailyForecast.icon := DailyForecast.icon forecast;
        DailyForecast.avg_humidity := Some (round_half_even hum_mean);
        DailyForecast.avg_wind_speed := Some (round1 wind_mean);
        DailyForecast.description := Some desc |}.

(** The body of the [try] block of [_format_forecast_data]. *)
Definition format_forecast_data_try (data : value) : result ForecastData.t :=
  city_info <- getitem data "city" ;;
  forecast_list <- getitem data "list" ;;
  items <- iter forecast_list ;;
  daily_forecasts <- foldM group_item items [] ;;
  daily_forecasts <-
    mapM (fun kv => f <- average_day (snd kv) ;; Ok (fst kv, f)) daily_forecasts ;;
  name <- getitem city_info "name" ;;
  country <- getitem city_info "country" ;;
  Ok {| ForecastData.city := name;
        ForecastData.country := country;
        ForecastData.forecasts := firstn 5 (map snd daily_forecasts) |}.

Definition _format_forecast_data (data : value)
  : result (or_empty ForecastData.t) :=
  except_KeyError (format_forecast_data_try data).

End Host.

(** ** The HTTP client *)

(** What can go wrong in [session.get] or while the response is read; each
    is caught by one of the three [except] clauses of [_make_request]. *)
Inductive failure : Type :=
| TimeoutError      (* asyncio.TimeoutError *)
| ClientError       (* aiohttp.ClientError: connection failure and the like *)
| OtherException.   (* any other Exception *)

(** A response: its status, and the outcome of [await response.json()]. *)
Record response : Type := {
  status : Z;
  json : failure + value
}.

(** The outcome of one [session.get]. *)
Inductive attempt : Type :=
| Raises (f : failure)
| Responds (r : response).

(** What the client does to the outside world. *)
Inductive event : Type :=
| Request (url : string) (params : list (string * value))
| Sleep (seconds : Z).

Record ClientSession : Type := {
  timeout : Z;
  closed : bool
}.

(** The state the coroutines run in: the [session] attribute of the service,
    the network (the outcome of the n-th request sent, counted from 0), the
    number of requests sent so far, and the events so far, oldest first. *)
Record world : Type := {
  session : option ClientSession;
  network : nat -> attempt;
  sent : nat;
  trace : list event
}.

Definition emit (e : event) (w : world) : world :=
  {| session := session w; network := network w; sent := sent w;
     trace := trace w ++ [e] |}.

(** [_get_session]: a session is created when there is none or it is closed. *)
Definition _get_session (config : Config) (w : world) : world :=
  let fresh := {| timeout := request_timeout config; closed := false |} in
  let s := match session w with
           | None => fresh
           | Some s => if closed s then fresh else s
           end in
  {| session := Some s; network := network w; sent := sent w; trace := trace w |}.

(** [session.get(url, params=params)]. *)
Definition session_get (url : string) (params : list (string * value)) (w : world)
  : attempt * world :=
  (network w (sent w),
   {| session := session w; network := network w; sent := S (sent w);
      trace := trace w ++ [Request url params] |}).

(** [asyncio.sleep(seconds)]. *)
Definition sleep (seconds : Z) (w : world) : world := emit (Sleep seconds) w.

(** The [try] statement of the loop body: [Some v] when it executes
    [return v], [None] when control reaches the statement after it (the
    status was neither 200 nor 404, or an exception was caught). *)
Definition try_request (url : string) (params : list (string * value)) (w : world)
  : option value * world :=
  let (a, w) := session_get url params w in
  match a with
  | Responds r =>
      if status r =? 200 then
        match json r with
        | inr data => (Some data, w)
        | inl _ => (None, w)
        end
      else if status r =? 404 then (Some VNone, w)
      else (None, w)
  | Raises _ => (None, w)
  end.

(** [range(n)]. *)
Definition range (n : Z) : list Z := map Z.of_nat (seq 0 (Z.to_nat n)).

(** [for attempt in attempts: ...] followed by [return None]. *)
Fixpoint request_loop (config : Config) (url : string)
    (params : list (string * value)) (attempts : list Z) (w : world)
  : value * world :=
  match attempts with
  | [] => (VNone, w)
  | attempt :: attempts' =>
      match try_request url params w with
      | (Some data, w) => (data, w)
      | (None, w) =>
          let w := if attempt <? max_retries config - 1 then sleep 1 w else w in
          request_loop config url params attempts' w
      end
  end.

Definition _make_request (config : Config) (url : string)
    (params : list (string * value)) (w : world) : value * world :=
  let w := _get_session config w in
  request_loop config url params (range (max_retries config)) w.

Section Host.

Variable utcoffset : Z -> Z.

Definition get_current_weather (config : Config) (city : string) (w : world)
  : result (option (or_empty CurrentWeather.t)) * world :=
  let params := get_weather_params config city false in
  let (data, w) := _make_request config (current_weather_url config) params w in
  if truthy data
  then (r <- _format_current_weather utcoffset data ;; Ok (Some r), w)
  else (Ok None, w).

Definition get_forecast (config : Config) (city : string) (w : world)
  : result (option (or_empty ForecastData.t)) * world :=
  let params := get_weather_params config city true in
  let (data, w) := _make_request config (forecast_url config) params w in
  if truthy data
  then (r <- _format_forecast_data utcoffset data ;; Ok (Some r), w)
  else (Ok None, w).

End Host.

(** [close]. *)
Definition close (w : world) : world :=
  match session w with
  | Some s =>
      if closed s then w
      else {| session := Some {| timeout := timeout s; closed := true |};
              network := network w; sent := sent w; trace := trace w |}
  | None => w
  end.

(** ** The pictograms *)

(** [emoji_map] of [get_weather_emoji]. *)
Definition emoji_map : list (string * string) :=
  [
    ("01d", "☀️"); ("01n", "🌙"); ("02d", "⛅");
    ("02n", "☁️"); ("03d", "☁️"); ("03n", "☁️");
    ("04d", "☁️"); ("04n", "☁️"); ("09d", "🌧️");
    ("09n", "🌧️"); ("10d", "🌦️"); ("10n", "🌧️");
    ("11d", "⛈️"); ("11n", "⛈️"); ("13d", "❄️");
    ("13n", "❄️"); ("50d", "🌫️"); ("50n", "🌫️") ].

(** [get_weather_emoji]: [emoji_map.get(icon_code, default)].  A key that
    is no string is in no dict of strings; a list or a dict cannot be
    hashed. *)
Definition get_weather_emoji (icon_code : value) : result string :=
  if hashable icon_code then
    Ok (match icon_code with
        | VStr code =>
            match lookup code emoji_map with
            | Some emoji => emoji
            | None => "🌤️"
            end
        | _ => "🌤️"
        end)
  else Raise TypeError.

End WeatherService.

(* ================================================================== *)
(** * utils.py *)
(* ================================================================== *)

Module Utils.

(** [emoji_map] of [get_weather_emoji]. *)
Definition emoji_map : list (string * string) :=
  [
    ("01d", "☀️"); ("01n", "🌙"); ("02d", "⛅");
    ("02n", "☁️"); ("03d", "☁️"); ("03n", "☁️");
    ("04d", "☁️"); ("04n", "☁️"); ("09d", "🌧️");
    ("09n", "🌧️"); ("10d", "🌦️"); ("10n", "🌧️");
    ("11d", "⛈️"); ("11n", "⛈️"); ("13d", "❄️");
    ("13n", "❄️"); ("50d", "🌫️"); ("50n", "🌫️") ].

(** [get_weather_emoji]: [emoji_map.get(icon_code, default)]. *)
Definition get_weather_emoji (icon_code : value) : result string :=
  if hashable icon_code then
    Ok (match icon_code with
        | VStr code =>
            match lookup code emoji_map with
            | Some emoji => emoji
            | None => "🌤️"
            end
        | _ => "🌤️"
        end)
  else Raise TypeError.

(** The sixteen compass points, clockwise from north. *)
Definition directions : list string :=
  [
    "С"; "ССВ"; "СВ"; "ВСВ";
    "В"; "ВЮВ"; "ЮВ"; "ЮЮВ";
    "Ю"; "ЮЮЗ"; "ЮЗ"; "ЗЮЗ";
    "З"; "ЗСЗ"; "СЗ"; "ССЗ" ].

(** [q % m] for [m > 0]: the result has the sign of [m]. *)
Definition Qmod (q : Q) (m : Z) : Q :=
  (q - inject_Z m * inject_Z (Qfloor (q / inject_Z m)))%Q.

(** [get_wind_direction].  The arithmetic is that of exact numbers: it is
    the arithmetic of Python on an [int] number of degrees, and leaves out
    the rounding of floating point on a [float]. *)
Definition get_wind_direction (degrees : value) : result string :=
  match as_number degrees with
  | None => Raise TypeError
  | Some q =>
      let degrees := Qmod q 360 in
      let index := round_half_even (degrees / (45 # 2)) mod 16 in
      match seq_index (List.length directions) index with
      | Some n =>
          match nth_error directions n with
          | Some d => Ok d
          | None => Raise IndexError
          end
      | None => Raise IndexError
      end
  end.

(** [needle in haystack] on strings. *)
Fixpoint contains (needle haystack : string) : bool :=
  String.prefix needle haystack
  || match haystack with
     | EmptyString => false
     | String _ rest => contains needle rest
     end.

(** [sep.join(l)]. *)
Fixpoint join (sep : string) (l : list string) : string :=
  match l with
  | [] => ""
  | [x] => x
  | x :: l' => (x ++ sep ++ join sep l')%string
  end.

(** [a > b]. *)
Definition gt (a b : value) : result bool := Py.lt b a.

Section Advice.

(** [str.lower], which follows the Unicode case tables. *)
Variable lower : string -> string.

Definition str_lower (v : value) : result string :=
  match v with
  | VStr s => Ok (lower s)
  | _ => Raise AttributeError
  end.

(** The advice on the temperature: the chain of [if] and [elif]. *)
Definition temperature_advice (temp : value) : result (list string) :=
  c <- Py.lt temp (VInt (-10)) ;;
  if c then Ok ["🧥 Очень холодно! Одевайтесь теплее"] else
  c <- Py.lt temp (VInt 0) ;;
  if c then Ok ["❄️ Холодно, не забудьте куртку"] else
  c <- Py.lt temp (VInt 10) ;;
  if c then Ok ["🧥 Прохладно, возьмите теплую одежду"] else
  c <- gt temp (VInt 25) ;;
  if c then Ok ["☀️ Жарко! Не забудьте о солнцезащите"] else
  c <- gt temp (VInt 30) ;;
  if c then Ok ["🌡️ Очень жарко! Пейте больше воды"] else
  Ok [].

(** The advice on the precipitation. *)
Definition precipitation_advice (description : string) : list string :=
  if existsb (fun word => contains word description) ["дождь"; "rain"; "shower"]
  then ["☂️ Возьмите зонт!"]
  else if contains "снег" description || contains "snow" description
  then ["❄️ Снег! Обувь с хорошим протектором"]
  else if contains "туман" description || contains "mist" description
  then ["🌫️ Туман, будьте осторожны на дороге"]
  else [].

(** The list [advice] when [get_weather_advice] reaches its [return]. *)
Definition advice_list (weather_data : value) : result (list string) :=
  temp <- get weather_data "temperature" (VInt 0) ;;
  desc <- get weather_data "description" (VStr "") ;;
  description <- str_lower desc ;;
  wind_speed <- get weather_data "wind_speed" (VInt 0) ;;
  humidity <- get weather_data "humidity" (VInt 0) ;;
  on_temperature <- temperature_advice temp ;;
  let on_precipitation := precipitation_advice description in
  windy <- gt wind_speed (VInt 10) ;;
  let on_wind :=
    if windy then ["💨 Сильный ветер! Закрепите легкие вещи"] else [] in
  humid <- gt humidity (VInt 80) ;;
  let on_humidity :=
    if humid then ["💧 Высокая влажность, может быть душно"] else [] in
  Ok (on_temperature ++ on_precipitation ++ on_wind ++ on_humidity).

Definition get_weather_advice (weather_data : value) : result string :=
  advice <- advice_list weather_data ;;
  Ok (match advice with
      | [] => "🌤️ Хорошая погода для прогулок!"
      | _ => join " | " advice
      end).

End Advice.

End Utils.

(* ================================================================== *)
(** * keyboards.py *)
(* ================================================================== *)

Module Keyboards.

(** An inline button: its text, and what pressing it sends. *)
Record InlineKeyboardButton : Type := {
  text : string;
  callback_data : option string;
  switch_inline_query : option string
}.

(** The inline keyboards, as the buttons that the builder receives, in that
    order; the rows that [adjust] makes of them are left out. *)
Definition get_inline_weather_keyboard (city : string)
  : list InlineKeyboardButton :=
  [
    {| text := "🔄 Обновить";
       callback_data := Some ("refresh_weather:" ++ city)%string;
       switch_inline_query := None |};
    {| text := "📅 Прогноз";
       callback_data := Some ("get_forecast:" ++ city)%string;
       switch_inline_query := None |};
    {| text := "⭐ В избранное";
       callback_data := Some ("add_favorite:" ++ city)%string;
       switch_inline_query := None |};
    {| text := "📤 Поделиться";
       callback_data := None;
       switch_inline_query := Some ("Погода в " ++ city)%string |} ].

Definition get_inline_forecast_keyboard (city : string)
  : list InlineKeyboardButton :=
  [
    {| text := "🌡️ Сейчас";
       callback_data := Some ("current_weather:" ++ city)%string;
       switch_inline_query := None |};
    {| text := "🔄 Обновить прогноз";
       callback_data := Some ("refresh_forecast:" ++ city)%string;
       switch_inline_query := None |};
    {| text := "⭐ В избранное";
       callback_data := Some ("add_favorite:" ++ city)%string;
       switch_inline_query := None |};
    {| text := "📤 Поделиться";
       callback_data := None;
       switch_inline_query := Some ("Прогноз для " ++ city)%string |} ].

Definition get_units_keyboard : list InlineKeyboardButton :=
  [
    {| text := "🌡️ Цельсий (°C)";
       callback_data := Some "units:metric";
       switch_inline_query := None |};
    {| text := "🌡️ Фаренгейт (°F)";
       callback_data := Some "units:imperial";
       switch_inline_query := None |};
    {| text := "🌡️ Кельвин (K)";
       callback_data := Some "units:kelvin";
       switch_inline_query := None |} ].

Definition get_language_keyboard : list InlineKeyboardButton :=
  [
    {| text := "🇷🇺 Русский";
       callback_data := Some "lang:ru";
       switch_inline_query := None |};
    {| text := "🇺🇸 English";
       callback_data := Some "lang:en";
       switch_inline_query := None |};
    {| text := "🇩🇪 Deutsch";
       callback_data := Some "lang:de";
       switch_inline_query := None |};
    {| text := "🇫🇷 Français";
       callback_data := Some "lang:fr";
       switch_inline_query := None |} ].

End Keyboards.

(* ================================================================== *)
(** * main.py *)
(* ================================================================== *)

Module Main.

Import Datetime Config WeatherService Keyboards.

(** What a key of the dict of [_format_current_weather] holds: a value as
    of JSON, or a [datetime]. *)
Inductive entry : Type :=
| Json (v : value)
| Moment (d : datetime).

(** The dict that [_format_current_weather] fills, key by key. *)
Definition items (weather_data : CurrentWeather.t) : list (string * entry) :=
  [ ("city", Json (CurrentWeather.city weather_data));
    ("country", Json (CurrentWeather.country weather_data));
    ("temperature", Json (VInt (CurrentWeather.temperature weather_data)));
    ("feels_like", Json (VInt (CurrentWeather.feels_like weather_data)));
    ("description", Json (VStr (CurrentWeather.description weather_data)));
    ("icon", Json (CurrentWeather.icon weather_data));
    ("humidity", Json (CurrentWeather.humidity weather_data));
    ("pressure", Json (CurrentWeather.pressure weather_data));
    ("wind_speed", Json (CurrentWeather.wind_speed weather_data));
    ("wind_direction", Json (CurrentWeather.wind_direction weather_data));
    ("cloudiness", Json (CurrentWeather.cloudiness weather_data));
    ("visibility", Json (CurrentWeather.visibility weather_data));
    ("sunrise", Moment (CurrentWeather.sunrise weather_data));
    ("sunset", Moment (CurrentWeather.sunset weather_data));
    ("timezone", Json (CurrentWeather.timezone weather_data)) ].

(** [weather_data.get(key, default)]. *)
Definition weather_get (weather_data : CurrentWeather.t) (key : string)
    (default : entry) : entry :=
  match lookup key (items weather_data) with
  | Some e => e
  | None => default
  end.

(** [a == b], and [x in l] on a list. *)
Definition entry_eq (a b : entry) : bool :=
  match a, b with
  | Json x, Json y => Py.eq x y
  | Moment d, Moment d' => local_us d =? local_us d'
  | _, _ => false
  end.

Definition contains (x : entry) (l : list entry) : bool :=
  existsb (fun e => entry_eq e x) l.

(** [self.user_favorites]: a dict from user ids to lists of cities. *)
Definition favorites : Type := list (Z * list entry).

Fixpoint user_lookup (user_id : Z) (d : favorites) : option (list entry) :=
  match d with
  | [] => None
  | (k, l) :: d' => if user_id =? k then Some l else user_lookup user_id d'
  end.

(** [d[user_id] = l]. *)
Fixpoint user_set (user_id : Z) (l : list entry) (d : favorites) : favorites :=
  match d with
  | [] => [(user_id, l)]
  | (k, l') :: d' =>
      if user_id =? k then (k, l) :: d' else (k, l') :: user_set user_id l d'
  end.

(** [del d[user_id]]. *)
Definition user_del (user_id : Z) (d : favorites) : favorites :=
  filter (fun kv => negb (user_id =? fst kv)) d.

(** [d.get(user_id, [])]. *)
Definition user_get (user_id : Z) (d : favorites) : list entry :=
  match user_lookup user_id d with
  | Some l => l
  | None => []
  end.

(** The bot: its favourites and its weather service.  The state of the
    conversation, which the handlers set or clear, is left out. *)
Record WeatherBot : Type := {
  user_favorites : favorites;
  weather_service : world
}.

(** What a handler shows to the user, call by call.  The fixed texts are
    kept as the kind of the message, with the values that they show. *)
Inductive ui : Type :=
| Loading
| Weather_message (edit : bool) (text : string)
    (keyboard : list InlineKeyboardButton)
| Forecast_message (edit : bool) (text : string)
    (keyboard : list InlineKeyboardButton)
| Choose_action
| City_not_found (city : string)
| Error_occurred
| Favorite_added (city_name : entry) (count : nat)
| Limit_exceeded
| Already_favorite (city_name : entry)
| Favorites_keyboard (cities : list entry)
| Favorites_cleared
| Callback_answer (text : option string) (show_alert : bool).

(** [data.split(sep, 1)[1]]: what follows the first [sep]. *)
Fixpoint after_first (sep : ascii) (data : string) : option string :=
  match data with
  | EmptyString => None
  | String c rest => if Ascii.eqb c sep then Some rest else after_first sep rest
  end.

Definition colon : ascii := ascii_of_nat 58.

Section Handlers.

(** The zone of the host and the configuration of the service. *)
Variable utcoffset : Z -> Z.
Variable config : Config.

(** [str.strip], which follows the white space of Unicode, and the two
    formatters of utils.py, which may raise. *)
Variable strip : string -> string.
Variable format_weather_message : CurrentWeather.t -> result string.
Variable format_forecast_message : ForecastData.t -> result string.

Definition with_service (self : WeatherBot) (service : world) : WeatherBot :=
  {| user_favorites := user_favorites self; weather_service := service |}.

Definition with_favorites (self : WeatherBot) (d : favorites) : WeatherBot :=
  {| user_favorites := d; weather_service := weather_service self |}.

(** [process_city_weather] and [process_city_forecast]. *)
Definition process_city_weather (text : string) (self : WeatherBot)
  : WeatherBot * list ui :=
  let city := strip text in
  let (weather_data, service) :=
    get_current_weather utcoffset config city (weather_service self) in
  let self := with_service self service in
  match weather_data with
  | Ok (Some (Dict weather_data)) =>
      match format_weather_message weather_data with
      | Ok response_text =>
          (self, [ Loading;
                   Weather_message true response_text
                     (get_inline_weather_keyboard city);
                   Choose_action ])
      | Raise _ => (self, [Loading; Error_occurred])
      end
  | Ok _ => (self, [Loading; City_not_found city])
  | Raise _ => (self, [Loading; Error_occurred])
  end.

Definition process_city_forecast (text : string) (self : WeatherBot)
  : WeatherBot * list ui :=
  let city := strip text in
  let (forecast_data, service) :=
    get_forecast utcoffset config city (weather_service self) in
  let self := with_service self service in
  match forecast_data with
  | Ok (Some (Dict forecast_data)) =>
      match format_forecast_message forecast_data with
      | Ok response_text =>
          (self, [ Loading;
                   Forecast_message true response_text
                     (get_inline_forecast_keyboard city);
                   Choose_action ])
      | Raise _ => (self, [Loading; Error_occurred])
      end
  | Ok _ => (self, [Loading; City_not_found city])
  | Raise _ => (self, [Loading; Error_occurred])
  end.

(** The lines that file a city under a user: the list of the user is
    created when there is none, and the city is appended unless it is there
    or the list holds six cities.  [added], [full] and [present] are what
    the three branches show. *)
Definition file_city (user_id : Z) (city_name : entry) (d : favorites)
    (added : nat -> ui) (full present : ui) : favorites * ui :=
  let d := match user_lookup user_id d with
           | Some _ => d
           | None => user_set user_id [] d
           end in
  let favorites := user_get user_id d in
  if negb (contains city_name favorites) then
    if (List.length favorites <? 6)%nat then
      (user_set user_id (favorites ++ [city_name]) d,
       added (S (List.length favorites)))
    else (d, full)
  else (d, present).

(** [process_add_favorite]. *)
Definition process_add_favorite (text : string) (user_id : Z) (self : WeatherBot)
  : WeatherBot * list ui :=
  let city := strip text in
  let (weather_data, service) :=
    get_current_weather utcoffset config city (weather_service self) in
  match weather_data with
  | Ok (Some (Dict weather_data)) =>
      let city_name := weather_get weather_data "name" (Json (VStr city)) in
      let (d, shown) :=
        file_city user_id city_name (user_favorites self)
          (Favorite_added city_name) Limit_exceeded (Already_favorite city_name) in
      ({| user_favorites := d; weather_service := sleep 2 service |},
       [Loading; shown; Favorites_keyboard (user_get user_id d)])
  | Ok _ => (with_service self service, [Loading; City_not_found city])
  | Raise _ => (with_service self service, [Loading; Error_occurred])
  end.

(** [clear_favorites], and the list that [menu_favorites] shows. *)
Definition clear_favorites (user_id : Z) (self : WeatherBot)
  : WeatherBot * list ui :=
  let d := user_favorites self in
  (with_favorites self match user_lookup user_id d with
                       | Some _ => user_del user_id d
                       | None => d
                       end,
   [Favorites_cleared]).

Definition menu_favorites (user_id : Z) (self : WeatherBot)
  : WeatherBot * list ui :=
  (self, [Favorites_keyboard (user_get user_id (user_favorites self))]).

(** The branches of [handle_callback] that show the weather or the
    forecast of [city]: by an edit of the message ([edit]) or by a new
    message; [done] is the answer to the callback when the data came and
    [failed] when it did not.  An exception leaves the bot as it is when it
    is raised. *)
Definition show_weather (edit : bool) (city : string) (done failed : ui)
    (self : WeatherBot) : WeatherBot * result (list ui) :=
  let (weather_data, service) :=
    get_current_weather utcoffset config city (weather_service self) in
  let self := with_service self service in
  match weather_data with
  | Ok (Some (Dict weather_data)) =>
      (self,
       response_text <- format_weather_message weather_data ;;
       Ok [ Weather_message edit response_text
              (get_inline_weather_keyboard city);
            done ])
  | Ok _ => (self, Ok [failed])
  | Raise e => (self, Raise e)
  end.

Definition show_forecast (edit : bool) (city : string) (done failed : ui)
    (self : WeatherBot) : WeatherBot * result (list ui) :=
  let (forecast_data, service) :=
    get_forecast utcoffset config city (weather_service self) in
  let self := with_service self service in
  match forecast_data with
  | Ok (Some (Dict forecast_data)) =>
      (self,
       response_text <- format_forecast_message forecast_data ;;
       Ok [ Forecast_message edit response_text
              (get_inline_forecast_keyboard city);
            done ])
  | Ok _ => (self, Ok [failed])
  | Raise e => (self, Raise e)
  end.

(** The body of the [try] statement of [handle_callback]. *)
Definition handle_callback_try (data : string) (user_id : Z) (self : WeatherBot)
  : WeatherBot * result (list ui) :=
  let second (k : string -> WeatherBot * result (list ui)) :=
    match after_first colon data with
    | Some x => k x
    | None => (self, Raise IndexError)
    end in
  if String.prefix "refresh_weather:" data then
    second (fun city =>
    show_weather true city
      (Callback_answer (Some "🔄 Погода обновлена!") false)
      (Callback_answer (Some "❌ Ошибка обновления данных") true) self)
  else if String.prefix "refresh_forecast:" data then
    second (fun city =>
    show_forecast true city
      (Callback_answer (Some "🔄 Прогноз обновлен!") false)
      (Callback_answer (Some "❌ Ошибка обновления прогноза") true) self)
  else if String.prefix "get_forecast:" data then
    second (fun city =>
    show_forecast false city
      (Callback_answer None false)
      (Callback_answer (Some "❌ Ошибка получения прогноза") true) self)
  else if String.prefix "current_weather:" data then
    second (fun city =>
    show_weather false city
      (Callback_answer None false)
      (Callback_answer (Some "❌ Ошибка получения погоды") true) self)
  else if String.prefix "add_favorite:" data then
    second (fun city =>
    let (d, shown) :=
      file_city user_id (Json (VStr city)) (user_favorites self)
        (fun _ => Callback_answer
                    (Some ("⭐ " ++ city ++ " добавлен в избранное!")%string)
                    false)
        (Callback_answer (Some "❌ Превышен лимит избранных городов (6)") true)
        (Callback_answer (Some ("ℹ️ " ++ city ++ " уже в избранном")%string)
           false) in
    (with_favorites self d, Ok [shown]))
  else if String.prefix "units:" data then
    second (fun unit =>
    (self, Ok [Callback_answer (Some ("🌡️ Единицы измерения: " ++ unit)%string)
                 false]))
  else if String.prefix "lang:" data then
    second (fun lang =>
    (self, Ok [Callback_answer (Some ("🌍 Язык изменен на: " ++ lang)%string)
                 false]))
  else
    (self, Ok [Callback_answer (Some "🤖 Функция в разработке") false]).

(** [handle_callback]: [except Exception] answers with an alert. *)
Definition handle_callback (data : string) (user_id : Z) (self : WeatherBot)
  : WeatherBot * list ui :=
  let (self, shown) := handle_callback_try data user_id self in
  match shown with
  | Ok shown => (self, shown)
  | Raise _ => (self, [Callback_answer (Some "❌ Произошла ошибка") true])
  end.

End Handlers.

End Main.

Import Datetime Config WeatherService.

(* ================================================================== *)
(** * Vocabulary of the properties *)
(* ================================================================== *)

(** ** The client *)

(** An attempt the client retries after: a timeout, a connection failure or
    another exception, or a status that is neither 200 nor 404. *)
Definition transient (a : attempt) : bool :=
  match a with
  | Raises _ => true
  | Responds r => negb (status r =? 200) && negb (status r =? 404)
  end.

(** An attempt answered by HTTP 404. *)
Definition not_found (a : attempt) : bool :=
  match a with
  | Raises _ => false
  | Responds r => status r =? 404
  end.

(** An attempt answered by HTTP 200 with the JSON body [data]. *)
Definition succeeds_with (data : value) (a : attempt) : Prop :=
  exists r, a = Responds r /\ status r = 200 /\ json r = inr data.

(** [n] occurrences of [e] with one [pause] between consecutive ones, and
    none after the last. *)
Fixpoint spaced (e pause : event) (n : nat) : list event :=
  match n with
  | O => []
  | S m => e :: match m with O => [] | S _ => pause :: spaced e pause m end
  end.

(** The requests in a trace. *)
Definition is_request (e : event) : bool :=
  match e with Request _ _ => true | Sleep _ => false end.

(** ** The aggregator *)

(** A forecast sample as the aggregator reads it: its timestamp (a number)
    and the local time of it, its temperature, humidity and wind speed
    (numbers), its description (text), and its weather group and icon code
    (any value). *)
Record sample : Type := {
  s_dt : value;
  s_date : datetime;
  s_temp : value;
  s_humidity : value;
  s_wind_speed : value;
  s_description : string;
  s_main : value;
  s_icon : value
}.

Definition is_number (v : value) : bool :=
  match as_number v with Some _ => true | None => false end.

Definition numeric (s : sample) : bool :=
  is_number (s_temp s) && is_number (s_humidity s) && is_number (s_wind_speed s).

Section Reading.

Variable utcoffset : Z -> Z.

(** The sample a JSON item holds, when the item has the shape of section 6
    of the specification: [dt] a timestamp [fromtimestamp] accepts,
    [main.temp], [main.humidity] and [wind.speed] numbers,
    [weather[0].description] a string, [weather[0].main] and
    [weather[0].icon] present. *)
Definition read_sample (item : value) : option sample :=
  match getitem item "dt" with
  | Ok dt =>
    match fromtimestamp utcoffset dt with
    | Ok date =>
      match item_main item "temp", item_main item "humidity",
            item_wind_speed item with
      | Ok temp, Ok hum, Ok speed =>
        match item_weather0 item "description", item_weather0 item "main",
              item_weather0 item "icon" with
        | Ok (VStr desc), Ok main, Ok icon =>
            let s := {| s_dt := dt; s_date := date;
                        s_temp := temp; s_humidity := hum;
                        s_wind_speed := speed; s_description := desc;
                        s_main := main; s_icon := icon |} in
            if numeric s then Some s else None
        | _, _, _ => None
        end
      | _, _, _ => None
      end
    | Raise _ => None
    end
  | Raise _ => None
  end.

Fixpoint read_samples (items : list value) : option (list sample) :=
  match items with
  | [] => Some []
  | item :: items' =>
      match read_sample item, read_samples items' with
      | Some s, Some ss => Some (s :: ss)
      | _, _ => None
      end
  end.

(** The city name, the country and the samples of a forecast payload of
    that shape. *)
Definition read_payload (data : value) : option (value * value * list sample) :=
  match getitem data "city", getitem data "list" with
  | Ok city_info, Ok (VList items) =>
      match getitem city_info "name", getitem city_info "country",
            read_samples items with
      | Ok name, Ok country, Some ss => Some (name, country, ss)
      | _, _, _ => None
      end
  | _, _ => None
  end.

End Reading.

(** The date key of a sample, ['%Y-%m-%d'] of its local time. *)
Definition date_key (s : sample) : string := strftime_ymd (s_date s).

(** The samples of the day [k], in arrival order. *)
Definition on_day (k : string) (s : sample) : bool := String.eqb (date_key s) k.
Definition day_group (k : string) (ss : list sample) : list sample :=
  filter (on_day k) ss.

(** The elements of a list of strings, each once, in the order in which
    they are first met. *)
Fixpoint distinct (l : list string) : list string :=
  match l with
  | [] => []
  | x :: l' => x :: remove string_dec x (distinct l')
  end.

(** The number of occurrences of [d] in [l]. *)
Definition occurrences (d : string) (l : list string) : nat :=
  count_occ string_dec l d.

Definition Qsum (l : list Q) : Q := fold_right Qplus 0%Q l.

(** The arithmetic mean of a list of numbers. *)
Definition mean (l : list Q) : Q := (Qsum l / inject_Z (Z.of_nat (List.length l)))%Q.

(** [z] is an integer nearest to [q]. *)
Definition nearest_integer (q : Q) (z : Z) : Prop :=
  (Qabs (q - inject_Z z) <= 1 # 2)%Q.


(** The readings of a sample, as numbers. *)
Definition temperature (s : sample) : Q := num (s_temp s).

(** The date key of a summary, and its calendar date. *)
Definition summary_key (f : DailyForecast.t) : string :=
  strftime_ymd (DailyForecast.date f).
Definition calendar_date (d : datetime) : Z * Z * Z := (year d, month d, day d).

(** [f1] is of an earlier day than [f2]. *)
Definition earlier_day (f1 f2 : DailyForecast.t) : Prop :=
  toordinal (DailyForecast.date f1) < toordinal (DailyForecast.date f2).

(** The samples arrive in the order of their timestamps. *)
Definition timestamp (s : sample) : Q := num (s_dt s).
Definition chronological (ss : list sample) : Prop :=
  StronglySorted (fun a b => (timestamp a <= timestamp b)%Q) ss.

(** The sample carries the local time of its timestamp. *)
Definition dated (utcoffset : Z -> Z) (s : sample) : Prop :=
  fromtimestamp utcoffset (s_dt s) = Ok (s_date s).

(** The calendar of the host never goes back: a later instant has no
    earlier local day (no change of the zone offset moves the local clock
    back across midnight). *)
Definition local_day_never_decreases (utcoffset : Z -> Z) : Prop :=
  forall a b : Z,
    a <= b ->
    (a + utcoffset a) / seconds_per_day <= (b + utcoffset b) / seconds_per_day.

(** A day's dict keeps [temp_min] and [temp_max] of one kind, and ordered
    when they are numbers. *)
Definition balanced (f : DailyForecast.t) : Prop :=
  is_number (DailyForecast.temp_min f) = is_number (DailyForecast.temp_max f)
  /\ (is_number (DailyForecast.temp_min f) = true ->
      (num (DailyForecast.temp_min f) <= num (DailyForecast.temp_max f))%Q).

(** ** A body that lacks one required field *)

(** The fields of a current-weather body that the formatter subscripts. *)
Inductive field : Type :=
| Main_temp | Main_feels_like | Main_humidity | Main_pressure
| Weather0_description | Weather0_icon
| Name | Sys_country | Sys_sunrise | Sys_sunset | Timezone.

(** The object [v] without its key [k]. *)
Definition without_key (k : string) (v : value) : value :=
  match v with
  | VDict d => VDict (filter (fun kv => negb (String.eqb (fst kv) k)) d)
  | _ => v
  end.

(** The object [v] with [f] applied to what its key [k] holds. *)
Definition at_key (k : string) (f : value -> value) (v : value) : value :=
  match v with
  | VDict d =>
      VDict (map (fun kv => if String.eqb (fst kv) k then (fst kv, f (snd kv))
                            else kv) d)
  | _ => v
  end.

(** The array [v] with [f] applied to its first element. *)
Definition at_head (f : value -> value) (v : value) : value :=
  match v with
  | VList (x :: l) => VList (f x :: l)
  | _ => v
  end.

(** The body [data] with the key of the field [fld] removed from the object
    that holds it. *)
Definition without (fld : field) (data : value) : value :=
  match fld with
  | Main_temp => at_key "main" (without_key "temp") data
  | Main_feels_like => at_key "main" (without_key "feels_like") data
  | Main_humidity => at_key "main" (without_key "humidity") data
  | Main_pressure => at_key "main" (without_key "pressure") data
  | Weather0_description =>
      at_key "weather" (at_head (without_key "description")) data
  | Weather0_icon => at_key "weather" (at_head (without_key "icon")) data
  | Name => without_key "name" data
  | Sys_country => at_key "sys" (without_key "country") data
  | Sys_sunrise => at_key "sys" (without_key "sunrise") data
  | Sys_sunset => at_key "sys" (without_key "sunset") data
  | Timezone => without_key "timezone" data
  end.

(** ** More on the client *)

(** An attempt after which the loop goes on: an exception, a status other
    than 200 and 404, or a 200 whose body [response.json()] cannot decode. *)
Definition retried (a : attempt) : bool :=
  match a with
  | Raises _ => true
  | Responds r =>
      if status r =? 200 then
        match json r with inl _ => true | inr _ => false end
      else negb (status r =? 404)
  end.

(** An attempt answered by HTTP 200 with a body that cannot be decoded. *)
Definition undecodable (a : attempt) : Prop :=
  exists r f, a = Responds r /\ status r = 200 /\ json r = inl f.

(** The session attribute holds an open session. *)
Definition session_open (w : world) : Prop :=
  exists s, session w = Some s /\ closed s = false.

(** ** A body that lacks an optional field *)

(** The fields of a current-weather body that the formatter reads with
    [get] and a default. *)
Inductive optional : Type :=
| Wind | Wind_speed | Wind_deg | Clouds | Clouds_all | Visibility.

(** The body [data] with the key of the optional field [o] removed from
    the object that holds it. *)
Definition without_optional (o : optional) (data : value) : value :=
  match o with
  | Wind => without_key "wind" data
  | Wind_speed => at_key "wind" (without_key "speed") data
  | Wind_deg => at_key "wind" (without_key "deg") data
  | Clouds => without_key "clouds" data
  | Clouds_all => at_key "clouds" (without_key "all") data
  | Visibility => without_key "visibility" data
  end.

(** The dict [r] with other values under the four keys that have a
    default. *)
Definition with_readings (speed deg clouds vis : value) (r : CurrentWeather.t)
  : CurrentWeather.t :=
  {| CurrentWeather.city := CurrentWeather.city r;
     CurrentWeather.country := CurrentWeather.country r;
     CurrentWeather.temperature := CurrentWeather.temperature r;
     CurrentWeather.feels_like := CurrentWeather.feels_like r;
     CurrentWeather.description := CurrentWeather.description r;
     CurrentWeather.icon := CurrentWeather.icon r;
     CurrentWeather.humidity := CurrentWeather.humidity r;
     CurrentWeather.pressure := CurrentWeather.pressure r;
     CurrentWeather.wind_speed := speed;
     CurrentWeather.wind_direction := deg;
     CurrentWeather.cloudiness := clouds;
     CurrentWeather.visibility := vis;
     CurrentWeather.sunrise := CurrentWeather.sunrise r;
     CurrentWeather.sunset := CurrentWeather.sunset r;
     CurrentWeather.timezone := CurrentWeather.timezone r |}.

(** What the dict [r] becomes when the optional field [o] is not there:
    the keys filled from it hold 0. *)
Definition defaulted (o : optional) (r : CurrentWeather.t) : CurrentWeather.t :=
  let speed := CurrentWeather.wind_speed r in
  let deg := CurrentWeather.wind_direction r in
  let clouds := CurrentWeather.cloudiness r in
  let vis := CurrentWeather.visibility r in
  match o with
  | Wind => with_readings (VInt 0) (VInt 0) clouds vis r
  | Wind_speed => with_readings (VInt 0) deg clouds vis r
  | Wind_deg => with_readings speed (VInt 0) clouds vis r
  | Clouds | Clouds_all => with_readings speed deg (VInt 0) vis r
  | Visibility => with_readings speed deg clouds (VInt 0) r
  end.

(** ** The aggregator on any payload *)

(** A day's dict holds at least one sample, and as many humidity and wind
    readings as descriptions. *)
Definition filled (f : DailyForecast.t) : Prop :=
  DailyForecast.descriptions f <> []
  /\ List.length (DailyForecast.humidity f)
     = List.length (DailyForecast.descriptions f)
  /\ List.length (DailyForecast.wind_speeds f)
     = List.length (DailyForecast.descriptions f).

(** The second loop has passed over the dict of the day. *)
Definition averaged (f : DailyForecast.t) : Prop :=
  DailyForecast.avg_humidity f <> None
  /\ DailyForecast.avg_wind_speed f <> None
  /\ DailyForecast.description f <> None.


(** What the first loop keeps true of [daily_forecasts]: every day is stored
    under the date key of its [date] and is filled. *)
Definition day_entry (kv : string * DailyForecast.t) : Prop :=
  summary_key (snd kv) = fst kv /\ filled (snd kv).


(** ** A sample that lacks a field *)

(** The fields that the first loop reads from every sample, and the two
    that it reads only from a sample that opens a day. *)
Inductive item_field : Type :=
| Item_dt | Item_temp | Item_humidity | Item_description | Item_wind_speed.

Inductive opening_field : Type :=
| Item_main_weather | Item_icon.

Definition item_without (fld : item_field) (item : value) : value :=
  match fld with
  | Item_dt => without_key "dt" item
  | Item_temp => at_key "main" (without_key "temp") item
  | Item_humidity => at_key "main" (without_key "humidity") item
  | Item_description =>
      at_key "weather" (at_head (without_key "description")) item
  | Item_wind_speed => at_key "wind" (without_key "speed") item
  end.

Definition item_without_opening (fld : opening_field) (item : value) : value :=
  match fld with
  | Item_main_weather => at_key "weather" (at_head (without_key "main")) item
  | Item_icon => at_key "weather" (at_head (without_key "icon")) item
  end.

(** The payload [data] with [items] for its sample list. *)
Definition with_list (items : list value) (data : value) : value :=
  at_key "list" (fun _ => VList items) data.

Section ItemKey.

Variable utcoffset : Z -> Z.

(** The date key under which the first loop files an item. *)
Definition item_date_key (item : value) : result string :=
  dt <- getitem item "dt" ;;
  date_obj <- fromtimestamp utcoffset dt ;;
  Ok (strftime_ymd date_obj).

End ItemKey.

(** An item of [items] is filed under the date key [k]. *)
Definition filed_under (utcoffset : Z -> Z) (k : string) (items : list value)
  : bool :=
  existsb (fun item => match item_date_key utcoffset item with
                       | Ok k' => String.eqb k' k
                       | Raise _ => false
                       end) items.

(** ** The favourites *)

(** The city [s], as the favourites hold it. *)
Definition city_entry (s : string) : Main.entry := Main.Json (VStr s).

(** A list of favourites is tidy: it holds city names, no name twice, and
    at most six of them. *)
Definition tidy (l : list Main.entry) : Prop :=
  exists names : list string,
    l = map city_entry names /\ NoDup names /\ (List.length names <= 6)%nat.

(** The favourites of every user are tidy. *)
Definition all_tidy (d : Main.favorites) : Prop :=
  forall user_id, tidy (Main.user_get user_id d).

(** ** What the two loops compute, in closed form *)

Module Summary.

(** [min] and [max] of two numbers. *)
Definition vmin (a b : value) : value := if Qltb (num b) (num a) then b else a.
Definition vmax (a b : value) : value := if Qltb (num a) (num b) then b else a.

(** The dict that maps each key of [ks], in that order, to [F k]. *)
Definition tab {A} (F : string -> A) (ks : list string) : list (string * A) :=
  map (fun k => (k, F k)) ks.

Definition no_day : DailyForecast.t :=
  {| DailyForecast.date := {| local_us := 0 |};
     DailyForecast.temp_min := VNone;
     DailyForecast.temp_max := VNone;
     DailyForecast.descriptions := [];
     DailyForecast.humidity := [];
     DailyForecast.wind_speeds := [];
     DailyForecast.main_weather := VNone;
     DailyForecast.icon := VNone;
     DailyForecast.avg_humidity := None;
     DailyForecast.avg_wind_speed := None;
     DailyForecast.description := None |}.

(** The dict of a day once the first loop has consumed the samples [g] of
    that day (seeded by the first of them). *)
Definition open_day (g : list sample) : DailyForecast.t :=
  match g with
  | [] => no_day
  | first :: _ =>
      {| DailyForecast.date := s_date first;
         DailyForecast.temp_min := fold_left vmin (map s_temp g) (s_temp first);
         DailyForecast.temp_max := fold_left vmax (map s_temp g) (s_temp first);
         DailyForecast.descriptions := map (fun s => VStr (s_description s)) g;
         DailyForecast.humidity := map s_humidity g;
         DailyForecast.wind_speeds := map s_wind_speed g;
         DailyForecast.main_weather := s_main first;
         DailyForecast.icon := s_icon first;
         DailyForecast.avg_humidity := None;
         DailyForecast.avg_wind_speed := None;
         DailyForecast.description := None |}
  end.

(** [daily_forecasts] once the first loop has consumed [ss]. *)
Definition open_days (ss : list sample) : list (string * DailyForecast.t) :=
  tab (fun k => open_day (day_group k ss)) (distinct (map date_key ss)).

(** What the first loop does to the dict of a day that exists. *)
Definition extend (forecast : DailyForecast.t) (s : sample) : DailyForecast.t :=
  {| DailyForecast.date := DailyForecast.date forecast;
     DailyForecast.temp_min := vmin (DailyForecast.temp_min forecast) (s_temp s);
     DailyForecast.temp_max := vmax (DailyForecast.temp_max forecast) (s_temp s);
     DailyForecast.descriptions :=
       DailyForecast.descriptions forecast ++ [VStr (s_description s)];
     DailyForecast.humidity := DailyForecast.humidity forecast ++ [s_humidity s];
     DailyForecast.wind_speeds :=
       DailyForecast.wind_speeds forecast ++ [s_wind_speed s];
     DailyForecast.main_weather := DailyForecast.main_weather forecast;
     DailyForecast.icon := DailyForecast.icon forecast;
     DailyForecast.avg_humidity := DailyForecast.avg_humidity forecast;
     DailyForecast.avg_wind_speed := DailyForecast.avg_wind_speed forecast;
     DailyForecast.description := DailyForecast.description forecast |}.

(** The dict of a day as the first loop creates it. *)
Definition seed (s : sample) : DailyForecast.t :=
  {| DailyForecast.date := s_date s;
     DailyForecast.temp_min := s_temp s;
     DailyForecast.temp_max := s_temp s;
     DailyForecast.descriptions := [];
     DailyForecast.humidity := [];
     DailyForecast.wind_speeds := [];
     DailyForecast.main_weather := s_main s;
     DailyForecast.icon := s_icon s;
     DailyForecast.avg_humidity := None;
     DailyForecast.avg_wind_speed := None;
     DailyForecast.description := None |}.

(** The first key of [k :: ks] at which [f] is greatest. *)
Definition first_most (f : string -> Z) (k : string) (ks : list string) : string :=
  fold_left (fun best d => if f best <? f d then d else best) ks k.

(** The most frequent element of [l]; among equally frequent ones, the one
    met first. *)
Definition most_frequent (l : list string) : string :=
  match distinct l with
  | [] => ""
  | k :: ks => first_most (fun d => Z.of_nat (occurrences d l)) k ks
  end.

(** [description_counts] for the descriptions [l]. *)
Definition vtab (G : string -> Z) (ks : list string) : list (value * Z) :=
  map (fun d => (VStr d, G d)) ks.

Definition counted (l : list string) : list (value * Z) :=
  vtab (fun d => Z.of_nat (occurrences d l)) (distinct l).

(** The dict of a day once the second loop has passed over it. *)
Definition closed_day (g : list sample) : DailyForecast.t :=
  let o := open_day g in
  {| DailyForecast.date := DailyForecast.date o;
     DailyForecast.temp_min :=
       VInt (round_half_even (num (DailyForecast.temp_min o)));
     DailyForecast.temp_max :=
       VInt (round_half_even (num (DailyForecast.temp_max o)));
     DailyForecast.descriptions := DailyForecast.descriptions o;
     DailyForecast.humidity := DailyForecast.humidity o;
     DailyForecast.wind_speeds := DailyForecast.wind_speeds o;
     DailyForecast.main_weather := DailyForecast.main_weather o;
     DailyForecast.icon := DailyForecast.icon o;
     DailyForecast.avg_humidity :=
       Some (round_half_even (mean (map num (DailyForecast.humidity o))));
     DailyForecast.avg_wind_speed :=
       Some (round1 (mean (map num (DailyForecast.wind_speeds o))));
     DailyForecast.description :=
       Some (title (most_frequent (map s_description g))) |}.

(** The summaries of all days of [ss], in order of first encounter. *)
Definition closed_days (ss : list sample) : list DailyForecast.t :=
  map (fun k => closed_day (day_group k ss)) (distinct (map date_key ss)).

End Summary.

(** ** Inputs of the concrete runs *)

Module Inputs.

(** A clock on UTC. *)
Definition utc (instant : Z) : Z := 0.

(** A current-weather body with every field of section 6, but for the
    contents of [weather]. *)
Definition body_with_weather (weather : value) : value :=
  VDict [ ("coord", VDict [("lon", VFloat (-1257 # 10000)); ("lat", VFloat (515085 # 10000))]);
          ("weather", weather);
          ("main", VDict [ ("temp", VFloat (1234 # 100));
                           ("feels_like", VFloat (115 # 10));
                           ("pressure", VInt 1012);
                           ("humidity", VInt 81) ]);
          ("visibility", VInt 10000);
          ("wind", VDict [("speed", VFloat (41 # 10)); ("deg", VInt 240)]);
          ("clouds", VDict [("all", VInt 75)]);
          ("dt", VInt 1700000000);
          ("sys", VDict [ ("country", VStr "GB");
                          ("sunrise", VInt 1699946142);
                          ("sunset", VInt 1699978337) ]);
          ("timezone", VInt 0);
          ("name", VStr "London");
          ("cod", VInt 200) ].

Definition complete_body : value :=
  body_with_weather
    (VList [VDict [ ("id", VInt 803); ("main", VStr "Clouds");
                    ("description", VStr "broken clouds"); ("icon", VStr "04d") ]]).

(** The same body with an empty [weather] list: [weather[0].description]
    and [weather[0].icon] are missing. *)
Definition body_without_weather_entry : value := body_with_weather (VList []).

(** The same body with no [weather] key at all. *)
Definition body_without_weather_key : value :=
  without_key "weather" complete_body.

Definition environ (var_name : string) : option string :=
  if String.eqb var_name "BOT_TOKEN" then Some "1234567890:token"
  else if String.eqb var_name "WEATHER_API_KEY" then Some "0123456789abcdef"
  else None.

Definition config : Config :=
  {| bot_token := "1234567890:token";
     weather_api_key := "0123456789abcdef";
     weather_base_url := "https://api.openweathermap.org/data/2.5";
     current_weather_url := "https://api.openweathermap.org/data/2.5/weather";
     forecast_url := "https://api.openweathermap.org/data/2.5/forecast";
     request_timeout := 10;
     max_retries := 3;
     default_language := "ru";
     default_units := "metric";
     cache_ttl := 300 |}.

Definition start (network : nat -> attempt) : world :=
  {| session := None; network := network; sent := 0; trace := [] |}.

(** A network on which every request times out. *)
Definition always_timeout : world := start (fun _ => Raises TimeoutError).

(** A network that answers every request by HTTP 404. *)
Definition city_unknown : world :=
  start (fun _ => Responds {| status := 404;
                              json := inr (VDict [("cod", VStr "404");
                                                  ("message", VStr "city not found")]) |}).

(** A network that fails twice, by a timeout and by HTTP 503, and then
    answers by HTTP 200. *)
Definition fails_twice : world :=
  start (fun n => match n with
                  | O => Raises TimeoutError
                  | S O => Responds {| status := 503; json := inl ClientError |}
                  | _ => Responds {| status := 200; json := inr complete_body |}
                  end).

(** A network that answers by HTTP 200 with the body that has no weather
    entry. *)
Definition answers_without_weather_entry : world :=
  start (fun _ => Responds {| status := 200;
                              json := inr body_without_weather_entry |}).

Definition weather_params : list (string * value) :=
  get_weather_params config "London" false.

Definition weather_request : event :=
  Request (current_weather_url config) weather_params.

Definition item (dt : Z) (temp : Q) (hum : Z) (speed : Q)
    (desc icon : string) : value :=
  VDict [ ("dt", VInt dt);
          ("main", VDict [("temp", VFloat temp); ("humidity", VInt hum)]);
          ("weather", VList [VDict [ ("main", VStr "Clouds");
                                     ("description", VStr desc);
                                     ("icon", VStr icon) ]]);
          ("wind", VDict [("speed", VFloat speed)]) ].

Definition forecast_payload (items : list value) : value :=
  VDict [ ("cod", VStr "200");
          ("list", VList items);
          ("city", VDict [("name", VStr "London"); ("country", VStr "GB")]) ].

(** 2023-11-14 (four samples, 10, 12, 14 and 11 degrees) and 2023-11-15
    (three samples, 5, 7 and 6 degrees). *)
Definition two_days : value :=
  forecast_payload
    [ item 1699920000 10 80 (35 # 10) "few clouds" "02n";
      item 1699930800 12 81 (45 # 10) "broken clouds" "04d";
      item 1699941600 14 70 (52 # 10) "broken clouds" "04d";
      item 1699952400 11 75 (30 # 10) "few clouds" "02d";
      item 1700006400 5 90 (21 # 10) "broken clouds" "04n";
      item 1700017200 7 88 (20 # 10) "broken clouds" "04d";
      item 1700028000 6 85 (24 # 10) "clear sky" "01d" ].

Definition two_days_samples : list sample :=
  Eval vm_compute in
    match read_payload utc two_days with
    | Some (_, _, ss) => ss
    | None => []
    end.

(** What the aggregation returns for the two days. *)
Definition two_days_result : ForecastData.t :=
  Eval vm_compute in
    match _format_forecast_data utc two_days with
    | Ok (Dict r) => r
    | _ => {| ForecastData.city := VNone; ForecastData.country := VNone;
              ForecastData.forecasts := [] |}
    end.

Definition no_samples : value := forecast_payload [].

(** Six days, one sample each, from 2023-11-14 on. *)
Definition six_days : value :=
  forecast_payload
    (map (fun n => item (1699920000 + 86400 * n) (inject_Z n) 80 (35 # 10)
                        "clear sky" "01d")
         [0; 1; 2; 3; 4; 5]).

(** ** Inputs of further runs *)

(** A network that answers every request by HTTP 200 with a body that is
    not JSON. *)
Definition answers_undecodable : world :=
  start (fun _ => Responds {| status := 200; json := inl ClientError |}).

(** A service whose session is open, created with a timeout of 99 seconds. *)
Definition with_open_session : world :=
  {| session := Some {| timeout := 99; closed := false |};
     network := network fails_twice; sent := 0; trace := [] |}.

(** A network that times out once and then answers by HTTP 200 with the
    empty object. *)
Definition answers_empty_object : world :=
  start (fun n => match n with
                  | O => Raises TimeoutError
                  | _ => Responds {| status := 200; json := inr (VDict []) |}
                  end).

(** What the formatter makes of the complete body. *)
Definition complete_body_result : CurrentWeather.t :=
  Eval vm_compute in
    match _format_current_weather utc complete_body with
    | Ok (Dict r) => r
    | _ => {| CurrentWeather.city := VNone;
              CurrentWeather.country := VNone;
              CurrentWeather.temperature := 0;
              CurrentWeather.feels_like := 0;
              CurrentWeather.description := "";
              CurrentWeather.icon := VNone;
              CurrentWeather.humidity := VNone;
              CurrentWeather.pressure := VNone;
              CurrentWeather.wind_speed := VNone;
              CurrentWeather.wind_direction := VNone;
              CurrentWeather.cloudiness := VNone;
              CurrentWeather.visibility := VNone;
              CurrentWeather.sunrise := {| local_us := 0 |};
              CurrentWeather.sunset := {| local_us := 0 |};
              CurrentWeather.timezone := VNone |}
    end.

(** The samples of the two days, as the payload lists them. *)
Definition two_days_items : list value :=
  match getitem two_days "list" with
  | Ok (VList items) => items
  | _ => []
  end.


(** Lower case on the letters A to Z. *)
Fixpoint ascii_lower (s : string) : string :=
  match s with
  | EmptyString => EmptyString
  | String c rest => String (to_lower c) (ascii_lower rest)
  end.

(** A hot day, as [format_detailed_forecast] describes it. *)
Definition hot_day : value :=
  VDict [ ("temperature", VFloat (33 # 1));
          ("description", VStr "Clear Sky");
          ("wind_speed", VFloat (32 # 10));
          ("humidity", VInt 40) ].

(** The bot as it starts, on a network that never answers, and on one that
    answers the third request. *)
Definition bot_offline : Main.WeatherBot :=
  {| Main.user_favorites := []; Main.weather_service := always_timeout |}.

Definition bot_online : Main.WeatherBot :=
  {| Main.user_favorites := []; Main.weather_service := fails_twice |}.

(** The bot on the network that answers without a weather entry. *)
Definition bot_without_weather_entry : Main.WeatherBot :=
  {| Main.user_favorites := [];
     Main.weather_service := answers_without_weather_entry |}.

(** Formatters and a [strip] for the runs of the handlers: the wording of
    the messages and the white space play no part in them. *)
Definition no_strip (text : string) : string := text.
Definition weather_text (weather_data : CurrentWeather.t) : result string :=
  Ok "weather".
Definition forecast_text (forecast_data : ForecastData.t) : result string :=
  Ok "forecast".

End Inputs.

(* ================================================================== *)
(** * A tactic for runs in the [result] monad *)
(* ================================================================== *)

(** From [H : (x <- c ;; k) = Ok r], the value that [c] returned. *)
Ltac step H :=
  match type of H with
  | bind ?c _ = Ok _ =>
      let E := fresh "E" in
      destruct c eqn:E; cbn [bind] in H; [|discriminate H]
  end.

(* ================================================================== *)
(** * Properties of the client *)
(* ================================================================== *)

Module Client.

Lemma range_seq (n : Z) : range n = map Z.of_nat (seq 0 (Z.to_nat n)).
Proof. reflexivity. Qed.

Lemma spaced_S e pause n :
  spaced e pause (S (S n)) = e :: pause :: spaced e pause (S n).
Proof. reflexivity. Qed.

Lemma count_requests_spaced url params n :
  List.length (filter is_request (spaced (Request url params) (Sleep 1) n)) = n.
Proof.
  induction n as [|[|n] IH]; try reflexivity.
  rewrite spaced_S. cbn [filter is_request List.length]. now rewrite IH.
Qed.

(** What the [try] statement does with the outcome of the request. *)
Lemma try_request_transient url params w :
  transient (network w (sent w)) = true ->
  try_request url params w = (None, snd (session_get url params w)).
Proof.
  unfold try_request, session_get, transient. cbn [snd].
  destruct (network w (sent w)) as [f|r]; [reflexivity|].
  intros H. apply andb_true_iff in H as [H1 H2].
  apply negb_true_iff in H1, H2. now rewrite H1, H2.
Qed.

Lemma try_request_not_found url params w :
  not_found (network w (sent w)) = true ->
  try_request url params w = (Some VNone, snd (session_get url params w)).
Proof.
  unfold try_request, session_get, not_found. cbn [snd].
  destruct (network w (sent w)) as [f|r]; [discriminate|].
  intros H. apply Z.eqb_eq in H. rewrite H. reflexivity.
Qed.

Lemma try_request_success url params w data :
  succeeds_with data (network w (sent w)) ->
  try_request url params w = (Some data, snd (session_get url params w)).
Proof.
  unfold try_request, session_get. cbn [snd].
  intros (r & -> & Hs & Hj). now rewrite Hs, Hj.
Qed.

Section Loop.

Variables (config : Config) (url : string) (params : list (string * value)).

(** The loop from attempt number [i] on, when all the [n] attempts that are
    left are transient: [n] requests, a pause after each but the last. *)
Lemma request_loop_exhausts (n : nat) :
  forall (i : nat) (w : world),
    Z.of_nat (i + n) = max_retries config ->
    (forall k, (k < n)%nat -> transient (network w (sent w + k)) = true) ->
    exists w',
      request_loop config url params (map Z.of_nat (seq i n)) w = (VNone, w')
      /\ trace w' = trace w ++ spaced (Request url params) (Sleep 1) n
      /\ sent w' = (sent w + n)%nat
      /\ network w' = network w
      /\ session w' = session w.
Proof.
  induction n as [|n IH]; intros i w HN Htr.
  - exists w. cbn. rewrite app_nil_r, Nat.add_0_r. auto.
  - cbn [seq map request_loop].
    rewrite try_request_transient
      by (specialize (Htr 0%nat); rewrite Nat.add_0_r in Htr; apply Htr; lia).
    set (w1 := snd (session_get url params w)).
    destruct n as [|n].
    + (* the last attempt: no pause *)
      replace (Z.of_nat i <? max_retries config - 1) with false
        by (symmetry; apply Z.ltb_ge; lia).
      exists w1. cbn. repeat split; try reflexivity. lia.
    + replace (Z.of_nat i <? max_retries config - 1) with true
        by (symmetry; apply Z.ltb_lt; lia).
      destruct (IH (S i) (sleep 1 w1)) as (w' & Hrun & Ht & Hs & Hn & Hss).
      * lia.
      * intros k Hk. cbn. specialize (Htr (S k)).
        rewrite Nat.add_succ_r in Htr. apply Htr. lia.
      * exists w'. rewrite Hrun. split; [reflexivity|].
        rewrite Ht, Hs, Hn, Hss. cbn [sleep emit w1 session_get snd trace sent network session].
        rewrite spaced_S. rewrite <- !app_assoc. cbn [app].
        repeat split; try reflexivity. lia.
Qed.

(** The loop from attempt number [i] on, when the attempt [j] places later
    is the first that is not transient and makes the [try] statement return
    [v]: [j + 1] requests, a pause between consecutive ones. *)
Lemma request_loop_returns (j : nat) :
  forall (n i : nat) (w : world) (v : value),
    Z.of_nat (i + n) = max_retries config ->
    (j < n)%nat ->
    (forall k, (k < j)%nat -> transient (network w (sent w + k)) = true) ->
    (forall w0, network w0 = network w -> sent w0 = (sent w + j)%nat ->
       try_request url params w0 = (Some v, snd (session_get url params w0))) ->
    exists w',
      request_loop config url params (map Z.of_nat (seq i n)) w = (v, w')
      /\ trace w' = trace w ++ spaced (Request url params) (Sleep 1) (S j)
      /\ sent w' = (sent w + S j)%nat
      /\ network w' = network w
      /\ session w' = session w.
Proof.
  induction j as [|j IH]; intros n i w v HN Hj Htr Hret.
  - destruct n as [|n]; [lia|]. cbn [seq map request_loop].
    rewrite (Hret w) by (auto; lia).
    exists (snd (session_get url params w)). cbn. repeat split; try reflexivity. lia.
  - destruct n as [|n]; [lia|]. cbn [seq map request_loop].
    rewrite try_request_transient
      by (specialize (Htr 0%nat); rewrite Nat.add_0_r in Htr; apply Htr; lia).
    set (w1 := snd (session_get url params w)).
    replace (Z.of_nat i <? max_retries config - 1) with true
      by (symmetry; apply Z.ltb_lt; lia).
    destruct (IH n (S i) (sleep 1 w1) v) as (w' & Hrun & Ht & Hs & Hn & Hss).
    + lia.
    + lia.
    + intros k Hk. cbn. specialize (Htr (S k)).
      rewrite Nat.add_succ_r in Htr. apply Htr. lia.
    + intros w0 Hn0 Hs0. apply Hret; [exact Hn0|]. rewrite Hs0. cbn. lia.
    + exists w'. rewrite Hrun. split; [reflexivity|].
      rewrite Ht, Hs, Hn, Hss. cbn [sleep emit w1 session_get snd trace sent network session].
      rewrite (spaced_S (Request url params) (Sleep 1) j). rewrite <- !app_assoc. cbn [app].
      repeat split; try reflexivity. lia.
Qed.

End Loop.

(** [_make_request] when every attempt it can make is transient. *)
Lemma make_request_all_transient config url params w :
  (forall k, (k < Z.to_nat (max_retries config))%nat ->
             transient (network w (sent w + k)) = true) ->
  exists w',
    _make_request config url params w = (VNone, w')
    /\ trace w' = trace w ++ spaced (Request url params) (Sleep 1)
                                   (Z.to_nat (max_retries config))
    /\ sent w' = (sent w + Z.to_nat (max_retries config))%nat.
Proof.
  intros Htr. unfold _make_request. rewrite range_seq.
  destruct (Z_le_gt_dec (max_retries config) 0) as [Hneg|Hpos].
  - replace (Z.to_nat (max_retries config)) with 0%nat by lia.
    eexists. cbn. split; [reflexivity|]. rewrite app_nil_r, Nat.add_0_r. auto.
  - destruct (request_loop_exhausts config url params
                (Z.to_nat (max_retries config)) 0 (_get_session config w))
      as (w' & Hrun & Ht & Hs & _); [lia|exact Htr|].
    exists w'. rewrite Hrun. auto.
Qed.

(** [_make_request] when its attempt number [j] is the first that is not
    transient and is answered by 404 or by 200 with a JSON body. *)
Lemma make_request_answered config url params w j v :
  (j < Z.to_nat (max_retries config))%nat ->
  (forall k, (k < j)%nat -> transient (network w (sent w + k)) = true) ->
  (not_found (network w (sent w + j)) = true /\ v = VNone)
  \/ succeeds_with v (network w (sent w + j)) ->
  exists w',
    _make_request config url params w = (v, w')
    /\ trace w' = trace w ++ spaced (Request url params) (Sleep 1) (S j)
    /\ sent w' = (sent w + S j)%nat.
Proof.
  intros Hj Htr Hans. unfold _make_request. rewrite range_seq.
  destruct (request_loop_returns config url params j
              (Z.to_nat (max_retries config)) 0 (_get_session config w) v)
    as (w' & Hrun & Ht & Hs & _); [lia|exact Hj|exact Htr| |].
  - intros w0 Hn0 Hs0. cbn in Hn0, Hs0.
    destruct Hans as [[H404 ->]|Hok].
    + apply try_request_not_found. now rewrite Hn0, Hs0.
    + apply try_request_success. now rewrite Hn0, Hs0.
  - exists w'. rewrite Hrun. auto.
Qed.

(** C1.  When every attempt is transient (a status other than 200 and 404,
    a timeout, a connection failure), [_make_request] sends exactly
    [max_retries] requests, pauses one second between consecutive requests
    and not after the last one, and returns [None]; a configuration built
    by [Config()] has [max_retries = 3]. *)
Theorem make_request_exhausts_retries
    (config : Config) (url : string) (params : list (string * value)) (w : world)
    (Hfail : forall k, (k < Z.to_nat (max_retries config))%nat ->
                       transient (network w (sent w + k)) = true) :
  fst (_make_request config url params w) = VNone
  /\ trace (snd (_make_request config url params w))
     = trace w ++ spaced (Request url params) (Sleep 1) (Z.to_nat (max_retries config))
  /\ sent (snd (_make_request config url params w))
     = (sent w + Z.to_nat (max_retries config))%nat
  /\ (forall environ c, Config.__init__ environ = Ok c -> max_retries c = 3).
Proof.
  destruct (make_request_all_transient config url params w Hfail)
    as (w' & -> & Ht & Hs).
  cbn [fst snd]. repeat split; auto.
  intros environ c. unfold Config.__init__.
  destruct (_get_env_var environ "BOT_TOKEN"); [|discriminate].
  destruct (_get_env_var environ "WEATHER_API_KEY"); [|discriminate].
  cbn. intros [= <-]. reflexivity.
Qed.

(** C9.  With three attempts allowed, two transient attempts followed by
    HTTP 200 with a JSON body make [_make_request] return that body, after
    three requests and two pauses. *)
Theorem make_request_succeeds_on_third_attempt
    (config : Config) (url : string) (params : list (string * value)) (w : world)
    (data : value)
    (Hmax : max_retries config = 3)
    (Hfirst : transient (network w (sent w)) = true)
    (Hsecond : transient (network w (sent w + 1)) = true)
    (Hthird : succeeds_with data (network w (sent w + 2))) :
  fst (_make_request config url params w) = data
  /\ trace (snd (_make_request config url params w))
     = trace w ++ [Request url params; Sleep 1; Request url params; Sleep 1;
                   Request url params]
  /\ sent (snd (_make_request config url params w)) = (sent w + 3)%nat.
Proof.
  destruct (make_request_answered config url params w 2 data)
    as (w' & -> & Ht & Hs).
  - rewrite Hmax. cbn. lia.
  - intros [|[|k]] Hk; [now rewrite Nat.add_0_r|exact Hsecond|lia].
  - now right.
  - cbn [fst snd]. auto.
Qed.

Section Callers.

Variable utcoffset : Z -> Z.

(** C2.  When the first attempt is answered by HTTP 404, both
    [get_current_weather] and [get_forecast] return [None] after that one
    request: no second request and no pause. *)
Theorem not_found_returns_without_retry
    (config : Config) (city : string) (w : world)
    (Hmax : 0 < max_retries config)
    (H404 : not_found (network w (sent w)) = true) :
  (fst (get_current_weather utcoffset config city w) = Ok None
   /\ trace (snd (get_current_weather utcoffset config city w))
      = trace w ++ [Request (current_weather_url config)
                            (get_weather_params config city false)]
   /\ sent (snd (get_current_weather utcoffset config city w)) = S (sent w))
  /\
  (fst (get_forecast utcoffset config city w) = Ok None
   /\ trace (snd (get_forecast utcoffset config city w))
      = trace w ++ [Request (forecast_url config)
                            (get_weather_params config city true)]
   /\ sent (snd (get_forecast utcoffset config city w)) = S (sent w)).
Proof.
  assert (H0 : (0 < Z.to_nat (max_retries config))%nat) by lia.
  assert (Hno : forall k, (k < 0)%nat -> transient (network w (sent w + k)) = true)
    by (intros k Hk; lia).
  assert (Hans : (not_found (network w (sent w + 0)) = true /\ VNone = VNone)
                 \/ succeeds_with VNone (network w (sent w + 0)))
    by (left; rewrite Nat.add_0_r; auto).
  split.
  - unfold get_current_weather.
    destruct (make_request_answered config (current_weather_url config)
                (get_weather_params config city false) w 0 VNone H0 Hno Hans)
      as (w' & -> & Ht & Hs).
    cbn. rewrite Ht, Hs. repeat split; auto. lia.
  - unfold get_forecast.
    destruct (make_request_answered config (forecast_url config)
                (get_weather_params config city true) w 0 VNone H0 Hno Hans)
      as (w' & -> & Ht & Hs).
    cbn. rewrite Ht, Hs. repeat split; auto. lia.
Qed.

(** C10.  A run that meets HTTP 404 (at its attempt number [j], after
    transient attempts only) and a run that exhausts its retries end
    [_make_request] with the same value, [None]; so [get_current_weather]
    and [get_forecast] return the same result, [None], in both runs. *)
Theorem not_found_and_exhaustion_indistinguishable
    (config : Config) (city : string) (w1 w2 : world) (j : nat)
    (Hj : (j < Z.to_nat (max_retries config))%nat)
    (Hbefore : forall k, (k < j)%nat -> transient (network w1 (sent w1 + k)) = true)
    (H404 : not_found (network w1 (sent w1 + j)) = true)
    (Hfail : forall k, (k < Z.to_nat (max_retries config))%nat ->
                       transient (network w2 (sent w2 + k)) = true) :
  (forall url params,
      fst (_make_request config url params w1) = VNone
      /\ fst (_make_request config url params w2) = VNone)
  /\ fst (get_current_weather utcoffset config city w1) = Ok None
  /\ fst (get_current_weather utcoffset config city w2) = Ok None
  /\ fst (get_forecast utcoffset config city w1) = Ok None
  /\ fst (get_forecast utcoffset config city w2) = Ok None.
Proof.
  assert (H1 : forall url params,
             exists w', _make_request config url params w1 = (VNone, w')).
  { intros url params.
    destruct (make_request_answered config url params w1 j VNone Hj Hbefore)
      as (w' & Hrun & _); [now left|]. now exists w'. }
  assert (H2 : forall url params,
             exists w', _make_request config url params w2 = (VNone, w')).
  { intros url params.
    destruct (make_request_all_transient config url params w2 Hfail)
      as (w' & Hrun & _). now exists w'. }
  split; [|repeat split].
  - intros url params.
    destruct (H1 url params) as (w' & ->), (H2 url params) as (w'' & ->). auto.
  - unfold get_current_weather.
    destruct (H1 (current_weather_url config) (get_weather_params config city false))
      as (w' & ->). reflexivity.
  - unfold get_current_weather.
    destruct (H2 (current_weather_url config) (get_weather_params config city false))
      as (w' & ->). reflexivity.
  - unfold get_forecast.
    destruct (H1 (forecast_url config) (get_weather_params config city true))
      as (w' & ->). reflexivity.
  - unfold get_forecast.
    destruct (H2 (forecast_url config) (get_weather_params config city true))
      as (w' & ->). reflexivity.
Qed.

End Callers.

End Client.

(* ================================================================== *)
(** * Rounding *)
(* ================================================================== *)

Module Rounding.

Lemma round_half_even_compat (p q : Q) :
  (p == q)%Q -> round_half_even p = round_half_even q.
Proof.
  intros H. unfold round_half_even.
  rewrite (Qfloor_comp _ _ H).
  assert (E : (p - inject_Z (Qfloor q) == q - inject_Z (Qfloor q))%Q)
    by (rewrite H; reflexivity).
  now rewrite (Qcompare_comp _ _ E (1 # 2)%Q (1 # 2)%Q (Qeq_refl _)).
Qed.

Lemma floor_bounds (q : Q) :
  (inject_Z (Qfloor q) <= q)%Q /\ (q < inject_Z (Qfloor q) + 1)%Q.
Proof.
  split; [apply Qfloor_le|].
  pose proof (Qlt_floor q) as H. rewrite inject_Z_plus in H. exact H.
Qed.

(** [round] goes to a nearest integer. *)
Lemma round_half_even_nearest (q : Q) : nearest_integer q (round_half_even q).
Proof.
  unfold nearest_integer, round_half_even.
  destruct (floor_bounds q) as [Hlo Hhi].
  set (f := Qfloor q) in *.
  destruct (Qcompare_spec (q - inject_Z f) (1 # 2)) as [E|L|G];
    [destruct (Z.even f)|..];
    try rewrite inject_Z_plus; try change (inject_Z 1) with 1%Q;
    apply Qabs_case; intros; lra.
Qed.

(** [round] is monotone. *)
Lemma round_half_even_le (p q : Q) :
  (p <= q)%Q -> round_half_even p <= round_half_even q.
Proof.
  intros Hpq.
  pose proof (Qfloor_resp_le _ _ Hpq) as Hf.
  destruct (floor_bounds p) as [Hplo Hphi], (floor_bounds q) as [Hqlo Hqhi].
  unfold round_half_even.
  set (fp := Qfloor p) in *. set (fq := Qfloor q) in *.
  destruct (Z.eq_dec fp fq) as [E|NE].
  - rewrite <- E in *. clear E.
    destruct (Qcompare_spec (p - inject_Z fp) (1 # 2)) as [E1|L1|G1];
      destruct (Qcompare_spec (q - inject_Z fp) (1 # 2)) as [E2|L2|G2];
      destruct (Z.even fp); try lia; exfalso; lra.
  - assert (fp + 1 <= fq) by lia.
    destruct (Qcompare_spec (p - inject_Z fp) (1 # 2)) as [E1|L1|G1];
      destruct (Qcompare_spec (q - inject_Z fq) (1 # 2)) as [E2|L2|G2];
      destruct (Z.even fp); destruct (Z.even fq); lia.
Qed.


End Rounding.

(* ================================================================== *)
(** * Lists in order of first encounter *)
(* ================================================================== *)

Module FirstSeen.

Lemma in_distinct (x : string) (l : list string) : In x (distinct l) <-> In x l.
Proof.
  induction l as [|a l IH]; [reflexivity|]. cbn [distinct In].
  destruct (string_dec a x) as [->|Hne]; [tauto|].
  split.
  - intros [E|H]; [tauto|]. apply in_remove in H. tauto.
  - intros [E|H]; [tauto|]. right. apply in_in_remove; [congruence|tauto].
Qed.

Lemma NoDup_remove_elt (x : string) (l : list string) :
  NoDup l -> NoDup (remove string_dec x l).
Proof.
  induction 1 as [|a l Ha Hl IH]; cbn; [constructor|].
  destruct (string_dec x a); [exact IH|].
  constructor; [|exact IH]. intros H. apply in_remove in H. tauto.
Qed.

Lemma NoDup_distinct (l : list string) : NoDup (distinct l).
Proof.
  induction l as [|a l IH]; cbn; constructor.
  - apply remove_In.
  - now apply NoDup_remove_elt.
Qed.

(** Meeting one more element: it joins at the end unless it was met. *)
Lemma distinct_snoc (l : list string) (x : string) :
  distinct (l ++ [x]) = if in_dec string_dec x l then distinct l
                        else distinct l ++ [x].
Proof.
  induction l as [|a l IH]; [reflexivity|].
  cbn [app distinct]. rewrite IH.
  destruct (in_dec string_dec x (a :: l)) as [Hin|Hout];
    destruct (in_dec string_dec x l) as [Hin'|Hout']; try reflexivity.
  - destruct Hin as [->|Hin]; [|contradiction].
    rewrite remove_app. cbn. destruct (string_dec x x); [|congruence].
    now rewrite app_nil_r.
  - exfalso. apply Hout. now right.
  - rewrite remove_app. cbn.
    destruct (string_dec a x) as [->|Hne]; [exfalso; apply Hout; now left|].
    reflexivity.
Qed.





End FirstSeen.

(* ================================================================== *)
(** * The date key and the calendar date *)
(* ================================================================== *)

Module Calendar.

(** Months are 1..12 and days 1..31. *)
Lemma civil_from_days_range (days : Z) :
  1 <= snd (fst (civil_from_days days)) <= 12
  /\ 1 <= snd (civil_from_days days) <= 31.
Proof.
  unfold civil_from_days. cbn [fst snd].
  set (z := days + 719468).
  set (era := z / 146097).
  set (doe := z - era * 146097).
  assert (Hdoe : 0 <= doe <= 146096).
  { unfold doe, era. Z.div_mod_to_equations. lia. }
  clearbody doe. clear z era.
  set (yoe := (doe - doe / 1460 + doe / 36524 - doe / 146096) / 365).
  assert (Hyoe : 0 <= yoe <= 399).
  { unfold yoe. Z.div_mod_to_equations. lia. }
  set (doy := doe - (365 * yoe + yoe / 4 - yoe / 100)).
  assert (Hdoy : 0 <= doy <= 365).
  { unfold doy, yoe. Z.div_mod_to_equations. lia. }
  clearbody doy.
  set (mp := (5 * doy + 2) / 153).
  assert (Hmp : 0 <= mp <= 11) by (unfold mp; Z.div_mod_to_equations; lia).
  set (d := doy - (153 * mp + 2) / 5 + 1).
  assert (Hd : 1 <= d <= 31) by (unfold d, mp; Z.div_mod_to_equations; lia).
  clearbody d mp.
  destruct (mp <? 10) eqn:E; [apply Z.ltb_lt in E|apply Z.ltb_ge in E]; lia.
Qed.

Lemma digit_inj (a b : Z) : digit a = digit b -> a mod 10 = b mod 10.
Proof.
  unfold digit. intros H. apply (f_equal nat_of_ascii) in H.
  pose proof (Z.mod_pos_bound a 10 ltac:(lia)).
  pose proof (Z.mod_pos_bound b 10 ltac:(lia)).
  rewrite !nat_ascii_embedding in H by lia. lia.
Qed.

Lemma pad2_inj (a b : Z) :
  0 <= a < 100 -> 0 <= b < 100 -> pad2 a = pad2 b -> a = b.
Proof.
  intros Ha Hb H. unfold pad2 in H. injection H as H1 H2.
  apply digit_inj in H1, H2. Z.div_mod_to_equations. lia.
Qed.

Lemma pad4_inj (a b : Z) :
  0 <= a < 10000 -> 0 <= b < 10000 -> pad4 a = pad4 b -> a = b.
Proof.
  intros Ha Hb H. unfold pad4, pad2 in H. injection H as H1 H2 H3 H4.
  apply digit_inj in H1, H2, H3, H4. Z.div_mod_to_equations. lia.
Qed.

(** Within the years a [datetime] can hold, two local times have the same
    ['%Y-%m-%d'] exactly when they have the same year, month and day. *)
Lemma strftime_ymd_inj (d1 d2 : datetime) :
  MINYEAR <= year d1 <= MAXYEAR -> MINYEAR <= year d2 <= MAXYEAR ->
  (strftime_ymd d1 = strftime_ymd d2
   <-> year d1 = year d2 /\ month d1 = month d2 /\ day d1 = day d2).
Proof.
  unfold MINYEAR, MAXYEAR. intros Hy1 Hy2. split.
  - unfold strftime_ymd.
    pose proof (civil_from_days_range (toordinal d1)) as [Hm1 Hd1].
    pose proof (civil_from_days_range (toordinal d2)) as [Hm2 Hd2].
    fold (month d1) in Hm1. fold (day d1) in Hd1.
    fold (month d2) in Hm2. fold (day d2) in Hd2.
    unfold pad4, pad2. cbn [String.append]. intros H.
    injection H as Y1 Y2 Y3 Y4 M1 M2 D1 D2.
    repeat split.
    + apply pad4_inj; [lia|lia|]. unfold pad4, pad2. congruence.
    + apply pad2_inj; [lia|lia|]. unfold pad2. congruence.
    + apply pad2_inj; [lia|lia|]. unfold pad2. congruence.
  - intros (Y & M & D). unfold strftime_ymd. now rewrite Y, M, D.
Qed.

Section Host.

Variable utcoffset : Z -> Z.

Lemma fromtimestamp_year (v : value) (d : datetime) :
  fromtimestamp utcoffset v = Ok d -> MINYEAR <= year d <= MAXYEAR.
Proof.
  unfold fromtimestamp. destruct (as_number v) as [q|]; [|discriminate].
  match goal with |- context [if ?c then _ else _] => destruct c eqn:E end;
    [|discriminate].
  intros [= <-]. apply andb_true_iff in E. destruct E as [E1 E2].
  apply Z.leb_le in E1, E2. split; assumption.
Qed.

Lemma read_sample_year (item : value) (s : sample) :
  read_sample utcoffset item = Some s ->
  MINYEAR <= year (s_date s) <= MAXYEAR.
Proof.
  unfold read_sample.
  destruct (getitem item "dt") as [dt|]; [|discriminate].
  destruct (fromtimestamp utcoffset dt) as [date|] eqn:Hdate; [|discriminate].
  apply fromtimestamp_year in Hdate.
  destruct (item_main item "temp"); [|discriminate].
  destruct (item_main item "humidity"); [|discriminate].
  destruct (item_wind_speed item); [|discriminate].
  destruct (item_weather0 item "description") as [[| | | |desc| |]|];
    try discriminate.
  destruct (item_weather0 item "main"); [|discriminate].
  destruct (item_weather0 item "icon"); [|discriminate].
  match goal with |- context [numeric ?x] => destruct (numeric x) end;
    [|discriminate].
  intros [= <-]. exact Hdate.
Qed.

Lemma read_samples_year (items : list value) :
  forall ss, read_samples utcoffset items = Some ss ->
             Forall (fun s => MINYEAR <= year (s_date s) <= MAXYEAR) ss.
Proof.
  induction items as [|item items IH]; intros ss; cbn [read_samples].
  - intros [= <-]. constructor.
  - destruct (read_sample utcoffset item) as [s|] eqn:Es; [|discriminate].
    destruct (read_samples utcoffset items) as [ss'|]; [|discriminate].
    intros [= <-]. constructor; [|now apply IH].
    now apply read_sample_year in Es.
Qed.

Lemma read_payload_year (data name country : value) (ss : list sample) :
  read_payload utcoffset data = Some (name, country, ss) ->
  Forall (fun s => MINYEAR <= year (s_date s) <= MAXYEAR) ss.
Proof.
  unfold read_payload.
  destruct (getitem data "city") as [city_info|]; [|discriminate].
  destruct (getitem data "list") as [[| | | | |items|]|]; try discriminate.
  destruct (getitem city_info "name"); [|discriminate].
  destruct (getitem city_info "country"); [|discriminate].
  destruct (read_samples utcoffset items) as [ss'|] eqn:Ess; [|discriminate].
  intros [= _ _ <-]. now apply read_samples_year in Ess.
Qed.

End Host.

End Calendar.

(* ================================================================== *)
(** * Properties of the aggregator *)
(* ================================================================== *)

Module Aggregation.

Import Summary FirstSeen Rounding.

(** ** The builtins on numbers *)

Lemma lt_numbers (a b : value) :
  is_number a = true -> is_number b = true ->
  Py.lt a b = Ok (Qltb (num a) (num b)).
Proof. destruct a, b; try discriminate; intros _ _; reflexivity. Qed.

Lemma min_numbers (a b : value) :
  is_number a = true -> is_number b = true -> Py.min a b = Ok (vmin a b).
Proof. intros Ha Hb. unfold Py.min. now rewrite lt_numbers. Qed.

Lemma max_numbers (a b : value) :
  is_number a = true -> is_number b = true -> Py.max a b = Ok (vmax a b).
Proof. intros Ha Hb. unfold Py.max. now rewrite lt_numbers. Qed.

Lemma vmin_number (a b : value) :
  is_number a = true -> is_number b = true -> is_number (vmin a b) = true.
Proof. unfold vmin. now destruct (Qltb _ _). Qed.

Lemma vmax_number (a b : value) :
  is_number a = true -> is_number b = true -> is_number (vmax a b) = true.
Proof. unfold vmax. now destruct (Qltb _ _). Qed.

Lemma Qltb_lt (x y : Q) : Qltb x y = true <-> (x < y)%Q.
Proof.
  unfold Qltb. rewrite Qlt_alt. destruct (x ?= y)%Q; split; congruence.
Qed.

Lemma Qltb_ge (x y : Q) : Qltb x y = false <-> (y <= x)%Q.
Proof.
  split; intros H.
  - apply Qnot_lt_le. intros L. apply Qltb_lt in L. congruence.
  - destruct (Qltb x y) eqn:E; [|reflexivity].
    apply Qltb_lt in E. exfalso. apply (Qlt_not_le _ _ E H).
Qed.

Lemma num_vmin (a b : value) :
  (num (vmin a b) <= num a)%Q /\ (num (vmin a b) <= num b)%Q
  /\ (vmin a b = a \/ vmin a b = b).
Proof.
  unfold vmin. destruct (Qltb (num b) (num a)) eqn:E.
  - apply Qltb_lt in E. repeat split; auto; lra.
  - apply Qltb_ge in E. repeat split; auto; lra.
Qed.

Lemma num_vmax (a b : value) :
  (num a <= num (vmax a b))%Q /\ (num b <= num (vmax a b))%Q
  /\ (vmax a b = a \/ vmax a b = b).
Proof.
  unfold vmax. destruct (Qltb (num a) (num b)) eqn:E.
  - apply Qltb_lt in E. repeat split; auto; lra.
  - apply Qltb_ge in E. repeat split; auto; lra.
Qed.

(** The running minimum of a list of numbers, from a seed. *)
Lemma fold_vmin (l : list value) (seed : value) :
  is_number seed = true -> Forall (fun v => is_number v = true) l ->
  let m := fold_left vmin l seed in
  is_number m = true
  /\ (m = seed \/ In m l)
  /\ (num m <= num seed)%Q
  /\ (forall v, In v l -> (num m <= num v)%Q).
Proof.
  revert seed. induction l as [|x l IH]; intros seed Hs Hl; cbn.
  - repeat split; auto; [lra|contradiction].
  - inversion Hl as [|? ? Hx Hl']; subst.
    destruct (IH (vmin seed x) (vmin_number _ _ Hs Hx) Hl') as (N & I & S & A).
    destruct (num_vmin seed x) as (L1 & L2 & C).
    repeat split; auto.
    + destruct I as [I|I]; [|auto]. rewrite I.
      destruct C as [C|C]; rewrite C; auto.
    + lra.
    + intros v [<-|Hv]; [lra|now apply A].
Qed.

Lemma fold_vmax (l : list value) (seed : value) :
  is_number seed = true -> Forall (fun v => is_number v = true) l ->
  let m := fold_left vmax l seed in
  is_number m = true
  /\ (m = seed \/ In m l)
  /\ (num seed <= num m)%Q
  /\ (forall v, In v l -> (num v <= num m)%Q).
Proof.
  revert seed. induction l as [|x l IH]; intros seed Hs Hl; cbn.
  - repeat split; auto; [lra|contradiction].
  - inversion Hl as [|? ? Hx Hl']; subst.
    destruct (IH (vmax seed x) (vmax_number _ _ Hs Hx) Hl') as (N & I & S & A).
    destruct (num_vmax seed x) as (L1 & L2 & C).
    repeat split; auto.
    + destruct I as [I|I]; [|auto]. rewrite I.
      destruct C as [C|C]; rewrite C; auto.
    + lra.
    + intros v [<-|Hv]; [lra|now apply A].
Qed.

Lemma round_half_even_Z (z : Z) : round_half_even (inject_Z z) = z.
Proof.
  unfold round_half_even. rewrite Qfloor_Z.
  destruct (Qcompare_spec (inject_Z z - inject_Z z) (1 # 2)) as [E|L|G];
    [exfalso; lra|reflexivity|exfalso; lra].
Qed.

Lemma round_number (v : value) :
  is_number v = true -> Py.round v = Ok (round_half_even (num v)).
Proof.
  destruct v as [|[|]|z|q| | |]; try discriminate; intros _; try reflexivity.
  cbn. unfold num. cbn. now rewrite round_half_even_Z.
Qed.

Lemma num_add_numbers (acc x : value) :
  is_number acc = true -> is_number x = true ->
  exists v, num_add acc x = Ok v /\ is_number v = true
            /\ (num v == num acc + num x)%Q.
Proof.
  destruct acc as [|[|]|a|a| | |], x as [|[|]|b|b| | |]; try discriminate;
    intros _ _; eexists; (split; [reflexivity|split; [reflexivity|]]);
    unfold num; cbn [as_number]; try rewrite inject_Z_plus; try reflexivity.
Qed.

Lemma foldM_num_add (l : list value) (acc : value) :
  is_number acc = true -> Forall (fun v => is_number v = true) l ->
  exists v, foldM num_add l acc = Ok v /\ is_number v = true
            /\ (num v == num acc + Qsum (map num l))%Q.
Proof.
  revert acc. induction l as [|x l IH]; intros acc Ha Hl; cbn [foldM].
  - exists acc. repeat split; auto. unfold Qsum. cbn [map fold_right]. lra.
  - inversion Hl as [|? ? Hx Hl']; subst.
    destruct (num_add_numbers acc x Ha Hx) as (v & -> & Hv & Ev). cbn [bind].
    destruct (IH v Hv Hl') as (r & Hr & Nr & Er).
    exists r. repeat split; auto. rewrite Er, Ev. unfold Qsum. cbn [map fold_right]. lra.
Qed.

(** [sum(l) / len(l)] on a non-empty list of numbers is their mean. *)
Lemma mean_numbers (l : list value) :
  l <> [] -> Forall (fun v => is_number v = true) l ->
  exists s q, Py.sum l = Ok s /\ truediv s (List.length l) = Ok q
              /\ (q == mean (map num l))%Q.
Proof.
  intros Hne Hl. unfold Py.sum.
  destruct (foldM_num_add l (VInt 0) eq_refl Hl) as (v & -> & Nv & Ev).
  exists v. unfold truediv, is_number in *.
  unfold num in Ev at 1. destruct (as_number v) as [q|]; [|discriminate].
  destruct l as [|x l]; [congruence|]. cbn [List.length].
  eexists. split; [reflexivity|]. split; [reflexivity|].
  unfold mean. rewrite length_map. cbn [List.length].
  rewrite Ev. unfold num at 1. cbn [as_number].
  apply Qdiv_comp; [|reflexivity]. change (inject_Z 0) with 0%Q. lra.
Qed.

(** ** Dicts filled in order of first encounter *)

Lemma tab_ext {A} (F G : string -> A) (ks : list string) :
  (forall k, In k ks -> F k = G k) -> tab F ks = tab G ks.
Proof.
  intros H. apply map_ext_in. intros k Hk. now rewrite H.
Qed.

Lemma tab_app {A} (F : string -> A) (ks ks' : list string) :
  tab F (ks ++ ks') = tab F ks ++ tab F ks'.
Proof. apply map_app. Qed.

Lemma lookup_tab_in {A} (F : string -> A) (ks : list string) (k : string) :
  In k ks -> lookup k (tab F ks) = Some (F k).
Proof.
  induction ks as [|a ks IH]; [contradiction|]. cbn.
  destruct (String.eqb_spec k a) as [->|Hne]; [reflexivity|].
  intros [E|H]; [congruence|auto].
Qed.

Lemma lookup_tab_out {A} (F : string -> A) (ks : list string) (k : string) :
  ~ In k ks -> lookup k (tab F ks) = None.
Proof.
  induction ks as [|a ks IH]; [reflexivity|]. cbn. intros H.
  destruct (String.eqb_spec k a) as [->|Hne]; [exfalso; auto|].
  apply IH. intros Hin. apply H. now right.
Qed.

Lemma lookup_app_out {A} (k : string) (d d' : list (string * A)) :
  lookup k d = None -> lookup k (d ++ d') = lookup k d'.
Proof.
  induction d as [|[a v] d IH]; [reflexivity|]. cbn.
  destruct (String.eqb k a); [discriminate|exact IH].
Qed.

Lemma dict_set_app_out {A} (k : string) (v : A) (d d' : list (string * A)) :
  lookup k d = None -> dict_set k v (d ++ d') = d ++ dict_set k v d'.
Proof.
  induction d as [|[a x] d IH]; [reflexivity|]. cbn.
  destruct (String.eqb k a); [discriminate|]. intros H. now rewrite IH.
Qed.

Lemma dict_set_tab_new {A} (F : string -> A) (ks : list string) (k : string) (v : A) :
  ~ In k ks -> dict_set k v (tab F ks) = tab F ks ++ [(k, v)].
Proof.
  intros H. rewrite <- (app_nil_r (tab F ks)) at 1.
  rewrite dict_set_app_out by now apply lookup_tab_out. reflexivity.
Qed.

Lemma dict_set_tab_old {A} (F : string -> A) (ks : list string) (k : string) (v : A) :
  NoDup ks -> In k ks ->
  dict_set k v (tab F ks) = tab (fun k' => if String.eqb k' k then v else F k') ks.
Proof.
  induction ks as [|a ks IH]; [contradiction|]. intros Hnd Hin.
  inversion Hnd as [|? ? Ha Hks]; subst. cbn.
  destruct (String.eqb_spec k a) as [->|Hne].
  - rewrite String.eqb_refl. f_equal. apply tab_ext. intros k' Hk'.
    destruct (String.eqb_spec k' a) as [->|]; [contradiction|reflexivity].
  - destruct (String.eqb_spec a k) as [->|_]; [congruence|].
    f_equal. destruct Hin as [E|Hin]; [congruence|]. now apply IH.
Qed.

(** ** The first loop *)

Lemma day_group_snoc (k : string) (ss : list sample) (s : sample) :
  day_group k (ss ++ [s])
  = day_group k ss ++ (if String.eqb (date_key s) k then [s] else []).
Proof. unfold day_group. rewrite filter_app. reflexivity. Qed.

Lemma day_group_nil (k : string) (ss : list sample) :
  ~ In k (map date_key ss) -> day_group k ss = [].
Proof.
  unfold day_group.
  induction ss as [|x ss IH]; [reflexivity|]. cbn [map filter In]. intros H.
  unfold on_day at 1. destruct (String.eqb_spec (date_key x) k) as [E|_].
  - exfalso. apply H. now left.
  - apply IH. intros Hin. apply H. now right.
Qed.

Lemma day_group_not_nil (k : string) (ss : list sample) :
  In k (map date_key ss) -> day_group k ss <> [].
Proof.
  rewrite in_map_iff. intros (x & E & Hx) Hnil.
  assert (Hin : In x (day_group k ss)).
  { apply filter_In. split; [exact Hx|]. unfold on_day. rewrite E.
    apply String.eqb_refl. }
  rewrite Hnil in Hin. contradiction.
Qed.

Lemma day_group_numeric (k : string) (ss : list sample) :
  Forall (fun s => numeric s = true) ss ->
  Forall (fun s => numeric s = true) (day_group k ss).
Proof.
  rewrite !Forall_forall. intros H x Hx. apply filter_In in Hx. now apply H.
Qed.

Lemma numeric_inv (s : sample) :
  numeric s = true ->
  is_number (s_temp s) = true /\ is_number (s_humidity s) = true
  /\ is_number (s_wind_speed s) = true.
Proof.
  unfold numeric. rewrite !andb_true_iff. tauto.
Qed.

Lemma numeric_temps (g : list sample) :
  Forall (fun s => numeric s = true) g ->
  Forall (fun v => is_number v = true) (map s_temp g).
Proof.
  intros H. apply Forall_map. revert H. apply Forall_impl.
  intros s Hs. now apply numeric_inv in Hs.
Qed.

Lemma open_day_temps_numeric (g : list sample) :
  g <> [] -> Forall (fun s => numeric s = true) g ->
  is_number (DailyForecast.temp_min (open_day g)) = true
  /\ is_number (DailyForecast.temp_max (open_day g)) = true.
Proof.
  destruct g as [|first rest]; [congruence|]. intros _ H.
  assert (Hf : is_number (s_temp first) = true).
  { inversion H; subst. now apply numeric_inv. }
  pose proof (numeric_temps _ H) as Ht.
  unfold open_day. cbn [DailyForecast.temp_min DailyForecast.temp_max].
  split; [apply fold_vmin|apply fold_vmax]; assumption.
Qed.

Lemma open_day_single (s : sample) : open_day [s] = extend (seed s) s.
Proof. reflexivity. Qed.

Lemma open_day_snoc (g : list sample) (s : sample) :
  g <> [] -> open_day (g ++ [s]) = extend (open_day g) s.
Proof.
  destruct g as [|first rest]; [congruence|]. intros _.
  unfold open_day, extend. cbn [app DailyForecast.date DailyForecast.temp_min
    DailyForecast.temp_max DailyForecast.descriptions DailyForecast.humidity
    DailyForecast.wind_speeds DailyForecast.main_weather DailyForecast.icon
    DailyForecast.avg_humidity DailyForecast.avg_wind_speed
    DailyForecast.description].
  change (first :: rest ++ [s]) with ((first :: rest) ++ [s]).
  rewrite !map_app, !fold_left_app. reflexivity.
Qed.

Section Host.

Variable utcoffset : Z -> Z.

(** What [read_sample] found in the item. *)
Lemma read_sample_inv (item : value) (s : sample) :
  read_sample utcoffset item = Some s ->
  getitem item "dt" = Ok (s_dt s)
  /\ fromtimestamp utcoffset (s_dt s) = Ok (s_date s)
  /\ item_main item "temp" = Ok (s_temp s)
  /\ item_main item "humidity" = Ok (s_humidity s)
  /\ item_wind_speed item = Ok (s_wind_speed s)
  /\ item_weather0 item "description" = Ok (VStr (s_description s))
  /\ item_weather0 item "main" = Ok (s_main s)
  /\ item_weather0 item "icon" = Ok (s_icon s)
  /\ numeric s = true.
Proof.
  unfold read_sample.
  destruct (getitem item "dt") as [dt|] eqn:Hdt; [|discriminate].
  destruct (fromtimestamp utcoffset dt) as [date|] eqn:Hdate; [|discriminate].
  destruct (item_main item "temp") as [temp|]; [|discriminate].
  destruct (item_main item "humidity") as [hum|]; [|discriminate].
  destruct (item_wind_speed item) as [speed|]; [|discriminate].
  destruct (item_weather0 item "description") as [[| | | |desc| |]|];
    try discriminate.
  destruct (item_weather0 item "main") as [main|]; [|discriminate].
  destruct (item_weather0 item "icon") as [icon|]; [|discriminate].
  match goal with |- context [numeric ?x] => destruct (numeric x) eqn:N end;
    [|discriminate].
  intros [= <-]. cbn [s_dt s_date s_temp s_humidity s_wind_speed
                      s_description s_main s_icon].
  repeat split; try reflexivity; try exact N; assumption.
Qed.

Lemma vmin_same (v : value) : vmin v v = v.
Proof. unfold vmin. now destruct (Qltb _ _). Qed.

Lemma vmax_same (v : value) : vmax v v = v.
Proof. unfold vmax. now destruct (Qltb _ _). Qed.

(** One turn of the first loop on a well-formed item. *)
Lemma group_item_step (ss : list sample) (item : value) (s : sample) :
  Forall (fun x => numeric x = true) ss ->
  read_sample utcoffset item = Some s ->
  group_item utcoffset (open_days ss) item = Ok (open_days (ss ++ [s])).
Proof.
  intros Hss Hread.
  destruct (read_sample_inv _ _ Hread)
    as (Hdt & Hdate & Htemp & Hhum & Hspeed & Hdesc & Hmain & Hicon & Hnum).
  destruct (numeric_inv _ Hnum) as (Nt & _ & _).
  unfold group_item. rewrite Hdt. cbn [bind]. rewrite Hdate. cbn [bind].
  fold (date_key s). rewrite !Htemp, Hmain, Hicon, Hdesc, Hhum, Hspeed.
  cbn [bind]. fold (seed s).
  set (k := date_key s).
  set (ks := distinct (map date_key ss)).
  set (F := fun k' => open_day (day_group k' ss)).
  assert (Hsnoc : map date_key (ss ++ [s]) = map date_key ss ++ [k])
    by apply map_app.
  unfold dict_mem, dict_get.
  destruct (in_dec string_dec k (map date_key ss)) as [Hin|Hout].
  - (* the day exists *)
    assert (Hks : In k ks) by now apply in_distinct.
    unfold open_days at 1 2. fold ks. fold F.
    rewrite (lookup_tab_in F ks k Hks). cbn [negb bind].
    unfold open_days at 1. fold ks. fold F.
    rewrite (lookup_tab_in F ks k Hks). cbn [bind].
    pose proof (day_group_not_nil k ss Hin) as Hne.
    destruct (open_day_temps_numeric (day_group k ss) Hne
                (day_group_numeric k ss Hss)) as [Nmin Nmax].
    unfold F at 1 2.
    rewrite (min_numbers _ _ Nmin Nt), (max_numbers _ _ Nmax Nt). cbn [bind].
    fold (extend (F k) s).
    unfold open_days at 1. fold ks. fold F.
    rewrite dict_set_tab_old by (auto; apply NoDup_distinct).
    unfold open_days. rewrite Hsnoc, distinct_snoc.
    destruct (in_dec string_dec k (map date_key ss)); [|contradiction].
    fold ks. f_equal. apply tab_ext. intros k' Hk'.
    rewrite day_group_snoc. fold k.
    destruct (String.eqb_spec k' k) as [->|Hne'].
    + rewrite String.eqb_refl. unfold F. now rewrite open_day_snoc.
    + destruct (String.eqb_spec k k') as [E|_]; [congruence|].
      now rewrite app_nil_r.
  - (* the first sample of a day *)
    assert (Hks : ~ In k ks) by (intros H; apply Hout; now apply in_distinct).
    unfold open_days at 1 2. fold ks. fold F.
    rewrite (lookup_tab_out F ks k Hks). cbn [negb bind].
    rewrite dict_set_tab_new by exact Hks.
    rewrite lookup_app_out by now apply lookup_tab_out.
    cbn [lookup]. rewrite String.eqb_refl. cbn [bind].
    change (DailyForecast.temp_min (seed s)) with (s_temp s).
    change (DailyForecast.temp_max (seed s)) with (s_temp s).
    rewrite (min_numbers _ _ Nt Nt), (max_numbers _ _ Nt Nt). cbn [bind].
    change (vmin (s_temp s) (s_temp s))
      with (vmin (DailyForecast.temp_min (seed s)) (s_temp s)).
    change (vmax (s_temp s) (s_temp s))
      with (vmax (DailyForecast.temp_max (seed s)) (s_temp s)).
    fold (extend (seed s) s).
    rewrite dict_set_app_out by now apply lookup_tab_out.
    cbn [dict_set]. rewrite String.eqb_refl.
    unfold open_days. rewrite Hsnoc, distinct_snoc.
    destruct (in_dec string_dec k (map date_key ss)); [contradiction|].
    fold ks. rewrite tab_app. f_equal. apply (f_equal2 (@app _)).
    + apply tab_ext. intros k' Hk'. rewrite day_group_snoc. fold k.
      destruct (String.eqb_spec k k') as [E|_].
      * exfalso. apply Hks. now rewrite E.
      * now rewrite app_nil_r.
    + cbn [tab map]. rewrite day_group_snoc. fold k.
      rewrite String.eqb_refl, (day_group_nil k ss Hout). reflexivity.
Qed.

End Host.

(** ** The second loop *)

Lemma counts_get_in (G : string -> Z) (ks : list string) (d : string) (z : Z) :
  In d ks -> counts_get (VStr d) z (vtab G ks) = G d.
Proof.
  induction ks as [|a ks IH]; [contradiction|]. cbn.
  destruct (String.eqb_spec d a) as [->|Hne]; [reflexivity|].
  intros [E|H]; [congruence|auto].
Qed.

Lemma counts_get_out (G : string -> Z) (ks : list string) (d : string) (z : Z) :
  ~ In d ks -> counts_get (VStr d) z (vtab G ks) = z.
Proof.
  induction ks as [|a ks IH]; [reflexivity|]. cbn. intros H.
  destruct (String.eqb_spec d a) as [->|Hne]; [exfalso; auto|].
  apply IH. intros Hin. apply H. now right.
Qed.

Lemma counts_set_new (G : string -> Z) (ks : list string) (d : string) (z : Z) :
  ~ In d ks -> counts_set (VStr d) z (vtab G ks) = vtab G ks ++ [(VStr d, z)].
Proof.
  induction ks as [|a ks IH]; [reflexivity|]. cbn. intros H.
  destruct (String.eqb_spec d a) as [->|Hne]; [exfalso; auto|].
  f_equal. apply IH. intros Hin. apply H. now right.
Qed.

Lemma vtab_ext (G G' : string -> Z) (ks : list string) :
  (forall k, In k ks -> G k = G' k) -> vtab G ks = vtab G' ks.
Proof.
  intros H. apply map_ext_in. intros k Hk. now rewrite H.
Qed.

Lemma counts_set_old (G : string -> Z) (ks : list string) (d : string) (z : Z) :
  NoDup ks -> In d ks ->
  counts_set (VStr d) z (vtab G ks)
  = vtab (fun k => if String.eqb k d then z else G k) ks.
Proof.
  induction ks as [|a ks IH]; [contradiction|]. intros Hnd Hin.
  inversion Hnd as [|? ? Ha Hks]; subst. cbn.
  destruct (String.eqb_spec d a) as [->|Hne].
  - rewrite String.eqb_refl. f_equal. apply vtab_ext. intros k' Hk'.
    destruct (String.eqb_spec k' a) as [->|]; [contradiction|reflexivity].
  - destruct (String.eqb_spec a d) as [->|_]; [congruence|].
    f_equal. destruct Hin as [E|Hin]; [congruence|]. now apply IH.
Qed.

Lemma occurrences_snoc (d x : string) (l : list string) :
  occurrences d (l ++ [x])
  = (occurrences d l + if String.eqb x d then 1 else 0)%nat.
Proof.
  unfold occurrences. rewrite count_occ_app. cbn.
  destruct (string_dec x d) as [->|Hne].
  - now rewrite String.eqb_refl.
  - destruct (String.eqb_spec x d); [contradiction|reflexivity].
Qed.

(** One turn of the counting loop. *)
Lemma count_step (l : list string) (x : string) :
  counts_set (VStr x) (counts_get (VStr x) 0 (counted l) + 1) (counted l)
  = counted (l ++ [x]).
Proof.
  unfold counted. rewrite distinct_snoc.
  destruct (in_dec string_dec x l) as [Hin|Hout].
  - assert (Hd : In x (distinct l)) by now apply in_distinct.
    rewrite counts_get_in by exact Hd.
    rewrite counts_set_old by (auto; apply NoDup_distinct).
    apply vtab_ext. intros k Hk. rewrite occurrences_snoc.
    destruct (String.eqb_spec k x) as [->|Hne].
    + rewrite String.eqb_refl. lia.
    + destruct (String.eqb_spec x k); [congruence|]. f_equal. lia.
  - assert (Hd : ~ In x (distinct l)) by (intros H; apply Hout; now apply in_distinct).
    rewrite counts_get_out by exact Hd.
    rewrite counts_set_new by exact Hd.
    unfold vtab. rewrite map_app. apply (f_equal2 (@app _)).
    + apply map_ext_in. intros k Hk. rewrite occurrences_snoc.
      destruct (String.eqb_spec x k) as [->|_]; [contradiction|].
      do 2 f_equal. lia.
    + cbn [map]. rewrite occurrences_snoc, String.eqb_refl.
      unfold occurrences. rewrite (proj1 (count_occ_not_In string_dec l x) Hout).
      reflexivity.
Qed.

Lemma count_descriptions_from (l pre : list string) :
  foldM (fun counts desc =>
           if hashable desc
           then Ok (counts_set desc (counts_get desc 0 counts + 1) counts)
           else Raise TypeError)
        (map VStr l) (counted pre)
  = Ok (counted (pre ++ l)).
Proof.
  revert pre. induction l as [|x l IH]; intros pre.
  - now rewrite app_nil_r.
  - cbn [map foldM hashable bind]. rewrite count_step, IH.
    now rewrite <- app_assoc.
Qed.

Lemma count_descriptions_strings (l : list string) :
  count_descriptions (map VStr l) = Ok (counted l).
Proof. apply (count_descriptions_from l []). Qed.

Lemma max_by_count_vtab (G : string -> Z) (k : string) (ks : list string) :
  max_by_count (vtab G (k :: ks))
  = Ok (VStr (first_most G k ks), G (first_most G k ks)).
Proof.
  unfold max_by_count, first_most. cbn [vtab map]. f_equal.
  revert k. induction ks as [|d ks IH]; intros k; [reflexivity|].
  cbn [map fold_left snd]. destruct (G k <? G d); apply IH.
Qed.



Lemma round1_compat (p q : Q) : (p == q)%Q -> round1 p = round1 q.
Proof.
  intros H. unfold round1. f_equal. apply round_half_even_compat.
  now rewrite H.
Qed.

Lemma numeric_humidity (g : list sample) :
  Forall (fun s => numeric s = true) g ->
  Forall (fun v => is_number v = true) (map s_humidity g).
Proof.
  intros H. apply Forall_map. revert H. apply Forall_impl.
  intros s Hs. now apply numeric_inv in Hs.
Qed.

Lemma numeric_wind (g : list sample) :
  Forall (fun s => numeric s = true) g ->
  Forall (fun v => is_number v = true) (map s_wind_speed g).
Proof.
  intros H. apply Forall_map. revert H. apply Forall_impl.
  intros s Hs. now apply numeric_inv in Hs.
Qed.

(** One turn of the second loop on the dict of a well-formed day. *)
Lemma average_day_open (g : list sample) :
  g <> [] -> Forall (fun s => numeric s = true) g ->
  average_day (open_day g) = Ok (closed_day g).
Proof.
  intros Hne Hnum.
  destruct (open_day_temps_numeric g Hne Hnum) as [Nmin Nmax].
  unfold average_day, closed_day.
  rewrite (round_number _ Nmin), (round_number _ Nmax). cbn [bind].
  destruct g as [|first rest]; [congruence|].
  set (g := first :: rest) in *.
  assert (Eh : DailyForecast.humidity (open_day g) = map s_humidity g)
    by reflexivity.
  assert (Ew : DailyForecast.wind_speeds (open_day g) = map s_wind_speed g)
    by reflexivity.
  assert (Ed : DailyForecast.descriptions (open_day g)
               = map VStr (map s_description g))
    by (rewrite map_map; reflexivity).
  rewrite Eh, Ew, Ed.
  destruct (mean_numbers (map s_humidity g)) as (hs & hq & -> & Hh & Eqh);
    [discriminate|now apply numeric_humidity|].
  cbn [bind]. rewrite Hh. cbn [bind].
  destruct (mean_numbers (map s_wind_speed g)) as (ws & wq & -> & Hw & Eqw);
    [discriminate|now apply numeric_wind|].
  cbn [bind]. rewrite Hw. cbn [bind].
  rewrite count_descriptions_strings. cbn [bind].
  unfold counted, most_frequent.
  destruct (distinct (map s_description g)) as [|k ks] eqn:Edis;
    [discriminate|].
  rewrite max_by_count_vtab. cbn [bind fst str_title].
  rewrite (round_half_even_compat _ _ Eqh), (round1_compat _ _ Eqw).
  reflexivity.
Qed.

Lemma mapM_tab (F G : string -> DailyForecast.t) (ks : list string) :
  (forall k, In k ks -> average_day (F k) = Ok (G k)) ->
  mapM (fun kv => f <- average_day (snd kv) ;; Ok (fst kv, f)) (tab F ks)
  = Ok (tab G ks).
Proof.
  induction ks as [|k ks IH]; intros H; [reflexivity|].
  cbn [tab map mapM fst snd]. rewrite (H k) by now left. cbn [bind].
  fold (tab F ks). rewrite IH by (intros k' Hk'; apply H; now right).
  reflexivity.
Qed.

Section Host.

Variable utcoffset : Z -> Z.

Lemma read_samples_numeric (items : list value) :
  forall ss, read_samples utcoffset items = Some ss ->
             Forall (fun s => numeric s = true) ss.
Proof.
  induction items as [|item items IH]; intros ss; cbn [read_samples].
  - intros [= <-]. constructor.
  - destruct (read_sample utcoffset item) as [s|] eqn:Es; [|discriminate].
    destruct (read_samples utcoffset items) as [ss'|]; [|discriminate].
    intros [= <-]. constructor; [|now apply IH].
    now destruct (read_sample_inv utcoffset _ _ Es)
      as (_ & _ & _ & _ & _ & _ & _ & _ & N).
Qed.

Lemma read_samples_dated (items : list value) :
  forall ss, read_samples utcoffset items = Some ss ->
             Forall (dated utcoffset) ss.
Proof.
  induction items as [|item items IH]; intros ss; cbn [read_samples].
  - intros [= <-]. constructor.
  - destruct (read_sample utcoffset item) as [s|] eqn:Es; [|discriminate].
    destruct (read_samples utcoffset items) as [ss'|]; [|discriminate].
    intros [= <-]. constructor; [|now apply IH].
    now destruct (read_sample_inv utcoffset _ _ Es) as (_ & D & _).
Qed.

(** The samples of a well-formed payload are those of its list. *)
Lemma read_payload_samples (data name country : value) (ss : list sample) :
  read_payload utcoffset data = Some (name, country, ss) ->
  exists items, getitem data "list" = Ok (VList items)
                /\ read_samples utcoffset items = Some ss.
Proof.
  unfold read_payload.
  destruct (getitem data "city") as [city_info|]; [|discriminate].
  destruct (getitem data "list") as [[| | | | |items|]|]; try discriminate.
  destruct (getitem city_info "name"); [|discriminate].
  destruct (getitem city_info "country"); [|discriminate].
  destruct (read_samples utcoffset items) as [ss'|] eqn:Ess; [|discriminate].
  intros [= _ _ <-]. now exists items.
Qed.

(** The first loop on well-formed items. *)
Lemma first_loop (items : list value) :
  forall ss pre,
    read_samples utcoffset items = Some ss ->
    Forall (fun s => numeric s = true) pre ->
    foldM (group_item utcoffset) items (open_days pre) = Ok (open_days (pre ++ ss)).
Proof.
  induction items as [|item items IH]; intros ss pre; cbn [read_samples].
  - intros [= <-] _. now rewrite app_nil_r.
  - destruct (read_sample utcoffset item) as [s|] eqn:Es; [|discriminate].
    destruct (read_samples utcoffset items) as [ss'|] eqn:Ess; [|discriminate].
    intros [= <-] Hpre. cbn [foldM].
    rewrite (group_item_step utcoffset pre item s Hpre Es). cbn [bind].
    rewrite (IH ss' (pre ++ [s]) eq_refl).
    + now rewrite <- app_assoc.
    + apply Forall_app. split; [exact Hpre|]. constructor; [|constructor].
      now destruct (read_sample_inv utcoffset _ _ Es)
      as (_ & _ & _ & _ & _ & _ & _ & _ & N).
Qed.

(** [_format_forecast_data] on a well-formed payload: the summaries of the
    first five days, in order of first encounter. *)
Lemma format_forecast_data_closed_form (data name country : value)
    (ss : list sample) :
  read_payload utcoffset data = Some (name, country, ss) ->
  _format_forecast_data utcoffset data
  = Ok (Dict {| ForecastData.city := name;
                ForecastData.country := country;
                ForecastData.forecasts := firstn 5 (closed_days ss) |}).
Proof.
  unfold read_payload, _format_forecast_data, format_forecast_data_try.
  destruct (getitem data "city") as [city_info|]; [|discriminate].
  destruct (getitem data "list") as [[| | | | |items|]|]; try discriminate.
  destruct (getitem city_info "name") as [name'|] eqn:En; [|discriminate].
  destruct (getitem city_info "country") as [country'|] eqn:Ec; [|discriminate].
  destruct (read_samples utcoffset items) as [ss'|] eqn:Ess; [|discriminate].
  intros [= <- <- <-]. cbn [bind iter].
  change (@nil (string * DailyForecast.t)) with (open_days []).
  rewrite (first_loop items ss' [] Ess) by constructor. cbn [bind app].
  pose proof (read_samples_numeric items ss' Ess) as Hnum.
  unfold open_days.
  rewrite (mapM_tab _ (fun k => closed_day (day_group k ss'))).
  - cbn [bind]. rewrite En, Ec. cbn [bind except_KeyError].
    unfold closed_days, tab. rewrite map_map. cbn [snd]. reflexivity.
  - intros k Hk. rewrite in_distinct in Hk.
    apply average_day_open;
      [now apply day_group_not_nil|now apply day_group_numeric].
Qed.

End Host.

(** ** The entries of the result *)

Lemma in_firstn {A} (n : nat) (l : list A) (x : A) : In x (firstn n l) -> In x l.
Proof.
  intros H. rewrite <- (firstn_skipn n l). apply in_app_iff. now left.
Qed.

(** The group of a date that occurs starts with a sample of that date, and
    the summary carries the local time of that sample. *)
Lemma day_group_first (k : string) (ss : list sample) :
  In k (map date_key ss) ->
  exists first rest,
    day_group k ss = first :: rest /\ date_key first = k /\ In first ss.
Proof.
  intros Hin. pose proof (day_group_not_nil k ss Hin) as Hne.
  destruct (day_group k ss) as [|first rest] eqn:E; [congruence|].
  exists first, rest. split; [reflexivity|].
  assert (H : In first (day_group k ss)) by (rewrite E; now left).
  apply filter_In in H. destruct H as [H1 H2].
  split; [|exact H1]. unfold on_day in H2. now apply String.eqb_eq.
Qed.

Lemma closed_day_key (k : string) (ss : list sample) :
  In k (map date_key ss) ->
  strftime_ymd (DailyForecast.date (closed_day (day_group k ss))) = k.
Proof.
  intros Hin. destruct (day_group_first k ss Hin) as (first & rest & -> & E & _).
  exact E.
Qed.

Lemma in_closed_days (f : DailyForecast.t) (ss : list sample) :
  In f (closed_days ss) ->
  exists k, In k (map date_key ss) /\ f = closed_day (day_group k ss)
            /\ strftime_ymd (DailyForecast.date f) = k.
Proof.
  unfold closed_days. rewrite in_map_iff. intros (k & <- & Hk).
  rewrite in_distinct in Hk. exists k. repeat split; auto.
  now apply closed_day_key.
Qed.

Lemma closed_days_keys (ss : list sample) :
  map (fun f => strftime_ymd (DailyForecast.date f)) (closed_days ss)
  = distinct (map date_key ss).
Proof.
  unfold closed_days. rewrite map_map.
  rewrite <- (map_id (distinct (map date_key ss))) at 2.
  apply map_ext_in. intros k Hk. rewrite in_distinct in Hk.
  now apply closed_day_key.
Qed.

(** ** Ascending dates *)

Lemma same_day_same_key (d1 d2 : datetime) :
  toordinal d1 = toordinal d2 -> strftime_ymd d1 = strftime_ymd d2.
Proof.
  intros H. unfold strftime_ymd, year, month, day. now rewrite H.
Qed.

(** The local day of a local time that [fromtimestamp] builds: the local
    second count, in days. *)
Lemma toordinal_local_seconds (us offset : Z) :
  toordinal {| local_us := us + offset * us_per_second |}
  = (us / us_per_second + offset) / seconds_per_day.
Proof.
  unfold toordinal. cbn [local_us].
  rewrite (Z.mul_comm seconds_per_day us_per_second).
  rewrite <- Z.div_div by (unfold us_per_second, seconds_per_day; lia).
  now rewrite Z.div_add by (unfold us_per_second; lia).
Qed.

(** Where the calendar of the host never goes back, a later timestamp has
    no earlier local day. *)
Lemma fromtimestamp_day_le (utcoffset : Z -> Z) (v1 v2 : value)
    (d1 d2 : datetime) :
  local_day_never_decreases utcoffset ->
  fromtimestamp utcoffset v1 = Ok d1 ->
  fromtimestamp utcoffset v2 = Ok d2 ->
  (num v1 <= num v2)%Q ->
  toordinal d1 <= toordinal d2.
Proof.
  intros Hclock. unfold fromtimestamp, num.
  destruct (as_number v1) as [q1|]; [|discriminate].
  destruct (as_number v2) as [q2|]; [|discriminate].
  do 2 (match goal with |- context [if ?c then _ else _] => destruct c end;
        [|discriminate]).
  intros [= <-] [= <-] Hq. rewrite !toordinal_local_seconds.
  assert (Hus : round_half_even (q1 * inject_Z us_per_second)
                <= round_half_even (q2 * inject_Z us_per_second)).
  { apply round_half_even_le. apply Qmult_le_compat_r; [exact Hq|].
    unfold us_per_second. now apply Qle_bool_imp_le. }
  apply Hclock. apply Z.div_le_mono; [reflexivity|exact Hus].
Qed.

Lemma chronological_days (utcoffset : Z -> Z) (ss : list sample) :
  local_day_never_decreases utcoffset ->
  Forall (dated utcoffset) ss ->
  chronological ss ->
  StronglySorted (fun a b => toordinal (s_date a) <= toordinal (s_date b)) ss.
Proof.
  intros Hclock. unfold chronological.
  induction ss as [|s ss IH]; intros Hd Hc; [constructor|].
  apply StronglySorted_inv in Hc. destruct Hc as [Hc Hs].
  inversion Hd as [|? ? Hds Hdss]; subst.
  constructor; [now apply IH|].
  rewrite Forall_forall in Hs, Hdss |- *. intros x Hx.
  apply (fromtimestamp_day_le utcoffset (s_dt s) (s_dt x));
    [exact Hclock|exact Hds|now apply Hdss|now apply Hs].
Qed.

Lemma StronglySorted_map_remove {A} (R : A -> A -> Prop) (F : string -> A)
    (x : string) (ks : list string) :
  StronglySorted R (map F ks) ->
  StronglySorted R (map F (remove string_dec x ks)).
Proof.
  induction ks as [|k ks IH]; cbn [map remove]; intros H; [constructor|].
  apply StronglySorted_inv in H. destruct H as [Hs Hf].
  destruct (string_dec x k); [now apply IH|].
  cbn [map]. constructor; [now apply IH|].
  rewrite Forall_forall in *. intros y Hy. apply Hf.
  apply in_map_iff in Hy. destruct Hy as (k' & <- & Hk').
  apply in_remove in Hk'. apply in_map. tauto.
Qed.

Lemma StronglySorted_firstn {A} (R : A -> A -> Prop) (n : nat) (l : list A) :
  StronglySorted R l -> StronglySorted R (firstn n l).
Proof.
  revert n. induction l as [|a l IH]; intros [|n] H; cbn [firstn];
    try constructor.
  - apply IH. now apply StronglySorted_inv in H.
  - apply StronglySorted_inv in H. destruct H as [_ Hf].
    rewrite Forall_forall in *. intros y Hy. apply Hf. now apply in_firstn in Hy.
Qed.

Lemma day_group_cons_other (k : string) (s : sample) (ss : list sample) :
  k <> date_key s -> day_group k (s :: ss) = day_group k ss.
Proof.
  intros H. unfold day_group. cbn [filter]. unfold on_day at 1.
  destruct (String.eqb_spec (date_key s) k); [congruence|reflexivity].
Qed.

Lemma day_group_cons_same (s : sample) (ss : list sample) :
  day_group (date_key s) (s :: ss) = s :: day_group (date_key s) ss.
Proof.
  unfold day_group. cbn [filter]. unfold on_day at 1.
  now rewrite String.eqb_refl.
Qed.

(** Samples whose local day never decreases give summaries of strictly
    ascending days. *)
Lemma closed_days_ascending (ss : list sample) :
  StronglySorted (fun a b => toordinal (s_date a) <= toordinal (s_date b)) ss ->
  StronglySorted earlier_day (closed_days ss).
Proof.
  unfold closed_days.
  induction ss as [|s ss IH]; intros Hc; [constructor|].
  apply StronglySorted_inv in Hc. destruct Hc as [Hc Hs].
  cbn [map distinct]. rewrite day_group_cons_same.
  set (ks := distinct (map date_key ss)) in *.
  assert (E : map (fun k => closed_day (day_group k (s :: ss)))
                  (remove string_dec (date_key s) ks)
              = map (fun k => closed_day (day_group k ss))
                    (remove string_dec (date_key s) ks)).
  { apply map_ext_in. intros k Hk. apply in_remove in Hk.
    now rewrite day_group_cons_other. }
  rewrite E. constructor.
  - apply StronglySorted_map_remove. now apply IH.
  - rewrite Forall_forall. intros f Hf.
    apply in_map_iff in Hf. destruct Hf as (k & <- & Hk).
    apply in_remove in Hk. destruct Hk as [Hk Hne].
    unfold ks in Hk. rewrite in_distinct in Hk.
    destruct (day_group_first k ss Hk) as (first & rest & -> & Ek & Hin).
    unfold earlier_day.
    change (toordinal (s_date s) < toordinal (s_date first)).
    rewrite Forall_forall in Hs. specialize (Hs first Hin). cbn beta in Hs.
    assert (toordinal (s_date s) <> toordinal (s_date first)).
    { intros Eo. apply Hne. rewrite <- Ek. symmetry.
      now apply same_day_same_key. }
    lia.
Qed.

(** ** Minimum and maximum on any payload *)

(** [<] succeeds only between values of one kind. *)
Lemma lt_same_kind (a b : value) (c : bool) :
  Py.lt a b = Ok c -> is_number a = is_number b.
Proof.
  destruct a, b; try discriminate; intros _; reflexivity.
Qed.

Lemma min_inv (a b m : value) :
  Py.min a b = Ok m ->
  is_number a = is_number b
  /\ (is_number a = true -> m = vmin a b)
  /\ (m = a \/ m = b).
Proof.
  unfold Py.min. destruct (Py.lt b a) as [c|] eqn:E; [|discriminate].
  cbn [bind]. intros [= <-]. pose proof (lt_same_kind _ _ _ E) as K.
  split; [now symmetry|]. split.
  - intros Na. rewrite lt_numbers in E by congruence.
    injection E as <-. reflexivity.
  - destruct c; auto.
Qed.

Lemma max_inv (a b m : value) :
  Py.max a b = Ok m ->
  is_number a = is_number b
  /\ (is_number a = true -> m = vmax a b)
  /\ (m = a \/ m = b).
Proof.
  unfold Py.max. destruct (Py.lt a b) as [c|] eqn:E; [|discriminate].
  cbn [bind]. intros [= <-]. pose proof (lt_same_kind _ _ _ E) as K.
  split; [exact K|]. split.
  - intros Na. rewrite lt_numbers in E by congruence.
    injection E as <-. reflexivity.
  - destruct c; auto.
Qed.

Lemma Forall_dict_set {A} (P : A -> Prop) (k : string) (v : A)
    (d : list (string * A)) :
  P v -> Forall (fun kv => P (snd kv)) d ->
  Forall (fun kv => P (snd kv)) (dict_set k v d).
Proof.
  intros Hv. induction d as [|[a x] d IH]; intros Hd; cbn [dict_set].
  - constructor; [exact Hv|constructor].
  - inversion Hd as [|? ? Hx Hd']; subst.
    destruct (String.eqb k a); constructor; auto.
Qed.

Lemma dict_get_Forall {A} (P : A -> Prop) (k : string) (v : A)
    (d : list (string * A)) :
  dict_get k d = Ok v -> Forall (fun kv => P (snd kv)) d -> P v.
Proof.
  unfold dict_get. induction d as [|[a x] d IH]; cbn [lookup]; [discriminate|].
  intros H Hd. inversion Hd as [|? ? Hx Hd']; subst.
  destruct (String.eqb k a); [now injection H as <-|auto].
Qed.

Section Host.

Variable utcoffset : Z -> Z.

(** The first loop keeps every day balanced. *)
Lemma group_item_balanced (daily daily' : list (string * DailyForecast.t))
    (item : value) :
  group_item utcoffset daily item = Ok daily' ->
  Forall (fun kv => balanced (snd kv)) daily ->
  Forall (fun kv => balanced (snd kv)) daily'.
Proof.
  unfold group_item. intros H Hd.
  step H. step H.
  match type of H with bind ?c _ = Ok _ => destruct c as [daily1|] eqn:E1 end;
    cbn [bind] in H; [|discriminate H].
  assert (Hd1 : Forall (fun kv => balanced (snd kv)) daily1).
  { match type of E1 with (if ?c then _ else _) = _ => destruct c end.
    - repeat step E1. injection E1 as <-.
      apply Forall_dict_set; [|exact Hd].
      unfold balanced. cbn [DailyForecast.temp_min DailyForecast.temp_max].
      split; [reflexivity|intros _; lra].
    - now injection E1 as <-. }
  repeat step H. injection H as <-.
  apply Forall_dict_set; [|exact Hd1].
  match goal with Eg : dict_get _ daily1 = Ok ?f |- _ =>
    pose proof (dict_get_Forall balanced _ _ _ Eg Hd1) as [Bk Bo] end.
  match goal with
  | Emin : Py.min (DailyForecast.temp_min ?f) ?t = Ok _,
    Emax : Py.max (DailyForecast.temp_max ?f) ?t = Ok _ |- _ =>
      destruct (min_inv _ _ _ Emin) as (Kmin & Vmin & Cmin);
      destruct (max_inv _ _ _ Emax) as (Kmax & Vmax & Cmax);
      destruct (num_vmin (DailyForecast.temp_min f) t) as (L1 & _ & _);
      destruct (num_vmax (DailyForecast.temp_max f) t) as (L2 & _ & _)
  end.
  unfold balanced. cbn [DailyForecast.temp_min DailyForecast.temp_max].
  split.
  - destruct Cmin as [->| ->], Cmax as [->| ->]; congruence.
  - intros N.
    match type of Bo with
    | ?P -> _ => assert (Nk : P) by (destruct Cmin as [->| ->]; congruence)
    end.
    rewrite (Vmin Nk), (Vmax ltac:(congruence)).
    specialize (Bo Nk). lra.
Qed.

Lemma first_loop_balanced (items : list value) :
  forall daily daily',
    foldM (group_item utcoffset) items daily = Ok daily' ->
    Forall (fun kv => balanced (snd kv)) daily ->
    Forall (fun kv => balanced (snd kv)) daily'.
Proof.
  induction items as [|item items IH]; intros daily daily'; cbn [foldM].
  - now intros [= <-].
  - destruct (group_item utcoffset daily item) as [daily1|] eqn:E; [|discriminate].
    cbn [bind]. intros H Hd. apply (IH daily1 daily' H).
    now apply (group_item_balanced daily daily1 item).
Qed.

End Host.

(** The second loop turns a balanced day into one with integer bounds in
    order. *)
Lemma average_day_ordered (f f' : DailyForecast.t) :
  average_day f = Ok f' -> balanced f ->
  exists lo hi,
    DailyForecast.temp_min f' = VInt lo
    /\ DailyForecast.temp_max f' = VInt hi
    /\ lo <= hi.
Proof.
  unfold average_day. intros H [Bk Bo]. repeat step H. injection H as <-.
  cbn [DailyForecast.temp_min DailyForecast.temp_max].
  eexists. eexists. split; [reflexivity|]. split; [reflexivity|].
  assert (Nmin : is_number (DailyForecast.temp_min f) = true).
  { destruct (DailyForecast.temp_min f); try discriminate; reflexivity. }
  rewrite round_number in E by exact Nmin.
  rewrite round_number in E0 by congruence.
  injection E as <-. injection E0 as <-.
  apply round_half_even_le. now apply Bo.
Qed.

Lemma second_loop_ordered (daily daily' : list (string * DailyForecast.t)) :
  mapM (fun kv => f <- average_day (snd kv) ;; Ok (fst kv, f)) daily = Ok daily' ->
  Forall (fun kv => balanced (snd kv)) daily ->
  Forall (fun f => exists lo hi,
                     DailyForecast.temp_min f = VInt lo
                     /\ DailyForecast.temp_max f = VInt hi
                     /\ lo <= hi) (map snd daily').
Proof.
  revert daily'. induction daily as [|[k f] daily IH]; intros daily'; cbn [mapM].
  - intros [= <-] _. constructor.
  - cbn [snd fst]. destruct (average_day f) as [f'|] eqn:E; [|discriminate].
    cbn [bind].
    destruct (mapM _ daily) as [rest|] eqn:Er; [|discriminate].
    cbn [bind]. intros [= <-] Hd. inversion Hd as [|? ? Hf Hd']; subst.
    cbn [map snd]. constructor.
    + now apply (average_day_ordered f f').
    + now apply IH.
Qed.

(** ** The summaries of a payload *)

Section Claims.

Variable utcoffset : Z -> Z.

(** C3.  On a payload of the expected shape the aggregation returns one
    summary per distinct date key, in the order in which the keys are first
    met, cut to the first five; each summary holds the readings of exactly
    the samples of its date; fewer than five days give that many summaries,
    more than five give five; the days ascend when the samples arrive in
    the order of their timestamps (on a host whose local day never goes
    back); and two samples have the same date key exactly when they have
    the same year, month and day. *)
Theorem forecast_one_summary_per_day
    (data name country : value) (ss : list sample)
    (Hread : read_payload utcoffset data = Some (name, country, ss)) :
  exists fs,
    _format_forecast_data utcoffset data
    = Ok (Dict {| ForecastData.city := name;
                  ForecastData.country := country;
                  ForecastData.forecasts := fs |})
    /\ map summary_key fs = firstn 5 (distinct (map date_key ss))
    /\ Forall (fun f =>
                 let g := day_group (summary_key f) ss in
                 g <> []
                 /\ DailyForecast.descriptions f
                    = map (fun s => VStr (s_description s)) g
                 /\ DailyForecast.humidity f = map s_humidity g
                 /\ DailyForecast.wind_speeds f = map s_wind_speed g) fs
    /\ ((List.length (distinct (map date_key ss)) <= 5)%nat ->
        List.length fs = List.length (distinct (map date_key ss)))
    /\ ((5 < List.length (distinct (map date_key ss)))%nat ->
        List.length fs = 5%nat)
    /\ (local_day_never_decreases utcoffset -> chronological ss ->
        StronglySorted earlier_day fs)
    /\ (forall s1 s2, In s1 ss -> In s2 ss ->
          (date_key s1 = date_key s2
           <-> calendar_date (s_date s1) = calendar_date (s_date s2))).
Proof.
  exists (firstn 5 (closed_days ss)).
  split; [now apply format_forecast_data_closed_form|].
  split; [|split; [|split; [|split; [|split]]]].
  - rewrite <- firstn_map. unfold summary_key. now rewrite closed_days_keys.
  - rewrite Forall_forall. intros f Hf. apply in_firstn in Hf.
    destruct (in_closed_days f ss Hf) as (k & Hk & -> & Ek).
    unfold summary_key. rewrite Ek. cbn zeta.
    destruct (day_group_first k ss Hk) as (first & rest & E & _ & _).
    rewrite E. split; [discriminate|]. repeat split; reflexivity.
  - intros H. rewrite length_firstn. unfold closed_days. rewrite length_map. lia.
  - intros H. rewrite length_firstn. unfold closed_days. rewrite length_map. lia.
  - intros Hclock Hc. apply StronglySorted_firstn. apply closed_days_ascending.
    destruct (read_payload_samples utcoffset _ _ _ _ Hread) as (items & _ & Hss).
    apply (chronological_days utcoffset); auto.
    now apply (read_samples_dated utcoffset items).
  - intros s1 s2 H1 H2.
    pose proof (Calendar.read_payload_year utcoffset _ _ _ _ Hread) as Hy.
    rewrite Forall_forall in Hy. unfold date_key, calendar_date.
    rewrite (Calendar.strftime_ymd_inj _ _ (Hy s1 H1) (Hy s2 H2)).
    split; [intros (-> & -> & ->); reflexivity|intros [= -> -> ->]; auto].
Qed.

(** The summaries of a well-formed payload, one by one. *)
Lemma summaries_of_payload (data name country : value) (ss : list sample) :
  read_payload utcoffset data = Some (name, country, ss) ->
  exists fs,
    _format_forecast_data utcoffset data
    = Ok (Dict {| ForecastData.city := name;
                  ForecastData.country := country;
                  ForecastData.forecasts := fs |})
    /\ Forall (fun f =>
                 exists first rest,
                   day_group (summary_key f) ss = first :: rest
                   /\ Forall (fun s => numeric s = true) (first :: rest)
                   /\ f = closed_day (first :: rest)) fs.
Proof.
  intros Hread. exists (firstn 5 (closed_days ss)).
  split; [now apply format_forecast_data_closed_form|].
  assert (Hnum : Forall (fun s => numeric s = true) ss).
  { destruct (read_payload_samples utcoffset _ _ _ _ Hread) as (items & _ & Hss).
    now apply (read_samples_numeric utcoffset items). }
  rewrite Forall_forall. intros f Hf. apply in_firstn in Hf.
  destruct (in_closed_days f ss Hf) as (k & Hk & -> & Ek).
  unfold summary_key. rewrite Ek.
  destruct (day_group_first k ss Hk) as (first & rest & E & _ & _).
  exists first, rest. rewrite <- E. repeat split; auto.
  now apply day_group_numeric.
Qed.


(** C7.  Whatever the payload, in every summary that the aggregation
    returns [temp_min] and [temp_max] are integers and
    [temp_min <= temp_max]. *)
Theorem temp_min_le_temp_max
    (data : value) (r : ForecastData.t)
    (Hrun : _format_forecast_data utcoffset data = Ok (Dict r)) :
  Forall (fun f =>
            exists lo hi,
              DailyForecast.temp_min f = VInt lo
              /\ DailyForecast.temp_max f = VInt hi
              /\ lo <= hi) (ForecastData.forecasts r).
Proof.
  unfold _format_forecast_data in Hrun.
  assert (Htry : format_forecast_data_try utcoffset data = Ok r).
  { destruct (format_forecast_data_try utcoffset data) as [a|e];
      [now injection Hrun as ->|destruct e; discriminate Hrun]. }
  clear Hrun. unfold format_forecast_data_try in Htry.
  repeat step Htry. injection Htry as <-.
  match goal with
  | E1 : foldM _ _ [] = Ok ?daily, E2 : mapM _ ?daily = Ok ?daily' |- _ =>
      pose proof (second_loop_ordered daily daily' E2
                    (first_loop_balanced utcoffset _ _ _ E1 (Forall_nil _))) as Hall;
      change (Forall (fun f => exists lo hi,
                          DailyForecast.temp_min f = VInt lo
                          /\ DailyForecast.temp_max f = VInt hi
                          /\ lo <= hi) (firstn 5 (map snd daily')))
  end.
  rewrite Forall_forall in Hall |- *. intros f Hf. apply Hall.
  now apply in_firstn in Hf.
Qed.


(** C6, as the code has it.  When the sample list is empty the aggregation
    returns no summaries; when the payload also names the city and the
    country, the result is the filled dict with an empty [forecasts] list,
    not the empty dict of a formatting failure. *)
Theorem empty_sample_list_gives_no_summaries
    (data : value)
    (Hlist : getitem data "list" = Ok (VList [])) :
  (forall r, _format_forecast_data utcoffset data = Ok (Dict r) ->
             ForecastData.forecasts r = [])
  /\ (forall city_info name country,
        getitem data "city" = Ok city_info ->
        getitem city_info "name" = Ok name ->
        getitem city_info "country" = Ok country ->
        _format_forecast_data utcoffset data
        = Ok (Dict {| ForecastData.city := name;
                      ForecastData.country := country;
                      ForecastData.forecasts := [] |})).
Proof.
  unfold _format_forecast_data, format_forecast_data_try. rewrite Hlist.
  split.
  - intros r. destruct (getitem data "city") as [city_info|e]; cbn.
    + destruct (getitem city_info "name") as [name|e]; cbn;
        [|destruct e; discriminate].
      destruct (getitem city_info "country") as [country|e]; cbn;
        [|destruct e; discriminate].
      now intros [= <-].
    + destruct e; discriminate.
  - intros city_info name country -> Hn Hc. cbn. now rewrite Hn, Hc.
Qed.

End Claims.

End Aggregation.

(* ================================================================== *)
(** * The current-weather formatter on a body that lacks a field *)
(* ================================================================== *)

Module CurrentWeatherFormat.

Import Inputs.

Lemma lookup_without_same {A} (k : string) (d : list (string * A)) :
  lookup k (filter (fun kv => negb (String.eqb (fst kv) k)) d) = None.
Proof.
  induction d as [|[a x] d IH]; [reflexivity|]. cbn [filter fst].
  destruct (String.eqb_spec a k) as [->|Hne]; cbn [negb]; [exact IH|].
  cbn [lookup]. destruct (String.eqb_spec k a); [congruence|exact IH].
Qed.

Lemma lookup_without_other {A} (k k' : string) (d : list (string * A)) :
  String.eqb k' k = false ->
  lookup k' (filter (fun kv => negb (String.eqb (fst kv) k)) d) = lookup k' d.
Proof.
  intros Hne. induction d as [|[a x] d IH]; [reflexivity|]. cbn [filter fst].
  destruct (String.eqb_spec a k) as [->|Ha]; cbn [negb lookup].
  - now rewrite Hne.
  - now rewrite IH.
Qed.

Lemma lookup_at_key_same (k : string) (f : value -> value)
    (d : list (string * value)) :
  lookup k (map (fun kv => if String.eqb (fst kv) k then (fst kv, f (snd kv))
                           else kv) d)
  = option_map f (lookup k d).
Proof.
  induction d as [|[a x] d IH]; [reflexivity|]. cbn [map fst snd].
  destruct (String.eqb_spec a k) as [->|Ha]; cbn [lookup].
  - now rewrite String.eqb_refl.
  - destruct (String.eqb_spec k a); [congruence|exact IH].
Qed.

Lemma lookup_at_key_other (k k' : string) (f : value -> value)
    (d : list (string * value)) :
  String.eqb k' k = false ->
  lookup k' (map (fun kv => if String.eqb (fst kv) k then (fst kv, f (snd kv))
                            else kv) d)
  = lookup k' d.
Proof.
  intros Hne. induction d as [|[a x] d IH]; [reflexivity|]. cbn [map fst snd].
  destruct (String.eqb_spec a k) as [->|Ha]; cbn [lookup].
  - now rewrite Hne.
  - now rewrite IH.
Qed.

(** Subscripts of a body after a key was removed or changed. *)
Lemma getitem_without_same (k : string) (v x : value) :
  getitem v k = Ok x -> getitem (without_key k v) k = Raise KeyError.
Proof.
  destruct v; try discriminate. intros _. cbn. now rewrite lookup_without_same.
Qed.

Lemma getitem_without_other (k k' : string) (v : value) :
  String.eqb k' k = false -> getitem (without_key k v) k' = getitem v k'.
Proof.
  intros H. destruct v; try reflexivity. cbn. now rewrite lookup_without_other.
Qed.

Lemma get_without_other (k k' : string) (v dflt : value) :
  String.eqb k' k = false -> get (without_key k v) k' dflt = get v k' dflt.
Proof.
  intros H. destruct v; try reflexivity. cbn. now rewrite lookup_without_other.
Qed.

Lemma getitem_at_key_same (k : string) (f : value -> value) (v x : value) :
  getitem v k = Ok x -> getitem (at_key k f v) k = Ok (f x).
Proof.
  destruct v; try discriminate. cbn. rewrite lookup_at_key_same.
  destruct (lookup k d); [|discriminate]. now intros [= ->].
Qed.

Lemma getitem_at_key_other (k k' : string) (f : value -> value) (v : value) :
  String.eqb k' k = false -> getitem (at_key k f v) k' = getitem v k'.
Proof.
  intros H. destruct v; try reflexivity. cbn. now rewrite lookup_at_key_other.
Qed.

Lemma get_at_key_other (k k' : string) (f : value -> value) (v dflt : value) :
  String.eqb k' k = false -> get (at_key k f v) k' dflt = get v k' dflt.
Proof.
  intros H. destruct v; try reflexivity. cbn. now rewrite lookup_at_key_other.
Qed.

(** The first element of an array, when that element is an object. *)
Lemma getindex_at_head (f : value -> value) (v x y : value) (k : string) :
  getindex v 0 = Ok x -> getitem x k = Ok y ->
  getindex (at_head f v) 0 = Ok (f x).
Proof.
  destruct v as [| | | |s|l|]; try discriminate.
  - (* a string: its characters are strings, not objects *)
    cbn. destruct (seq_index (String.length s) 0) as [n|]; [|discriminate].
    destruct (nth_error (chars s) n) as [c|] eqn:E; [|discriminate].
    intros [= <-] Hy. apply nth_error_In in E. unfold chars in E.
    apply in_map_iff in E. destruct E as (a & <- & _). discriminate Hy.
  - destruct l as [|x0 l]; [discriminate|]. cbn.
    destruct (seq_index (S (List.length l)) 0) as [[|n]|] eqn:E;
      cbn; try discriminate.
    now intros [= ->] _.
Qed.

Ltac known :=
  match goal with
  | E : ?c = Ok _ |- context [?c] => rewrite E
  end.

Ltac run :=
  repeat first
    [ progress cbn [bind except_KeyError]
    | rewrite getitem_at_key_other by reflexivity
    | rewrite get_at_key_other by reflexivity
    | rewrite getitem_without_other by reflexivity
    | rewrite get_without_other by reflexivity
    | erewrite getitem_at_key_same by eassumption
    | erewrite getitem_without_same by eassumption
    | erewrite getindex_at_head by eassumption
    | known ].

Section Host.

Variable utcoffset : Z -> Z.

(** Where the formatter fills its dict from a body, it returns the empty
    dict from the same body without the key of any one required field. *)
Lemma missing_key_gives_empty_dict (data : value) (r : CurrentWeather.t)
    (fld : field) :
  _format_current_weather utcoffset data = Ok (Dict r) ->
  _format_current_weather utcoffset (without fld data) = Ok Empty.
Proof.
  unfold _format_current_weather. intros H.
  assert (Htry : format_current_weather_try utcoffset data = Ok r).
  { destruct (format_current_weather_try utcoffset data) as [a|e];
      [now injection H as ->|destruct e; discriminate H]. }
  clear H. unfold format_current_weather_try in Htry.
  repeat step Htry. clear Htry.
  unfold format_current_weather_try.
  destruct fld; unfold without; run; reflexivity.
Qed.

End Host.

Example complete_body_is_formatted :
  exists r, _format_current_weather utc complete_body = Ok (Dict r)
            /\ CurrentWeather.city r = VStr "London"
            /\ CurrentWeather.temperature r = 12
            /\ CurrentWeather.feels_like r = 12
            /\ CurrentWeather.description r = "Broken Clouds"
            /\ CurrentWeather.visibility r = VInt 10.
Proof. eexists. split; [vm_compute; reflexivity|]. repeat split. Qed.

Example missing_weather_key_gives_empty_dict :
  _format_current_weather utc body_without_weather_key = Ok Empty.
Proof. vm_compute. reflexivity. Qed.

Example complete_body_without_a_field (fld : field) :
  _format_current_weather utc (without fld complete_body) = Ok Empty.
Proof.
  destruct complete_body_is_formatted as (r & Hr & _).
  exact (missing_key_gives_empty_dict utc complete_body r fld Hr).
Qed.

(** C8, where the code departs from it.  On a body whose [weather] list is
    empty the formatter does not return the empty dict: IndexError is not
    caught by [except KeyError] and leaves [_format_current_weather], and
    then [get_current_weather]. *)
Theorem empty_weather_list_raises_IndexError :
  _format_current_weather utc body_without_weather_entry = Raise IndexError
  /\ _format_current_weather utc body_without_weather_entry <> Ok Empty
  /\ fst (get_current_weather utc config "London" answers_without_weather_entry)
     = Raise IndexError.
Proof.
  split; [vm_compute; reflexivity|].
  split; [vm_compute; intros H; discriminate H|].
  vm_compute. reflexivity.
Qed.

End CurrentWeatherFormat.

(* ================================================================== *)
(** * Concrete runs *)
(* ================================================================== *)

Module Examples.

Import Inputs.

Example config_is_default : Config.__init__ environ = Ok config.
Proof. reflexivity. Qed.

Lemma make_request_exhausts_retries_witness :
  (forall k, (k < Z.to_nat (max_retries config))%nat ->
             transient (network always_timeout (sent always_timeout + k)) = true)
  /\ fst (_make_request config (current_weather_url config) weather_params
            always_timeout) = VNone
  /\ trace (snd (_make_request config (current_weather_url config) weather_params
                   always_timeout))
     = [weather_request; Sleep 1; weather_request; Sleep 1; weather_request]
  /\ sent (snd (_make_request config (current_weather_url config) weather_params
                  always_timeout)) = 3%nat.
Proof.
  assert (H : forall k, (k < Z.to_nat (max_retries config))%nat ->
                        transient (network always_timeout (sent always_timeout + k)) = true)
    by (intros k _; reflexivity).
  split; [exact H|].
  destruct (Client.make_request_exhausts_retries config
              (current_weather_url config) weather_params always_timeout H)
    as (Hv & Ht & Hs & _).
  split; [exact Hv|]. split; [exact Ht|exact Hs].
Defined.

Lemma make_request_succeeds_on_third_attempt_witness :
  max_retries config = 3
  /\ transient (network fails_twice (sent fails_twice)) = true
  /\ transient (network fails_twice (sent fails_twice + 1)) = true
  /\ succeeds_with complete_body (network fails_twice (sent fails_twice + 2))
  /\ fst (_make_request config (current_weather_url config) weather_params
            fails_twice) = complete_body
  /\ trace (snd (_make_request config (current_weather_url config) weather_params
                   fails_twice))
     = [weather_request; Sleep 1; weather_request; Sleep 1; weather_request].
Proof.
  assert (H3 : succeeds_with complete_body (network fails_twice (sent fails_twice + 2))).
  { eexists. split; [reflexivity|]. split; reflexivity. }
  split; [reflexivity|]. split; [reflexivity|]. split; [reflexivity|].
  split; [exact H3|].
  destruct (Client.make_request_succeeds_on_third_attempt config
              (current_weather_url config) weather_params fails_twice
              complete_body eq_refl eq_refl eq_refl H3) as (Hv & Ht & _).
  split; [exact Hv|exact Ht].
Defined.

Lemma not_found_returns_without_retry_witness :
  0 < max_retries config
  /\ not_found (network city_unknown (sent city_unknown)) = true
  /\ fst (get_current_weather utc config "Atlantis" city_unknown) = Ok None
  /\ trace (snd (get_current_weather utc config "Atlantis" city_unknown))
     = [Request (current_weather_url config)
                (get_weather_params config "Atlantis" false)]
  /\ fst (get_forecast utc config "Atlantis" city_unknown) = Ok None
  /\ trace (snd (get_forecast utc config "Atlantis" city_unknown))
     = [Request (forecast_url config) (get_weather_params config "Atlantis" true)].
Proof.
  split; [reflexivity|]. split; [reflexivity|].
  destruct (Client.not_found_returns_without_retry utc config "Atlantis"
              city_unknown eq_refl eq_refl)
    as ((Hc & Htc & _) & (Hf & Htf & _)).
  repeat split; assumption.
Defined.

Lemma not_found_and_exhaustion_indistinguishable_witness :
  (0 < Z.to_nat (max_retries config))%nat
  /\ not_found (network city_unknown (sent city_unknown + 0)) = true
  /\ (forall k, (k < Z.to_nat (max_retries config))%nat ->
                transient (network always_timeout (sent always_timeout + k)) = true)
  /\ fst (get_current_weather utc config "Atlantis" city_unknown)
     = fst (get_current_weather utc config "Atlantis" always_timeout)
  /\ fst (get_forecast utc config "Atlantis" city_unknown)
     = fst (get_forecast utc config "Atlantis" always_timeout).
Proof.
  assert (H0 : (0 < Z.to_nat (max_retries config))%nat) by (cbn; lia).
  assert (Hb : forall k, (k < 0)%nat ->
                         transient (network city_unknown (sent city_unknown + k)) = true)
    by (intros k Hk; lia).
  assert (Ht : forall k, (k < Z.to_nat (max_retries config))%nat ->
                         transient (network always_timeout (sent always_timeout + k)) = true)
    by (intros k _; reflexivity).
  split; [exact H0|]. split; [reflexivity|]. split; [exact Ht|].
  destruct (Client.not_found_and_exhaustion_indistinguishable utc config
              "Atlantis" city_unknown always_timeout 0%nat H0 Hb eq_refl Ht)
    as (_ & C1 & C2 & F1 & F2).
  split; congruence.
Defined.

(** ** A forecast over two days *)

Lemma two_days_read :
  read_payload utc two_days = Some (VStr "London", VStr "GB", two_days_samples).
Proof. vm_compute. reflexivity. Qed.

Example two_days_summaries :
  exists r, _format_forecast_data utc two_days = Ok (Dict r)
            /\ map summary_key (ForecastData.forecasts r)
               = ["2023-11-14"; "2023-11-15"]
            /\ map DailyForecast.temp_min (ForecastData.forecasts r)
               = [VInt 10; VInt 5]
            /\ map DailyForecast.temp_max (ForecastData.forecasts r)
               = [VInt 14; VInt 7]
            /\ map DailyForecast.avg_humidity (ForecastData.forecasts r)
               = [Some 76; Some 88]
            /\ map DailyForecast.description (ForecastData.forecasts r)
               = [Some "Few Clouds"; Some "Broken Clouds"]
            /\ map DailyForecast.icon (ForecastData.forecasts r)
               = [VStr "02n"; VStr "04n"].
Proof. eexists. split; [vm_compute; reflexivity|]. repeat split. Qed.

Lemma forecast_one_summary_per_day_witness :
  read_payload utc two_days = Some (VStr "London", VStr "GB", two_days_samples)
  /\ exists fs,
       _format_forecast_data utc two_days
       = Ok (Dict {| ForecastData.city := VStr "London";
                     ForecastData.country := VStr "GB";
                     ForecastData.forecasts := fs |})
       /\ map summary_key fs = ["2023-11-14"; "2023-11-15"]
       /\ List.length fs = 2%nat
       /\ StronglySorted earlier_day fs.
Proof.
  split; [exact two_days_read|].
  destruct (Aggregation.forecast_one_summary_per_day utc two_days
              (VStr "London") (VStr "GB") two_days_samples two_days_read)
    as (fs & Hrun & Hkeys & _ & Hlen & _ & Hasc & _).
  exists fs. split; [exact Hrun|]. split; [exact Hkeys|]. split.
  - apply Hlen. vm_compute. lia.
  - apply Hasc.
    + intros a b Hab. unfold utc. apply Z.div_le_mono; [reflexivity|lia].
    + unfold chronological, two_days_samples.
      repeat (constructor; try (vm_compute; intros H; discriminate H)).
Defined.



Lemma temp_min_le_temp_max_witness :
  _format_forecast_data utc two_days = Ok (Dict two_days_result)
  /\ Forall (fun f =>
               exists lo hi,
                 DailyForecast.temp_min f = VInt lo
                 /\ DailyForecast.temp_max f = VInt hi
                 /\ lo <= hi) (ForecastData.forecasts two_days_result).
Proof.
  assert (H : _format_forecast_data utc two_days = Ok (Dict two_days_result))
    by (vm_compute; reflexivity).
  split; [exact H|].
  exact (Aggregation.temp_min_le_temp_max utc two_days two_days_result H).
Defined.

(** More than five days: the sixth is dropped. *)
Example six_days_summaries :
  exists r, _format_forecast_data utc six_days = Ok (Dict r)
            /\ map summary_key (ForecastData.forecasts r)
               = ["2023-11-14"; "2023-11-15"; "2023-11-16"; "2023-11-17";
                  "2023-11-18"].
Proof. eexists. split; [vm_compute; reflexivity|]. reflexivity. Qed.

(** First-encounter order, and the first of two equally frequent strings. *)
Example distinct_keeps_first_encounters :
  distinct ["b"; "a"; "b"; "c"; "a"] = ["b"; "a"; "c"].
Proof. reflexivity. Qed.

Example most_frequent_breaks_ties_by_first_encounter :
  Summary.most_frequent ["rain"; "snow"; "snow"; "rain"] = "rain"
  /\ count_descriptions (map VStr ["rain"; "snow"; "snow"; "rain"])
     = Ok [(VStr "rain", 2); (VStr "snow", 2)].
Proof. split; reflexivity. Qed.

(** ** A forecast without samples *)

Lemma empty_sample_list_gives_no_summaries_witness :
  getitem no_samples "list" = Ok (VList [])
  /\ _format_forecast_data utc no_samples
     = Ok (Dict {| ForecastData.city := VStr "London";
                   ForecastData.country := VStr "GB";
                   ForecastData.forecasts := [] |}).
Proof.
  split; [reflexivity|].
  apply (proj2 (Aggregation.empty_sample_list_gives_no_summaries utc no_samples
                  eq_refl)
           (VDict [("name", VStr "London"); ("country", VStr "GB")]));
    reflexivity.
Defined.

(** C6 as stated fails here: the sample list is empty and the result is not
    the empty dict of a failure. *)
Lemma empty_sample_list_is_not_a_failure :
  getitem no_samples "list" = Ok (VList [])
  /\ _format_forecast_data utc no_samples <> Ok Empty.
Proof.
  split; [reflexivity|]. vm_compute. intros H. discriminate H.
Qed.

End Examples.

(* ================================================================== *)
(** * Further properties *)
(* ================================================================== *)

Module ClientMore.

Import Client.

Lemma try_request_retried url params w :
  retried (network w (sent w)) = true ->
  try_request url params w = (None, snd (session_get url params w)).
Proof.
  unfold try_request, session_get, retried. cbn [snd].
  destruct (network w (sent w)) as [f|r]; [reflexivity|].
  destruct (status r =? 200).
  - destruct (json r); [reflexivity|discriminate].
  - intros H. apply negb_true_iff in H. now rewrite H.
Qed.

(** An attempt that is not retried is answered by 404 or by 200 with a
    body, and the [try] statement returns. *)
Lemma try_request_answered url params w :
  retried (network w (sent w)) = false ->
  exists v,
    try_request url params w = (Some v, snd (session_get url params w))
    /\ ((not_found (network w (sent w)) = true /\ v = VNone)
        \/ succeeds_with v (network w (sent w))).
Proof.
  unfold try_request, session_get, retried, not_found, succeeds_with. cbn [snd].
  destruct (network w (sent w)) as [f|r]; [discriminate|].
  destruct (status r =? 200) eqn:E200.
  - destruct (json r) as [f|data] eqn:Ej; [discriminate|]. intros _.
    exists data. split; [reflexivity|]. right. exists r.
    apply Z.eqb_eq in E200. auto.
  - intros H. apply negb_false_iff in H. rewrite H.
    exists VNone. split; [reflexivity|]. left. auto.
Qed.

Section Loop.

Variables (config : Config) (url : string) (params : list (string * value)).

(** The loop on any network: it stops at the first attempt that is not
    retried, or after the last attempt. *)
Lemma request_loop_runs (n : nat) :
  forall (i : nat) (w : world),
    Z.of_nat (i + n) = max_retries config ->
    exists (k : nat) (v : value) (w' : world),
      request_loop config url params (map Z.of_nat (seq i n)) w = (v, w')
      /\ (k <= n)%nat
      /\ trace w' = trace w ++ spaced (Request url params) (Sleep 1) k
      /\ sent w' = (sent w + k)%nat
      /\ network w' = network w
      /\ session w' = session w
      /\ (forall j, (S j < k)%nat -> retried (network w (sent w + j)) = true)
      /\ ((k = n /\ v = VNone
           /\ forall j, (j < n)%nat -> retried (network w (sent w + j)) = true)
          \/ (exists j, k = S j
                /\ retried (network w (sent w + j)) = false
                /\ ((not_found (network w (sent w + j)) = true /\ v = VNone)
                    \/ succeeds_with v (network w (sent w + j))))).
Proof.
  induction n as [|n IH]; intros i w HN.
  - exists 0%nat, VNone, w. cbn. rewrite app_nil_r, Nat.add_0_r.
    repeat split; auto; try lia. left. repeat split; auto. intros j Hj. lia.
  - cbn [seq map request_loop].
    destruct (retried (network w (sent w))) eqn:Er.
    + rewrite try_request_retried by exact Er.
      set (w1 := snd (session_get url params w)).
      destruct n as [|n].
      * replace (Z.of_nat i <? max_retries config - 1) with false
          by (symmetry; apply Z.ltb_ge; lia).
        exists 1%nat, VNone, w1. cbn. repeat split; auto; try lia.
        left. repeat split; auto. intros [|j] Hj; [|lia].
        now rewrite Nat.add_0_r.
      * replace (Z.of_nat i <? max_retries config - 1) with true
          by (symmetry; apply Z.ltb_lt; lia).
        destruct (IH (S i) (sleep 1 w1) ltac:(lia))
          as (k & v & w' & Hrun & Hk & Ht & Hs & Hn & Hss & Hbefore & Hend).
        assert (Hshift : forall j, network (sleep 1 w1) (sent (sleep 1 w1) + j)
                                   = network w (sent w + S j)).
        { intros j. cbn. f_equal. lia. }
        exists (S k), v, w'. rewrite Hrun. split; [reflexivity|].
        split; [lia|]. rewrite Ht, Hs, Hn, Hss.
        cbn [sleep emit w1 session_get snd trace sent network session].
        split.
        { destruct k as [|k].
          - destruct Hend as [(Hk0 & _)|(j & Hj & _)]; discriminate.
          - rewrite (spaced_S (Request url params) (Sleep 1) k).
            rewrite <- !app_assoc. reflexivity. }
        split; [lia|]. split; [reflexivity|]. split; [reflexivity|].
        split.
        { intros [|j] Hj; [now rewrite Nat.add_0_r|].
          rewrite <- Hshift. apply Hbefore. lia. }
        destruct Hend as [(Hkn & Hv & Hall)|(j & Hj & Hnot & Hans)].
        -- left. repeat split; [lia|exact Hv|].
           intros [|j] Hj; [now rewrite Nat.add_0_r|].
           rewrite <- Hshift. apply Hall. lia.
        -- right. exists (S j). rewrite <- !Hshift. repeat split; auto.
    + destruct (try_request_answered url params w Er) as (v & Htry & Hans).
      rewrite Htry.
      exists 1%nat, v, (snd (session_get url params w)).
      cbn. repeat split; auto; try lia.
      right. exists 0%nat. rewrite Nat.add_0_r. auto.
Qed.

End Loop.

End ClientMore.

Module Requests.

Import Client ClientMore.

Section Call.

Variables (config : Config) (url : string) (params : list (string * value)).

(** [_make_request] on any network and from any state. *)
Lemma make_request_runs (w : world) :
  exists (k : nat) (v : value) (w' : world),
    _make_request config url params w = (v, w')
    /\ (k <= Z.to_nat (max_retries config))%nat
    /\ trace w' = trace w ++ spaced (Request url params) (Sleep 1) k
    /\ sent w' = (sent w + k)%nat
    /\ network w' = network w
    /\ session w' = session (_get_session config w)
    /\ (forall j, (S j < k)%nat -> retried (network w (sent w + j)) = true)
    /\ ((k = Z.to_nat (max_retries config) /\ v = VNone
         /\ forall j, (j < k)%nat -> retried (network w (sent w + j)) = true)
        \/ (exists j, k = S j
              /\ retried (network w (sent w + j)) = false
              /\ ((not_found (network w (sent w + j)) = true /\ v = VNone)
                  \/ succeeds_with v (network w (sent w + j))))).
Proof.
  unfold _make_request, range.
  destruct (Z.to_nat (max_retries config)) as [|n] eqn:EN.
  - exists 0%nat, VNone, (_get_session config w). cbn.
    rewrite app_nil_r, Nat.add_0_r. repeat split; auto.
    + intros j Hj. lia.
    + left. repeat split; auto. intros j Hj. lia.
  - destruct (request_loop_runs config url params (S n) 0 (_get_session config w)
                ltac:(lia))
      as (k & v & w' & Hrun & Hk & Ht & Hs & Hn & Hss & Hbefore & Hend).
    exists k, v, w'. repeat split; auto.
    destruct Hend as [(Hkn & Hv & Hall)|Hj]; [left|right; exact Hj].
    subst k. repeat split; auto.
Qed.

(** X1. Whatever the network answers, one call sends at most [max_retries]
    requests, all with the URL and the parameters it was given, with a pause
    of one second between two consecutive requests and none after the last;
    it does nothing else to the outside world. *)
Theorem make_request_sends_at_most_max_retries (w : world) :
  exists k : nat,
    (k <= Z.to_nat (max_retries config))%nat
    /\ trace (snd (_make_request config url params w))
       = trace w ++ spaced (Request url params) (Sleep 1) k
    /\ sent (snd (_make_request config url params w)) = (sent w + k)%nat
    /\ network (snd (_make_request config url params w)) = network w.
Proof.
  destruct (make_request_runs w)
    as (k & v & w' & Hrun & Hk & Ht & Hs & Hn & _).
  exists k. rewrite Hrun. auto.
Qed.

(** X2. The outcome of a call is the outcome of the last request it sent.
    Either every one of the [max_retries] attempts was retried and the
    result is [None]; or the call stopped at the first attempt that was not
    retried, answered by 404 (the result is [None]) or by 200 with a body
    that decodes (the result is that body), and sent nothing after it. *)
Theorem make_request_outcome (w : world) :
  let v := fst (_make_request config url params w) in
  let w' := snd (_make_request config url params w) in
  (v = VNone
   /\ sent w' = (sent w + Z.to_nat (max_retries config))%nat
   /\ forall j, (j < Z.to_nat (max_retries config))%nat ->
                retried (network w (sent w + j)) = true)
  \/ (exists j : nat,
        (j < Z.to_nat (max_retries config))%nat
        /\ sent w' = (sent w + S j)%nat
        /\ (forall i, (i < j)%nat -> retried (network w (sent w + i)) = true)
        /\ retried (network w (sent w + j)) = false
        /\ ((not_found (network w (sent w + j)) = true /\ v = VNone)
            \/ succeeds_with v (network w (sent w + j)))).
Proof.
  destruct (make_request_runs w)
    as (k & v & w' & Hrun & Hk & Ht & Hs & Hn & Hss & Hbefore & Hend).
  rewrite Hrun. cbn [fst snd].
  destruct Hend as [(Hkn & Hv & Hall)|(j & Hj & Hnot & Hans)].
  - left. subst k. auto.
  - right. exists j. subst k. repeat split; auto; try lia.
    intros i Hi. apply Hbefore. lia.
Qed.

(** The attempts that [undecodable] describes are retried. *)
Lemma undecodable_retried (a : attempt) : undecodable a -> retried a = true.
Proof.
  intros (r & f & -> & Hs & Hj). cbn. now rewrite Hs, Hj.
Qed.

(** A network on which the first [j] attempts are retried and the next is
    not: the call stops there. *)
Lemma make_request_stops_at (w : world) (j : nat) :
  (j < Z.to_nat (max_retries config))%nat ->
  (forall i, (i < j)%nat -> retried (network w (sent w + i)) = true) ->
  retried (network w (sent w + j)) = false ->
  exists v w',
    _make_request config url params w = (v, w')
    /\ trace w' = trace w ++ spaced (Request url params) (Sleep 1) (S j)
    /\ sent w' = (sent w + S j)%nat
    /\ ((not_found (network w (sent w + j)) = true /\ v = VNone)
        \/ succeeds_with v (network w (sent w + j))).
Proof.
  intros Hj Hbefore Hnot.
  destruct (make_request_runs w)
    as (k & v & w' & Hrun & Hk & Ht & Hs & Hn & Hss & Hb & Hend).
  exists v, w'. split; [exact Hrun|].
  assert (Hkj : k = S j).
  { destruct Hend as [(Hkn & Hv & Hall)|(j' & Hj' & Hnot' & Hans)].
    - subst k. rewrite (Hall j Hj) in Hnot. discriminate.
    - subst k. f_equal.
      destruct (Nat.lt_trichotomy j' j) as [Hlt|[Heq|Hgt]]; [|exact Heq|].
      + rewrite (Hbefore j' Hlt) in Hnot'. discriminate.
      + rewrite (Hb j ltac:(lia)) in Hnot. discriminate. }
  subst k. repeat split; auto.
  destruct Hend as [(Hkn & Hv & Hall)|(j' & Hj' & Hnot' & Hans)].
  - rewrite (Hall j ltac:(lia)) in Hnot. discriminate.
  - injection Hj' as <-. exact Hans.
Qed.

(** When every attempt is retried the call returns [None]. *)
Lemma make_request_all_retried (w : world) :
  (forall k, (k < Z.to_nat (max_retries config))%nat ->
             retried (network w (sent w + k)) = true) ->
  fst (_make_request config url params w) = VNone.
Proof.
  intros Hall.
  destruct (make_request_runs w)
    as (k & v & w' & Hrun & Hk & Ht & Hs & Hn & Hss & Hb & Hend).
  rewrite Hrun. cbn [fst].
  destruct Hend as [(_ & Hv & _)|(j & Hj & Hnot & _)]; [exact Hv|].
  rewrite Hall in Hnot by lia. discriminate.
Qed.

(** X3. An answer of HTTP 200 whose body cannot be decoded is retried like
    a failure: when every attempt is answered so, the call returns [None]
    after [max_retries] requests, with a pause between consecutive ones. *)
Theorem undecodable_body_is_retried (w : world) :
  (forall k, (k < Z.to_nat (max_retries config))%nat ->
             undecodable (network w (sent w + k))) ->
  fst (_make_request config url params w) = VNone
  /\ trace (snd (_make_request config url params w))
     = trace w ++ spaced (Request url params) (Sleep 1)
                         (Z.to_nat (max_retries config))
  /\ sent (snd (_make_request config url params w))
     = (sent w + Z.to_nat (max_retries config))%nat.
Proof.
  intros Hall.
  destruct (make_request_runs w)
    as (k & v & w' & Hrun & Hk & Ht & Hs & Hn & Hss & Hb & Hend).
  rewrite Hrun. cbn [fst snd].
  destruct Hend as [(Hkn & Hv & _)|(j & Hj & Hnot & _)].
  - subst k. auto.
  - rewrite undecodable_retried in Hnot by (apply Hall; lia). discriminate.
Qed.

(** X4. The session of the service. Every call leaves an open session,
    the one [_get_session] returns. [close] then closes it and changes
    nothing else, a second [close] changes nothing at all, and the next call
    opens a new session with the configured timeout. *)
Theorem session_is_opened_on_demand (w : world) :
  let w' := snd (_make_request config url params w) in
  session_open w'
  /\ session w' = session (_get_session config w)
  /\ ~ session_open (close w')
  /\ close (close w') = close w'
  /\ trace (close w') = trace w' /\ sent (close w') = sent w'
  /\ network (close w') = network w'
  /\ session (snd (_make_request config url params (close w')))
     = Some {| timeout := request_timeout config; closed := false |}.
Proof.
  destruct (make_request_runs w)
    as (k & v & w' & Hrun & Hk & Ht & Hs & Hn & Hss & _).
  rewrite Hrun. cbn [snd]. cbv zeta.
  assert (Hopen : session_open w').
  { unfold session_open. rewrite Hss. cbn.
    destruct (session w) as [s|]; [destruct (closed s) eqn:Ec|]; eauto. }
  split; [exact Hopen|]. split; [exact Hss|].
  destruct Hopen as (s & Hsw' & Hc).
  assert (Hclose : close w' = {| session := Some {| timeout := timeout s; closed := true |};
                                 network := network w'; sent := sent w';
                                 trace := trace w' |}).
  { unfold close. now rewrite Hsw', Hc. }
  rewrite Hclose.
  split. { intros (s' & Hs' & Hc'). cbn in Hs'. injection Hs' as <-. discriminate. }
  split; [reflexivity|]. split; [reflexivity|]. split; [reflexivity|].
  split; [reflexivity|].
  destruct (make_request_runs
              {| session := Some {| timeout := timeout s; closed := true |};
                 network := network w'; sent := sent w'; trace := trace w' |})
    as (k2 & v2 & w2 & Hrun2 & _ & _ & _ & _ & Hss2 & _).
  rewrite Hrun2. cbn [snd]. rewrite Hss2. reflexivity.
Qed.

(** X5. An open session is never replaced: the call keeps it as it is, with
    the timeout it was created with, whatever the configuration says now. *)
Theorem open_session_is_reused (w : world) :
  session_open w ->
  session (snd (_make_request config url params w)) = session w.
Proof.
  intros (s & Hsw & Hc).
  destruct (make_request_runs w)
    as (k & v & w' & Hrun & _ & _ & _ & _ & Hss & _).
  rewrite Hrun. cbn [snd]. rewrite Hss. cbn. now rewrite Hsw, Hc.
Qed.

End Call.

Section Callers.

Variables (utcoffset : Z -> Z) (config : Config) (city : string).

(** X6. When the first attempt that is not retried is answered by HTTP 200
    with a body that is falsy in Python (null, an empty object or array,
    zero, an empty string), [get_current_weather] and [get_forecast] return
    [None], as for a city that is not found: the formatter is not called. *)
Theorem falsy_body_returns_None (w : world) (j : nat) (data : value) :
  (j < Z.to_nat (max_retries config))%nat ->
  (forall i, (i < j)%nat -> retried (network w (sent w + i)) = true) ->
  succeeds_with data (network w (sent w + j)) ->
  truthy data = false ->
  fst (get_current_weather utcoffset config city w) = Ok None
  /\ sent (snd (get_current_weather utcoffset config city w)) = (sent w + S j)%nat
  /\ fst (get_forecast utcoffset config city w) = Ok None
  /\ sent (snd (get_forecast utcoffset config city w)) = (sent w + S j)%nat.
Proof.
  intros Hj Hbefore Hdata Hfalsy.
  assert (Hnot : retried (network w (sent w + j)) = false).
  { destruct Hdata as (r & -> & Hs & Hjs). cbn. now rewrite Hs, Hjs. }
  assert (Hv : forall v, (not_found (network w (sent w + j)) = true /\ v = VNone)
                         \/ succeeds_with v (network w (sent w + j)) ->
                         truthy v = false).
  { intros v [(_ & ->)|Hv]; [reflexivity|].
    destruct Hdata as (r & Hr & _ & Hjs), Hv as (r' & Hr' & _ & Hjs').
    rewrite Hr in Hr'. injection Hr' as <-. rewrite Hjs in Hjs'.
    injection Hjs' as <-. exact Hfalsy. }
  unfold get_current_weather, get_forecast.
  destruct (make_request_stops_at config (current_weather_url config)
              (get_weather_params config city false) w j Hj Hbefore Hnot)
    as (v1 & w1 & -> & _ & Hs1 & Hans1).
  destruct (make_request_stops_at config (forecast_url config)
              (get_weather_params config city true) w j Hj Hbefore Hnot)
    as (v2 & w2 & -> & _ & Hs2 & Hans2).
  rewrite (Hv v1 Hans1), (Hv v2 Hans2). cbn. auto.
Qed.

(** X7. When that answer has a truthy body, [get_current_weather] returns
    what [_format_current_weather] makes of the body and [get_forecast] what
    [_format_forecast_data] makes of it, an exception of the formatter
    included; every request went to the URL of the operation, with the city
    as [q], the key, the language, the units and, for the forecast alone,
    [cnt = 40]. *)
Theorem truthy_body_is_formatted (w : world) (j : nat) (data : value) :
  (j < Z.to_nat (max_retries config))%nat ->
  (forall i, (i < j)%nat -> retried (network w (sent w + i)) = true) ->
  succeeds_with data (network w (sent w + j)) ->
  truthy data = true ->
  fst (get_current_weather utcoffset config city w)
  = (r <- _format_current_weather utcoffset data ;; Ok (Some r))
  /\ trace (snd (get_current_weather utcoffset config city w))
     = trace w ++ spaced (Request (current_weather_url config)
                            [ ("q", VStr city);
                              ("appid", VStr (weather_api_key config));
                              ("lang", VStr (default_language config));
                              ("units", VStr (default_units config)) ])
                         (Sleep 1) (S j)
  /\ fst (get_forecast utcoffset config city w)
     = (r <- _format_forecast_data utcoffset data ;; Ok (Some r))
  /\ trace (snd (get_forecast utcoffset config city w))
     = trace w ++ spaced (Request (forecast_url config)
                            [ ("q", VStr city);
                              ("appid", VStr (weather_api_key config));
                              ("lang", VStr (default_language config));
                              ("units", VStr (default_units config));
                              ("cnt", VInt 40) ])
                         (Sleep 1) (S j).
Proof.
  intros Hj Hbefore Hdata Htruthy.
  assert (Hnot : retried (network w (sent w + j)) = false).
  { destruct Hdata as (r & -> & Hs & Hjs). cbn. now rewrite Hs, Hjs. }
  assert (Hv : forall v, (not_found (network w (sent w + j)) = true /\ v = VNone)
                         \/ succeeds_with v (network w (sent w + j)) ->
                         v = data).
  { intros v [(H404 & _)|Hv].
    - destruct Hdata as (r & Hr & Hs & _). rewrite Hr in H404. cbn in H404.
      rewrite Hs in H404. discriminate.
    - destruct Hdata as (r & Hr & _ & Hjs), Hv as (r' & Hr' & _ & Hjs').
      rewrite Hr in Hr'. injection Hr' as <-. rewrite Hjs in Hjs'.
      now injection Hjs' as <-. }
  unfold get_current_weather, get_forecast.
  destruct (make_request_stops_at config (current_weather_url config)
              (get_weather_params config city false) w j Hj Hbefore Hnot)
    as (v1 & w1 & -> & Ht1 & _ & Hans1).
  destruct (make_request_stops_at config (forecast_url config)
              (get_weather_params config city true) w j Hj Hbefore Hnot)
    as (v2 & w2 & -> & Ht2 & _ & Hans2).
  rewrite (Hv v1 Hans1), (Hv v2 Hans2), Htruthy. cbn [fst snd].
  rewrite Ht1, Ht2. repeat split; reflexivity.
Qed.

End Callers.

End Requests.

Module CurrentWeatherMore.

Import CurrentWeatherFormat.

Lemma get_without_same (k : string) (v x dflt : value) :
  get v k dflt = Ok x -> get (without_key k v) k dflt = Ok dflt.
Proof.
  destruct v; try discriminate. intros _. cbn. now rewrite lookup_without_same.
Qed.

(** [get] on an object that was changed under the key [k]. *)
Lemma get_at_key_same (k : string) (f : value -> value) (v x dflt : value) :
  get v k dflt = Ok x ->
  get (at_key k f v) k dflt
  = Ok (match getitem v k with Ok y => f y | Raise _ => dflt end).
Proof.
  destruct v; try discriminate. intros _. cbn. rewrite lookup_at_key_same.
  now destruct (lookup k d).
Qed.

Lemma get_getitem (k : string) (v x dflt : value) :
  get v k dflt = Ok x ->
  x = match getitem v k with Ok y => y | Raise _ => dflt end.
Proof.
  destruct v; try discriminate. cbn. destruct (lookup k d); now intros [= <-].
Qed.

Lemma current_weather_formats_from_try (utcoffset : Z -> Z) (data : value) (r : CurrentWeather.t) :
  _format_current_weather utcoffset data = Ok (Dict r) ->
  format_current_weather_try utcoffset data = Ok r.
Proof.
  unfold _format_current_weather. intros H.
  destruct (format_current_weather_try utcoffset data) as [a|e];
    [now injection H as ->|destruct e; discriminate H].
Qed.

Section Host.

Variable utcoffset : Z -> Z.

(** X8. The optional fields. Where the formatter fills its dict from a
    body, it fills it from the same body without [wind], [wind.speed],
    [wind.deg], [clouds], [clouds.all] or [visibility] too: the keys that
    read the missing field hold 0, every other key holds what it held. *)
Theorem optional_field_defaults_to_zero (data : value) (r : CurrentWeather.t)
    (o : optional) :
  _format_current_weather utcoffset data = Ok (Dict r) ->
  _format_current_weather utcoffset (without_optional o data)
  = Ok (Dict (defaulted o r)).
Proof.
  intros H. apply current_weather_formats_from_try in H. rename H into Htry.
  unfold format_current_weather_try in Htry.
  repeat step Htry. injection Htry as <-.
  unfold _format_current_weather, format_current_weather_try.
  destruct o; unfold without_optional, defaulted, with_readings;
    cbn [CurrentWeather.city CurrentWeather.country CurrentWeather.temperature
         CurrentWeather.feels_like CurrentWeather.description CurrentWeather.icon
         CurrentWeather.humidity CurrentWeather.pressure CurrentWeather.wind_speed
         CurrentWeather.wind_direction CurrentWeather.cloudiness
         CurrentWeather.visibility CurrentWeather.sunrise CurrentWeather.sunset
         CurrentWeather.timezone].
  - run. erewrite get_without_same by eassumption. run. reflexivity.
  - run. erewrite get_at_key_same by eassumption.
    apply get_getitem in E2. cbn [bind].
    destruct (getitem data "wind") as [wind|e]; subst a2.
    + erewrite get_without_same by eassumption. run. reflexivity.
    + cbn in E16, E17. injection E16 as <-. injection E17 as <-.
      run. cbn [get lookup bind]. run. reflexivity.
  - run. erewrite get_at_key_same by eassumption.
    apply get_getitem in E2. cbn [bind].
    destruct (getitem data "wind") as [wind|e]; subst a2.
    + run. erewrite get_without_same by eassumption. run. reflexivity.
    + cbn in E16, E17. injection E16 as <-. injection E17 as <-.
      run. cbn [get lookup bind]. run. reflexivity.
  - run. erewrite get_without_same by eassumption. run. reflexivity.
  - run. erewrite get_at_key_same by eassumption.
    apply get_getitem in E3. cbn [bind].
    destruct (getitem data "clouds") as [clouds|e]; subst a3.
    + run. erewrite get_without_same by eassumption. run. reflexivity.
    + cbn in E18. injection E18 as <-.
      run. cbn [get lookup bind]. run. reflexivity.
  - run. erewrite get_without_same by eassumption. run. reflexivity.
Qed.

(** X9. The empty dict is the answer to any missing required key: where
    the formatter fills its dict from a body, it returns [{}] from the same
    body without one of the required fields, or without the whole [main],
    [weather] or [sys]. *)
Theorem missing_required_key_gives_empty_dict (data : value)
    (r : CurrentWeather.t) :
  _format_current_weather utcoffset data = Ok (Dict r) ->
  (forall fld : field,
      _format_current_weather utcoffset (without fld data) = Ok Empty)
  /\ _format_current_weather utcoffset (without_key "main" data) = Ok Empty
  /\ _format_current_weather utcoffset (without_key "weather" data) = Ok Empty
  /\ _format_current_weather utcoffset (without_key "sys" data) = Ok Empty.
Proof.
  intros H. split.
  { intros fld. exact (missing_key_gives_empty_dict utcoffset data r fld H). }
  apply current_weather_formats_from_try in H. rename H into Htry.
  unfold format_current_weather_try in Htry.
  repeat step Htry. clear Htry.
  unfold _format_current_weather, format_current_weather_try.
  repeat split; run; reflexivity.
Qed.

(** X10. Only a missing key gives the empty dict. From a body that formats,
    the same body with an empty [weather] array raises IndexError, with
    [null] for [main] or for [main.temp] TypeError, and with [null] for the
    description AttributeError: [except KeyError] catches none of them. *)
Theorem malformed_field_raises (data : value) (r : CurrentWeather.t) :
  _format_current_weather utcoffset data = Ok (Dict r) ->
  _format_current_weather utcoffset (at_key "weather" (fun _ => VList []) data)
  = Raise IndexError
  /\ _format_current_weather utcoffset (at_key "main" (fun _ => VNone) data)
     = Raise TypeError
  /\ _format_current_weather utcoffset
       (at_key "main" (at_key "temp" (fun _ => VNone)) data)
     = Raise TypeError
  /\ _format_current_weather utcoffset
       (at_key "weather" (at_head (at_key "description" (fun _ => VNone))) data)
     = Raise AttributeError.
Proof.
  intros H. apply current_weather_formats_from_try in H. rename H into Htry.
  unfold format_current_weather_try in Htry.
  repeat step Htry. clear Htry.
  unfold _format_current_weather, format_current_weather_try.
  repeat split; run; reflexivity.
Qed.

(** X11. What the dict holds. The temperature and the felt temperature are
    integers nearest to [main.temp] and [main.feels_like]; the city, the
    humidity, the pressure and the time zone offset are the values of the
    body as they are: nothing is checked or clamped. *)
Theorem current_weather_fields (data : value) (r : CurrentWeather.t) :
  _format_current_weather utcoffset data = Ok (Dict r) ->
  exists main temp feels : value,
    getitem data "main" = Ok main
    /\ getitem main "temp" = Ok temp
    /\ getitem main "feels_like" = Ok feels
    /\ is_number temp = true /\ is_number feels = true
    /\ nearest_integer (num temp) (CurrentWeather.temperature r)
    /\ nearest_integer (num feels) (CurrentWeather.feels_like r)
    /\ getitem main "humidity" = Ok (CurrentWeather.humidity r)
    /\ getitem main "pressure" = Ok (CurrentWeather.pressure r)
    /\ getitem data "name" = Ok (CurrentWeather.city r)
    /\ getitem data "timezone" = Ok (CurrentWeather.timezone r).
Proof.
  intros H. apply current_weather_formats_from_try in H. rename H into Htry.
  unfold format_current_weather_try in Htry.
  repeat step Htry. injection Htry as <-.
  cbn [CurrentWeather.city CurrentWeather.temperature CurrentWeather.feels_like
       CurrentWeather.humidity CurrentWeather.pressure CurrentWeather.timezone].
  assert (Hround : forall v z, Py.round v = Ok z ->
                     is_number v = true /\ nearest_integer (num v) z).
  { intros v z Hv.
    assert (Nv : is_number v = true)
      by (destruct v; try discriminate Hv; reflexivity).
    split; [exact Nv|]. rewrite (Aggregation.round_number v Nv) in Hv.
    injection Hv as <-. apply Rounding.round_half_even_nearest. }
  match goal with
  | Ht : Py.round ?t = Ok _, Hf : Py.round ?f = Ok _ |- _ =>
      destruct (Hround _ _ Ht) as [Nt Rt], (Hround _ _ Hf) as [Nf Rf];
      exists a, t, f
  end.
  repeat split; assumption.
Qed.

End Host.
End CurrentWeatherMore.

Module AnyPayload.

Import Aggregation.

(** ** Insertion-ordered dicts *)

Lemma dict_set_keys {A} (k : string) (v : A) (d : list (string * A)) :
  map fst (dict_set k v d)
  = if dict_mem k d then map fst d else map fst d ++ [k].
Proof.
  unfold dict_mem. induction d as [|[a x] d IH]; [reflexivity|].
  cbn [dict_set lookup]. destruct (String.eqb k a); [reflexivity|].
  cbn [map fst]. rewrite IH. now destruct (lookup k d).
Qed.

Lemma dict_mem_In {A} (k : string) (d : list (string * A)) :
  dict_mem k d = true <-> In k (map fst d).
Proof.
  unfold dict_mem. induction d as [|[a x] d IH]; cbn [lookup map fst In].
  - split; [discriminate|contradiction].
  - destruct (String.eqb_spec k a) as [->|Hne].
    + split; auto.
    + rewrite IH. split; [auto|intros [E|H]; [congruence|exact H]].
Qed.

Lemma dict_mem_set {A} (k : string) (v : A) (d : list (string * A)) :
  dict_mem k (dict_set k v d) = true.
Proof.
  unfold dict_mem. induction d as [|[a x] d IH]; cbn [dict_set lookup].
  - now rewrite String.eqb_refl.
  - destruct (String.eqb k a) eqn:E; cbn [lookup]; now rewrite E.
Qed.

Lemma dict_get_set {A} (k : string) (v : A) (d : list (string * A)) :
  dict_get k (dict_set k v d) = Ok v.
Proof.
  unfold dict_get. induction d as [|[a x] d IH]; cbn [dict_set lookup].
  - now rewrite String.eqb_refl.
  - destruct (String.eqb k a) eqn:E; cbn [lookup]; now rewrite E.
Qed.

Lemma dict_get_In {A} (k : string) (v : A) (d : list (string * A)) :
  dict_get k d = Ok v -> In (k, v) d.
Proof.
  unfold dict_get. induction d as [|[a x] d IH]; cbn [lookup]; [discriminate|].
  destruct (String.eqb_spec k a) as [->|Hne].
  - intros [= ->]. now left.
  - intros H. right. auto.
Qed.


Lemma Forall_dict_set_entry {A} (P : string * A -> Prop) (k : string) (v : A)
    (d : list (string * A)) :
  P (k, v) -> Forall P d -> Forall P (dict_set k v d).
Proof.
  intros Hv. induction d as [|[a x] d IH]; intros Hd; cbn [dict_set].
  - constructor; [exact Hv|constructor].
  - inversion Hd as [|? ? Hx Hd']; subst.
    destruct (String.eqb_spec k a) as [->|Hne]; constructor; auto.
Qed.

(** A key that is assigned twice holds the second value: what the first
    assignment stored does not matter. *)
Lemma Forall_dict_set_twice {A} (P : string * A -> Prop) (k : string) (v0 v : A)
    (d : list (string * A)) :
  P (k, v) -> Forall P d -> Forall P (dict_set k v (dict_set k v0 d)).
Proof.
  intros Hv. induction d as [|[a x] d IH]; intros Hd; cbn [dict_set].
  - rewrite String.eqb_refl. constructor; [exact Hv|constructor].
  - inversion Hd as [|? ? Hx Hd']; subst.
    destruct (String.eqb_spec k a) as [->|Hne]; cbn [dict_set].
    + rewrite String.eqb_refl. constructor; auto.
    + destruct (String.eqb_spec k a) as [->|_]; [congruence|].
      constructor; auto.
Qed.

(** ** What the primitives raise *)





















Section Host.

Variable utcoffset : Z -> Z.



(** The first loop keeps the keys distinct and every day filled. *)
Lemma group_item_entries (daily daily' : list (string * DailyForecast.t))
    (item : value) :
  group_item utcoffset daily item = Ok daily' ->
  NoDup (map fst daily) -> Forall day_entry daily ->
  NoDup (map fst daily') /\ Forall day_entry daily'.
Proof.
  unfold group_item. intros H Hnd Hd.
  step H. step H.
  match goal with
  | Ed : fromtimestamp utcoffset _ = Ok ?d |- _ => set (key := strftime_ymd d) in *
  end.
  match type of H with bind ?c _ = Ok _ => destruct c as [daily1|] eqn:E1 end;
    cbn [bind] in H; [|discriminate H].
  destruct (dict_mem key daily) eqn:Emem; cbn [negb] in E1.
  - (* the day is there *)
    injection E1 as <-.
    repeat step H. injection H as <-.
    match goal with
    | Eg : dict_get key daily = Ok ?f |- _ =>
        apply dict_get_In in Eg;
        pose proof (proj1 (Forall_forall _ _) Hd _ Eg) as [Hkey (Hne & Hh & Hw)]
    end.
    cbn [fst snd] in Hkey, Hne, Hh, Hw.
    split.
    + rewrite dict_set_keys, Emem. exact Hnd.
    + apply Forall_dict_set_entry; [|exact Hd].
      split; [exact Hkey|]. unfold filled.
      cbn [snd DailyForecast.descriptions DailyForecast.humidity
           DailyForecast.wind_speeds].
      rewrite !length_app. cbn [List.length].
      split; [intros Habs; apply app_eq_nil in Habs; destruct Habs; discriminate|].
      lia.
  - (* the day is new *)
    repeat step E1. injection E1 as <-.
    rewrite dict_get_set in H. cbn [bind] in H.
    repeat step H. injection H as <-.
    split.
    + rewrite !dict_set_keys, dict_mem_set, Emem.
      apply NoDup_app; [exact Hnd|repeat constructor; intros []|].
      intros x Hx [<-|[]]. apply dict_mem_In in Hx. congruence.
    + apply Forall_dict_set_twice; [|exact Hd].
      split; [reflexivity|]. unfold filled.
      cbn [snd DailyForecast.descriptions DailyForecast.humidity
           DailyForecast.wind_speeds app List.length].
      split; [discriminate|]. split; reflexivity.
Qed.

Lemma first_loop_entries (items : list value) :
  forall daily daily',
    foldM (group_item utcoffset) items daily = Ok daily' ->
    NoDup (map fst daily) -> Forall day_entry daily ->
    NoDup (map fst daily') /\ Forall day_entry daily'.
Proof.
  induction items as [|item items IH]; intros daily daily'; cbn [foldM].
  - intros [= <-]. auto.
  - destruct (group_item utcoffset daily item) as [daily1|] eqn:E; [|discriminate].
    cbn [bind]. intros H Hnd Hd.
    destruct (group_item_entries daily daily1 item E Hnd Hd) as [Hnd1 Hd1].
    exact (IH daily1 daily' H Hnd1 Hd1).
Qed.

End Host.


Lemma average_day_entry (k : string) (f f' : DailyForecast.t) :
  average_day f = Ok f' -> day_entry (k, f) ->
  day_entry (k, f') /\ averaged f'.
Proof.
  unfold average_day. intros H [Hkey Hf]. repeat step H. injection H as <-.
  split; [split; [exact Hkey|exact Hf]|].
  repeat split; discriminate.
Qed.


Lemma second_loop_entries (daily daily' : list (string * DailyForecast.t)) :
  mapM (fun kv => f <- average_day (snd kv) ;; Ok (fst kv, f)) daily = Ok daily' ->
  Forall day_entry daily ->
  map fst daily' = map fst daily
  /\ Forall (fun kv => day_entry kv /\ averaged (snd kv)) daily'.
Proof.
  revert daily'. induction daily as [|[k f] daily IH]; intros daily'; cbn [mapM].
  - intros [= <-] _. split; [reflexivity|constructor].
  - cbn [snd fst]. destruct (average_day f) as [f'|] eqn:E; [|discriminate].
    cbn [bind].
    destruct (mapM _ daily) as [rest|] eqn:Er; [|discriminate].
    cbn [bind]. intros [= <-] Hd. inversion Hd as [|? ? Hf Hd']; subst.
    destruct (IH rest eq_refl Hd') as [Hk Hr].
    cbn [map fst]. split; [now rewrite Hk|].
    constructor; [|exact Hr]. cbn [snd].
    exact (average_day_entry k f f' E Hf).
Qed.

Lemma map_ext_Forall_snd {A} (g : A -> string) (l : list (string * A)) :
  Forall (fun kv => g (snd kv) = fst kv) l -> map g (map snd l) = map fst l.
Proof.
  induction 1 as [|kv l H _ IH]; [reflexivity|]. cbn [map]. now rewrite H, IH.
Qed.

Lemma NoDup_firstn {A} (n : nat) (l : list A) : NoDup l -> NoDup (firstn n l).
Proof.
  revert n. induction l as [|x l IH]; intros [|n] H; cbn; try constructor.
  - inversion H as [|? ? Hx Hl]; subst. intros Hin. apply Hx.
    now apply in_firstn in Hin.
  - inversion H; subst. now apply IH.
Qed.

Section Properties.

Variable utcoffset : Z -> Z.


(** X13. Whatever the payload, a forecast that is returned holds at most
    five summaries, no two of them for the same date; every summary was
    built from at least one sample, holds as many humidity and wind
    readings as descriptions, and has its averages and its description. *)
Theorem summaries_of_any_payload (data : value) (r : ForecastData.t) :
  _format_forecast_data utcoffset data = Ok (Dict r) ->
  (List.length (ForecastData.forecasts r) <= 5)%nat
  /\ NoDup (map summary_key (ForecastData.forecasts r))
  /\ Forall (fun f => filled f /\ averaged f) (ForecastData.forecasts r).
Proof.
  intros Hrun. unfold _format_forecast_data in Hrun.
  assert (Htry : format_forecast_data_try utcoffset data = Ok r).
  { destruct (format_forecast_data_try utcoffset data) as [a|e];
      [now injection Hrun as ->|destruct e; discriminate Hrun]. }
  clear Hrun. unfold format_forecast_data_try in Htry.
  repeat step Htry. injection Htry as <-.
  cbn [ForecastData.forecasts].
  match goal with
  | E1 : foldM _ _ [] = Ok ?daily, E2 : mapM _ ?daily = Ok ?daily' |- _ =>
      destruct (first_loop_entries utcoffset _ _ _ E1 (NoDup_nil _) (Forall_nil _))
        as [Hnd Hd];
      destruct (second_loop_entries daily daily' E2 Hd) as [Hk Hd'];
      change (List.length (firstn 5 (map snd daily')) <= 5
              /\ NoDup (map summary_key (firstn 5 (map snd daily')))
              /\ Forall (fun f => filled f /\ averaged f)
                        (firstn 5 (map snd daily')))%nat;
      assert (Hkeys : map summary_key (map snd daily') = map fst daily')
  end.
  { apply map_ext_Forall_snd. rewrite Forall_forall in Hd' |- *.
    intros kv Hkv. now destruct (Hd' kv Hkv) as [[Hkey _] _]. }
  split; [rewrite length_firstn; lia|]. split.
  - rewrite <- firstn_map, Hkeys, Hk. now apply NoDup_firstn.
  - rewrite Forall_forall in Hd' |- *. intros f Hf. apply in_firstn in Hf.
    apply in_map_iff in Hf. destruct Hf as (kv & <- & Hkv).
    destruct (Hd' kv Hkv) as [[_ Hfill] Havg]. auto.
Qed.

End Properties.

End AnyPayload.

Module SampleFields.

Import CurrentWeatherFormat AnyPayload.

Lemma foldM_app {A S} (f : S -> A -> result S) (l1 l2 : list A) (s : S) :
  foldM f (l1 ++ l2) s = (s' <- foldM f l1 s ;; foldM f l2 s').
Proof.
  revert s. induction l1 as [|a l1 IH]; intros s; cbn [app foldM bind];
    [reflexivity|].
  destruct (f s a); cbn [bind]; [apply IH|reflexivity].
Qed.

Lemma forecast_formats_from_try (utcoffset : Z -> Z) (data : value) (r : ForecastData.t) :
  _format_forecast_data utcoffset data = Ok (Dict r) ->
  format_forecast_data_try utcoffset data = Ok r.
Proof.
  unfold _format_forecast_data. intros H.
  destruct (format_forecast_data_try utcoffset data) as [a|e];
    [now injection H as ->|destruct e; discriminate H].
Qed.

(** ** The accessors of an item that was changed *)

Lemma getindex_head (x : value) (l : list value) :
  getindex (VList (x :: l)) 0 = Ok x.
Proof.
  unfold getindex, seq_index. cbn [List.length].
  replace (0 <? Z.of_nat (S (List.length l))) with true
    by (symmetry; apply Z.ltb_lt; lia).
  reflexivity.
Qed.

Lemma item_main_at_other (k0 k : string) (f : value -> value) (item : value) :
  String.eqb "main" k0 = false ->
  item_main (at_key k0 f item) k = item_main item k.
Proof. intros H. unfold item_main. now rewrite getitem_at_key_other. Qed.

Lemma item_main_without_other (k0 k : string) (item : value) :
  String.eqb "main" k0 = false ->
  item_main (without_key k0 item) k = item_main item k.
Proof. intros H. unfold item_main. now rewrite getitem_without_other. Qed.

Lemma item_weather0_at_other (k0 k : string) (f : value -> value) (item : value) :
  String.eqb "weather" k0 = false ->
  item_weather0 (at_key k0 f item) k = item_weather0 item k.
Proof. intros H. unfold item_weather0. now rewrite getitem_at_key_other. Qed.

Lemma item_weather0_without_other (k0 k : string) (item : value) :
  String.eqb "weather" k0 = false ->
  item_weather0 (without_key k0 item) k = item_weather0 item k.
Proof. intros H. unfold item_weather0. now rewrite getitem_without_other. Qed.

Lemma item_wind_speed_at_other (k0 : string) (f : value -> value) (item : value) :
  String.eqb "wind" k0 = false ->
  item_wind_speed (at_key k0 f item) = item_wind_speed item.
Proof. intros H. unfold item_wind_speed. now rewrite getitem_at_key_other. Qed.

Lemma item_wind_speed_without_other (k0 : string) (item : value) :
  String.eqb "wind" k0 = false ->
  item_wind_speed (without_key k0 item) = item_wind_speed item.
Proof. intros H. unfold item_wind_speed. now rewrite getitem_without_other. Qed.

Lemma item_main_missing (k : string) (item x : value) :
  item_main item k = Ok x ->
  item_main (at_key "main" (without_key k) item) k = Raise KeyError.
Proof.
  unfold item_main. intros H. step H.
  erewrite getitem_at_key_same by eassumption. cbn [bind].
  now erewrite getitem_without_same by eassumption.
Qed.

Lemma item_main_kept (k k' : string) (item : value) :
  String.eqb k' k = false ->
  item_main (at_key "main" (without_key k) item) k' = item_main item k'.
Proof.
  intros Hne. unfold item_main.
  destruct (getitem item "main") as [main|e] eqn:E.
  - erewrite getitem_at_key_same by eassumption. cbn [bind].
    now apply getitem_without_other.
  - destruct item; try exact E. cbn in E |- *. rewrite lookup_at_key_same.
    destruct (lookup "main" d); [discriminate|exact E].
Qed.

Lemma item_wind_speed_missing (item x : value) :
  item_wind_speed item = Ok x ->
  item_wind_speed (at_key "wind" (without_key "speed") item) = Raise KeyError.
Proof.
  unfold item_wind_speed. intros H. step H.
  erewrite getitem_at_key_same by eassumption. cbn [bind].
  now erewrite getitem_without_same by eassumption.
Qed.

Lemma item_weather0_missing (k : string) (item x : value) :
  item_weather0 item k = Ok x ->
  item_weather0 (at_key "weather" (at_head (without_key k)) item) k
  = Raise KeyError.
Proof.
  unfold item_weather0. intros H. step H. step H.
  erewrite getitem_at_key_same by eassumption. cbn [bind].
  erewrite getindex_at_head by eassumption. cbn [bind].
  now erewrite getitem_without_same by eassumption.
Qed.

Lemma item_weather0_kept (k k' : string) (item : value) :
  String.eqb k' k = false ->
  item_weather0 (at_key "weather" (at_head (without_key k)) item) k'
  = item_weather0 item k'.
Proof.
  intros Hne. unfold item_weather0.
  destruct (getitem item "weather") as [weathers|e] eqn:E.
  - erewrite getitem_at_key_same by eassumption. cbn [bind].
    destruct weathers as [| | | | |[|x l]|]; try reflexivity.
    cbn [at_head]. rewrite !getindex_head. cbn [bind].
    now apply getitem_without_other.
  - destruct item; try exact E. cbn in E |- *. rewrite lookup_at_key_same.
    destruct (lookup "weather" d); [discriminate|exact E].
Qed.

Ltac unchanged :=
  repeat first
    [ rewrite item_main_at_other by reflexivity
    | rewrite item_main_without_other by reflexivity
    | rewrite item_weather0_at_other by reflexivity
    | rewrite item_weather0_without_other by reflexivity
    | rewrite item_wind_speed_at_other by reflexivity
    | rewrite item_wind_speed_without_other by reflexivity
    | rewrite (item_main_kept _ "temp") by reflexivity
    | rewrite (item_main_kept _ "humidity") by reflexivity
    | rewrite (item_weather0_kept _ "description") by reflexivity
    | rewrite (item_weather0_kept _ "main") by reflexivity
    | rewrite (item_weather0_kept _ "icon") by reflexivity
    | rewrite getitem_at_key_other by reflexivity
    | rewrite getitem_without_other by reflexivity ].

(** The computation that a run starts with. *)
Ltac head_of c :=
  match c with
  | bind ?c' _ => head_of c'
  | _ => c
  end.

(** One step of the run that [H] records, made in the goal as well. *)
Ltac advance H :=
  match type of H with
  | ?run = Ok _ =>
      let c := head_of run in
      match c with
      | Ok _ => fail 1
      | (if negb ?b then _ else _) =>
          destruct b eqn:?; cbn [bind negb] in H |- *
      | _ =>
          let E := fresh "E" in
          destruct c eqn:E; cbn [bind] in H |- *; [|discriminate H]
      end
  end.

Ltac missing :=
  first [ erewrite item_main_missing by eassumption
        | erewrite item_weather0_missing by eassumption
        | erewrite item_wind_speed_missing by eassumption
        | erewrite getitem_without_same by eassumption ];
  cbn [bind]; reflexivity.

Section Host.

Variable utcoffset : Z -> Z.

(** An item that the loop body accepts is refused, by KeyError, once it
    lacks one of the fields that are read from every sample. *)
Lemma group_item_missing_field (daily daily' : list (string * DailyForecast.t))
    (item : value) (fld : item_field) :
  group_item utcoffset daily item = Ok daily' ->
  group_item utcoffset daily (item_without fld item) = Raise KeyError.
Proof.
  unfold group_item. intros H.
  destruct fld; unfold item_without; unchanged;
    repeat (advance H; try missing).
Qed.

(** The keys of [daily_forecasts] after one more item. *)
Lemma group_item_keys (daily daily' : list (string * DailyForecast.t))
    (item : value) :
  group_item utcoffset daily item = Ok daily' ->
  exists k, item_date_key utcoffset item = Ok k
            /\ forall k', In k' (map fst daily')
                          <-> In k' (map fst daily) \/ k' = k.
Proof.
  unfold group_item. intros H.
  step H. step H. unfold item_date_key.
  rewrite E. cbn [bind]. rewrite E0. cbn [bind].
  eexists. split; [reflexivity|].
  match goal with |- context [strftime_ymd ?d] => set (key := strftime_ymd d) in * end.
  match type of H with bind ?c _ = Ok _ => destruct c as [daily1|] eqn:E1 end;
    cbn [bind] in H; [|discriminate H].
  repeat step H. injection H as <-.
  intros k'. rewrite dict_set_keys.
  destruct (dict_mem key daily) eqn:Emem; cbn [negb] in E1.
  - injection E1 as <-. rewrite Emem. apply dict_mem_In in Emem.
    split; [auto|intros [Hk| ->]; assumption].
  - repeat step E1. injection E1 as <-.
    rewrite dict_mem_set, dict_set_keys, Emem, in_app_iff. cbn [In].
    split; [intros [Hk|[<-|[]]]; auto|intros [Hk| ->]; auto].
Qed.

Lemma first_loop_keys (items : list value) :
  forall daily daily',
    foldM (group_item utcoffset) items daily = Ok daily' ->
    forall k, In k (map fst daily')
              <-> In k (map fst daily) \/ filed_under utcoffset k items = true.
Proof.
  induction items as [|item items IH]; intros daily daily'; cbn [foldM].
  - intros [= <-] k. cbn. split; [auto|intros [H|H]; [exact H|discriminate]].
  - destruct (group_item utcoffset daily item) as [daily1|] eqn:E; [|discriminate].
    cbn [bind]. intros H k.
    destruct (group_item_keys daily daily1 item E) as (k0 & Hk0 & Hkeys).
    rewrite (IH daily1 daily' H k), Hkeys.
    unfold filed_under. cbn [existsb]. rewrite Hk0.
    fold (filed_under utcoffset k items). rewrite orb_true_iff.
    destruct (String.eqb_spec k0 k) as [->|Hne].
    + split; [intros [[Hin|_]|Hf]; auto|intros [Hin|[_|Hf]]; auto].
    + split.
      * intros [[Hin| ->]|Hf]; auto; congruence.
      * intros [Hin|[Hf|Hf]]; auto; discriminate.
Qed.

(** The icon and the weather group are read from an item only when it
    opens a day. *)
Lemma group_item_opening_field_later (daily : list (string * DailyForecast.t))
    (item : value) (fld : opening_field) (k : string) :
  item_date_key utcoffset item = Ok k ->
  In k (map fst daily) ->
  group_item utcoffset daily (item_without_opening fld item)
  = group_item utcoffset daily item.
Proof.
  unfold item_date_key. intros Hk Hin. step Hk. step Hk. injection Hk as <-.
  apply dict_mem_In in Hin.
  unfold group_item.
  destruct fld; unfold item_without_opening; unchanged;
    repeat (known; cbn [bind]); rewrite Hin; reflexivity.
Qed.

Lemma group_item_opening_field_first (daily daily' : list (string * DailyForecast.t))
    (item : value) (fld : opening_field) (k : string) :
  item_date_key utcoffset item = Ok k ->
  ~ In k (map fst daily) ->
  group_item utcoffset daily item = Ok daily' ->
  group_item utcoffset daily (item_without_opening fld item) = Raise KeyError.
Proof.
  unfold item_date_key. intros Hk Hin H. step Hk. step Hk. injection Hk as <-.
  assert (Hmem : dict_mem (strftime_ymd a0) daily = false).
  { destruct (dict_mem _ daily) eqn:Em; [|reflexivity].
    apply dict_mem_In in Em. contradiction. }
  unfold group_item in H |- *.
  destruct fld; unfold item_without_opening; unchanged;
    rewrite E in H |- *; cbn [bind] in H |- *;
    rewrite E0 in H |- *; cbn [bind] in H |- *;
    rewrite Hmem in H |- *; cbn [negb] in H |- *;
    repeat (advance H; try missing).
Qed.

(** The payload with another sample list. *)
Lemma format_with_list (data : value) (items items' : list value) :
  getitem data "list" = Ok (VList items) ->
  format_forecast_data_try utcoffset (with_list items' data)
  = (city_info <- getitem data "city" ;;
     daily_forecasts <- foldM (group_item utcoffset) items' [] ;;
     daily_forecasts <-
       mapM (fun kv => f <- average_day (snd kv) ;; Ok (fst kv, f))
            daily_forecasts ;;
     name <- getitem city_info "name" ;;
     country <- getitem city_info "country" ;;
     Ok {| ForecastData.city := name;
           ForecastData.country := country;
           ForecastData.forecasts := firstn 5 (map snd daily_forecasts) |}).
Proof.
  intros Hlist. unfold format_forecast_data_try, with_list.
  rewrite getitem_at_key_other by reflexivity.
  erewrite getitem_at_key_same by eassumption. reflexivity.
Qed.

Lemma format_same_list (data : value) (items : list value) :
  getitem data "list" = Ok (VList items) ->
  format_forecast_data_try utcoffset (with_list items data)
  = format_forecast_data_try utcoffset data.
Proof.
  intros Hlist. rewrite (format_with_list data items items Hlist).
  unfold format_forecast_data_try. rewrite Hlist. reflexivity.
Qed.

(** X14. All or nothing. Where a payload is aggregated, the same payload
    in which one sample, anywhere in the list, lacks [dt], [main.temp],
    [main.humidity], [weather[0].description] or [wind.speed] gives the
    empty dict: the days already summed up are dropped with it. *)
Theorem sample_without_a_field_voids_the_forecast
    (data : value) (r : ForecastData.t) (pre post : list value)
    (item : value) (fld : item_field) :
  getitem data "list" = Ok (VList (pre ++ item :: post)) ->
  _format_forecast_data utcoffset data = Ok (Dict r) ->
  _format_forecast_data utcoffset
    (with_list (pre ++ item_without fld item :: post) data) = Ok Empty.
Proof.
  intros Hlist Hrun. apply forecast_formats_from_try in Hrun.
  unfold _format_forecast_data.
  rewrite (format_with_list data _ _ Hlist).
  unfold format_forecast_data_try in Hrun. rewrite Hlist in Hrun.
  step Hrun. cbn [bind iter] in Hrun |- *.
  rewrite foldM_app in Hrun |- *.
  destruct (foldM (group_item utcoffset) pre []) as [daily1|]; cbn [bind] in *;
    [|discriminate Hrun].
  cbn [foldM] in Hrun |- *.
  destruct (group_item utcoffset daily1 item) as [daily2|] eqn:E2;
    [|discriminate Hrun].
  rewrite (group_item_missing_field daily1 daily2 item fld E2). reflexivity.
Qed.

(** X15. The icon and the weather group are read from the first sample of
    a day only. Where a payload is aggregated, the same payload in which a
    sample lacks [weather[0].icon] or [weather[0].main] gives the same
    forecast when an earlier sample is of the same day, and the empty dict
    when the sample is the first of its day. *)
Theorem icon_is_read_from_the_first_sample_of_a_day
    (data : value) (r : ForecastData.t) (pre post : list value)
    (item : value) (k : string) (fld : opening_field) :
  getitem data "list" = Ok (VList (pre ++ item :: post)) ->
  _format_forecast_data utcoffset data = Ok (Dict r) ->
  item_date_key utcoffset item = Ok k ->
  _format_forecast_data utcoffset
    (with_list (pre ++ item_without_opening fld item :: post) data)
  = if filed_under utcoffset k pre then Ok (Dict r) else Ok Empty.
Proof.
  intros Hlist Hrun Hk. unfold _format_forecast_data in Hrun |- *.
  rewrite (format_with_list data _ _ Hlist).
  rewrite <- (format_same_list data _ Hlist) in Hrun.
  rewrite (format_with_list data _ _ Hlist) in Hrun.
  destruct (getitem data "city") as [city_info|e]; cbn [bind] in *;
    [|destruct e; discriminate Hrun].
  rewrite foldM_app in Hrun |- *.
  destruct (foldM (group_item utcoffset) pre []) as [daily1|e] eqn:Epre;
    cbn [bind] in *; [|destruct e; discriminate Hrun].
  pose proof (first_loop_keys pre [] daily1 Epre k) as Hkeys.
  cbn [foldM] in Hrun |- *.
  destruct (filed_under utcoffset k pre).
  - rewrite (group_item_opening_field_later daily1 item fld k Hk); [exact Hrun|].
    apply Hkeys. now right.
  - destruct (group_item utcoffset daily1 item) as [daily2|e] eqn:E2;
      [|destruct e; discriminate Hrun].
    rewrite (group_item_opening_field_first daily1 daily2 item fld k Hk); auto.
    intros Hin. apply Hkeys in Hin. destruct Hin as [[]|Hin]. discriminate.
Qed.

End Host.
End SampleFields.

Module Bounds.

Import Summary Aggregation Rounding.



Lemma round_half_even_bounds (q : Q) (lo hi : Z) :
  (inject_Z lo <= q <= inject_Z hi)%Q -> lo <= round_half_even q <= hi.
Proof.
  intros [Hlo Hhi].
  pose proof (round_half_even_le _ _ Hlo) as Rlo.
  pose proof (round_half_even_le _ _ Hhi) as Rhi.
  rewrite round_half_even_Z in Rlo, Rhi. split; assumption.
Qed.


Section Properties.

Variable utcoffset : Z -> Z.


(** X17. The range of a day covers its samples: the temperature of every
    sample of the day, rounded, lies between [temp_min] and [temp_max] of
    the summary of that day. *)
Theorem day_range_covers_its_samples
    (data name country : value) (ss : list sample) :
  read_payload utcoffset data = Some (name, country, ss) ->
  exists fs,
    _format_forecast_data utcoffset data
    = Ok (Dict {| ForecastData.city := name;
                  ForecastData.country := country;
                  ForecastData.forecasts := fs |})
    /\ Forall (fun f =>
                 exists lo hi : Z,
                   DailyForecast.temp_min f = VInt lo
                   /\ DailyForecast.temp_max f = VInt hi
                   /\ forall s, In s (day_group (summary_key f) ss) ->
                                lo <= round_half_even (temperature s) <= hi) fs.
Proof.
  intros Hread.
  destruct (summaries_of_payload utcoffset _ _ _ _ Hread) as (fs & Hrun & Hfs).
  exists fs. split; [exact Hrun|].
  revert Hfs. apply Forall_impl. intros f (first & rest & E & Hnum & ->).
  rewrite E. set (g := first :: rest) in *.
  assert (Hf : is_number (s_temp first) = true).
  { inversion Hnum; subst. now apply numeric_inv. }
  pose proof (numeric_temps g Hnum) as Ht.
  destruct (fold_vmin (map s_temp g) (s_temp first) Hf Ht) as (_ & _ & _ & Amin).
  destruct (fold_vmax (map s_temp g) (s_temp first) Hf Ht) as (_ & _ & _ & Amax).
  eexists. eexists. split; [reflexivity|]. split; [reflexivity|].
  intros s Hs. unfold temperature.
  split; apply round_half_even_le; [apply Amin|apply Amax]; now apply in_map.
Qed.

End Properties.

End Bounds.

Module Pictograms.

(** X18. The two copies of [get_weather_emoji], the method of the service
    and the function of the utilities, give the same pictogram for every
    icon code; and whatever the value, hashable, the code is, the answer is
    a pictogram of the table or the default one. *)
Theorem both_copies_of_get_weather_emoji_agree (icon_code : value) :
  WeatherService.get_weather_emoji icon_code = Utils.get_weather_emoji icon_code
  /\ (hashable icon_code = true ->
      exists emoji,
        Utils.get_weather_emoji icon_code = Ok emoji
        /\ (In emoji (map snd Utils.emoji_map) \/ emoji = "🌤️")).
Proof.
  split; [reflexivity|].
  unfold Utils.get_weather_emoji. intros ->.
  eexists. split; [reflexivity|].
  destruct icon_code; auto.
  destruct (lookup s Utils.emoji_map) as [emoji|] eqn:E; [left|now right].
  revert E. generalize Utils.emoji_map. intros m.
  induction m as [|[k v] m IH]; cbn [lookup]; [discriminate|].
  destruct (String.eqb s k); cbn [map snd In].
  - intros [= ->]. now left.
  - intros H. right. auto.
Qed.

End Pictograms.

Module WindDirection.

Import Utils Rounding Bounds.

(** The compass point of a whole number [d] of degrees from 0 to 359. *)
Lemma Qmod_integer (z : Z) : (Qmod (inject_Z z) 360 == inject_Z (z mod 360))%Q.
Proof.
  unfold Qmod.
  assert (E : Qfloor (inject_Z z / inject_Z 360) = z / 360).
  { unfold Qfloor, Qdiv, Qmult, Qinv, inject_Z. cbn.
    rewrite Z.mul_1_r. reflexivity. }
  rewrite E, Z.mod_eq by lia. unfold Z.sub.
  rewrite inject_Z_plus, inject_Z_opp, inject_Z_mult. ring.
Qed.

Lemma Qmod_range (q : Q) : (0 <= Qmod q 360 /\ Qmod q 360 < 360)%Q.
Proof.
  unfold Qmod. destruct (floor_bounds (q / inject_Z 360)) as [Hlo Hhi].
  set (f := inject_Z (Qfloor (q / inject_Z 360))) in *.
  assert (E : (q == q / inject_Z 360 * 360)%Q).
  { change (inject_Z 360) with 360%Q. field. }
  change (inject_Z 360) with 360%Q in *. split; lra.
Qed.

Lemma index_range (q : Q) :
  0 <= round_half_even (Qmod q 360 / (45 # 2)) <= 16.
Proof.
  destruct (Qmod_range q) as [Hlo Hhi].
  apply round_half_even_bounds.
  assert (E : (Qmod q 360 / (45 # 2) == Qmod q 360 * (2 # 45))%Q) by field.
  rewrite E. change (inject_Z 0) with 0%Q. change (inject_Z 16) with 16%Q.
  split; lra.
Qed.

(** X19. For every number of degrees, negative and beyond a full turn
    included, [get_wind_direction] returns one of the sixteen compass
    points: the index never leaves the list. *)
Theorem wind_direction_is_a_compass_point (degrees : value) :
  is_number degrees = true ->
  exists d, get_wind_direction degrees = Ok d /\ In d directions.
Proof.
  unfold is_number, get_wind_direction.
  destruct (as_number degrees) as [q|]; [intros _|discriminate].
  cbv zeta. pose proof (index_range q) as Hn.
  set (n := round_half_even (Qmod q 360 / (45 # 2))) in *.
  assert (Hi : 0 <= n mod 16 < 16) by (apply Z.mod_pos_bound; lia).
  unfold seq_index. change (Z.of_nat (List.length directions)) with 16.
  replace ((0 <=? n mod 16) && (n mod 16 <? 16)) with true
    by (symmetry; apply andb_true_iff; split; [apply Z.leb_le|apply Z.ltb_lt]; lia).
  destruct (nth_error directions (Z.to_nat (n mod 16))) as [d|] eqn:E.
  - exists d. split; [reflexivity|]. now apply nth_error_In in E.
  - apply nth_error_None in E. change (List.length directions) with 16%nat in E.
    lia.
Qed.

(** X20. For a whole number of degrees the answer is the compass point
    nearest to the direction: the point number [n], counted clockwise from
    north in steps of 22.5 degrees ([n = 16] is north again), lies within
    11.25 degrees of the direction taken modulo 360; directions that differ
    by full turns get the same answer. *)
Theorem wind_direction_is_the_nearest_point (z : Z) :
  exists n : Z,
    0 <= n <= 16
    /\ (Qabs (inject_Z (z mod 360) - (45 # 2) * inject_Z n) <= 45 # 4)%Q
    /\ get_wind_direction (VInt z)
       = Ok (nth (Z.to_nat (n mod 16)) directions "")
    /\ forall k : Z,
         get_wind_direction (VInt (z + 360 * k)) = get_wind_direction (VInt z).
Proof.
  assert (Hdir : forall z,
             get_wind_direction (VInt z)
             = Ok (nth (Z.to_nat (round_half_even (inject_Z (z mod 360) / (45 # 2))
                                  mod 16)) directions "")).
  { intros x. unfold get_wind_direction. cbn [as_number]. cbv zeta.
    assert (E : round_half_even (Qmod (inject_Z x) 360 / (45 # 2))
                = round_half_even (inject_Z (x mod 360) / (45 # 2))).
    { apply round_half_even_compat. now rewrite Qmod_integer. }
    rewrite E.
    set (n := round_half_even (inject_Z (x mod 360) / (45 # 2))).
    assert (Hi : 0 <= n mod 16 < 16) by (apply Z.mod_pos_bound; lia).
    unfold seq_index. change (Z.of_nat (List.length directions)) with 16.
    replace ((0 <=? n mod 16) && (n mod 16 <? 16)) with true
      by (symmetry; apply andb_true_iff; split;
          [apply Z.leb_le|apply Z.ltb_lt]; lia).
    destruct (nth_error directions (Z.to_nat (n mod 16))) as [d|] eqn:En.
    - f_equal. symmetry. now apply nth_error_nth.
    - apply nth_error_None in En.
      change (List.length directions) with 16%nat in En. lia. }
  exists (round_half_even (inject_Z (z mod 360) / (45 # 2))).
  split; [|split; [|split]].
  - pose proof (index_range (inject_Z z)) as H.
    rewrite (round_half_even_compat _ (inject_Z (z mod 360) / (45 # 2))) in H;
      [exact H|now rewrite Qmod_integer].
  - pose proof (round_half_even_nearest (inject_Z (z mod 360) / (45 # 2))) as H.
    unfold nearest_integer in H.
    set (n := inject_Z (round_half_even (inject_Z (z mod 360) / (45 # 2)))) in *.
    set (d := inject_Z (z mod 360)) in *.
    assert (E : (d / (45 # 2) == d * (2 # 45))%Q) by field.
    rewrite E in H. apply Qabs_Qle_condition in H. destruct H as [H1 H2].
    apply Qabs_Qle_condition. split; lra.
  - apply Hdir.
  - intros k. rewrite !Hdir.
    replace ((z + 360 * k) mod 360) with (z mod 360); [reflexivity|].
    rewrite Z.mul_comm. symmetry. apply Z.mod_add. lia.
Qed.

End WindDirection.

Module Advice.

Import Utils.

Section Lower.

Variable lower : string -> string.

Lemma gt_25_of_gt_30 (temp : value) :
  gt temp (VInt 30) = Ok true -> gt temp (VInt 25) = Ok true.
Proof.
  unfold gt. intros H.
  assert (N : is_number temp = true).
  { symmetry. exact (Aggregation.lt_same_kind _ _ _ H). }
  rewrite Aggregation.lt_numbers in H |- * by (reflexivity || exact N).
  injection H as H. f_equal.
  apply Aggregation.Qltb_lt in H. apply Aggregation.Qltb_lt.
  change (num (VInt 30)) with 30%Q in H. change (num (VInt 25)) with 25%Q. lra.
Qed.

(** The chain of [elif] on the temperature: the test [temp > 30] comes
    after the test [temp > 25]. *)
Lemma temperature_advice_spec (temp : value) (advice : list string) :
  temperature_advice temp = Ok advice ->
  ~ In "🌡️ Очень жарко! Пейте больше воды" advice
  /\ (gt temp (VInt 30) = Ok true ->
      advice = ["☀️ Жарко! Не забудьте о солнцезащите"]).
Proof.
  unfold temperature_advice. intros H.
  assert (Hne : forall a : string,
             a <> "🌡️ Очень жарко! Пейте больше воды" ->
             ~ In "🌡️ Очень жарко! Пейте больше воды" [a]).
  { intros a Ha [E|[]]. now apply Ha. }
  assert (Hcold : forall z, z <= 10 -> Py.lt temp (VInt z) = Ok true ->
                            gt temp (VInt 30) = Ok true -> False).
  { intros z Hz H1 H2. unfold gt in H2.
    assert (N : is_number temp = true)
      by exact (Aggregation.lt_same_kind _ _ _ H1).
    rewrite Aggregation.lt_numbers in H1, H2 by (reflexivity || exact N).
    injection H1 as H1. injection H2 as H2.
    apply Aggregation.Qltb_lt in H1, H2.
    change (num (VInt 30)) with (inject_Z 30) in H2.
    change (num (VInt z)) with (inject_Z z) in H1.
    assert (inject_Z z <= inject_Z 10)%Q by (rewrite <- Zle_Qle; exact Hz).
    change (inject_Z 30) with 30%Q in *. change (inject_Z 10) with 10%Q in *.
    lra. }
  step H. destruct a.
  { injection H as <-. split; [apply Hne; discriminate|].
    intros H30. exfalso. exact (Hcold (-10) ltac:(lia) E H30). }
  step H. destruct a.
  { injection H as <-. split; [apply Hne; discriminate|].
    intros H30. exfalso. exact (Hcold 0 ltac:(lia) E0 H30). }
  step H. destruct a.
  { injection H as <-. split; [apply Hne; discriminate|].
    intros H30. exfalso. exact (Hcold 10 ltac:(lia) E1 H30). }
  step H. destruct a.
  { injection H as <-. split; [apply Hne; discriminate|]. reflexivity. }
  step H. destruct a.
  { apply gt_25_of_gt_30 in E3. congruence. }
  injection H as <-. split; [intros Hin; exact Hin|]. congruence.
Qed.

Lemma precipitation_advice_spec (description : string) :
  ~ In "🌡️ Очень жарко! Пейте больше воды" (precipitation_advice description).
Proof.
  unfold precipitation_advice.
  repeat match goal with
         | |- context [if ?c then _ else _] => destruct c
         end; first [intros [E|[]]; discriminate E|intros Hin; exact Hin].
Qed.

(** X21. The advice for great heat is never given: the test for a
    temperature above 30 comes after the test for a temperature above 25,
    so a temperature above 30 gets the advice of a temperature above 25. *)
Theorem advice_for_great_heat_is_never_given
    (weather_data : value) (advice : list string) :
  advice_list lower weather_data = Ok advice ->
  ~ In "🌡️ Очень жарко! Пейте больше воды" advice
  /\ (forall temp,
        get weather_data "temperature" (VInt 0) = Ok temp ->
        gt temp (VInt 30) = Ok true ->
        In "☀️ Жарко! Не забудьте о солнцезащите" advice).
Proof.
  unfold advice_list. intros H. repeat step H. injection H as <-.
  match goal with
  | Ht : temperature_advice ?t = Ok ?l |- _ =>
      destruct (temperature_advice_spec t l Ht) as [Hnever Hhot]
  end.
  split.
  - rewrite !in_app_iff. intros [Hin|[Hin|[Hin|Hin]]].
    + now apply Hnever.
    + now apply precipitation_advice_spec in Hin.
    + match type of Hin with In _ (if ?c then _ else _) => destruct c end;
        [destruct Hin as [Habs|[]]; discriminate Habs|destruct Hin].
    + match type of Hin with In _ (if ?c then _ else _) => destruct c end;
        [destruct Hin as [Habs|[]]; discriminate Habs|destruct Hin].
  - intros temp [= <-] H30. rewrite (Hhot H30). now left.
Qed.

End Lower.

End Advice.

Module Configuration.

Import Requests.

(** X22. The configuration is created once. A call of [get_config] that
    succeeds leaves an instance that every later call returns as it is,
    whatever the environment has become; the call that creates it reads the
    token and the key from the environment, both not empty. A call fails,
    by ValueError, only while there is no instance and one of the two
    variables is unset or empty, and it leaves no instance. *)
Theorem configuration_is_created_once
    (environ : string -> option string) (instance : option Config) :
  match get_config environ instance with
  | (Ok config, instance') =>
      instance' = Some config
      /\ (forall environ', get_config environ' instance' = (Ok config, instance'))
      /\ (instance = None ->
          environ "BOT_TOKEN" = Some (bot_token config)
          /\ bot_token config <> ""
          /\ environ "WEATHER_API_KEY" = Some (weather_api_key config)
          /\ weather_api_key config <> "")
  | (Raise e, instance') =>
      e = ValueError /\ instance = None /\ instance' = None
      /\ (_get_env_var environ "BOT_TOKEN" = Raise ValueError
          \/ _get_env_var environ "WEATHER_API_KEY" = Raise ValueError)
  end.
Proof.
  unfold get_config. destruct instance as [c|].
  - split; [reflexivity|]. split; [reflexivity|discriminate].
  - unfold __init__, _get_env_var.
    destruct (environ "BOT_TOKEN") as [token|] eqn:Et; cbn [bind].
    + destruct (String.eqb_spec token "") as [->|Hne]; cbn [bind].
      * repeat split; auto.
      * destruct (environ "WEATHER_API_KEY") as [key|] eqn:Ek; cbn [bind].
        -- destruct (String.eqb_spec key "") as [->|Hk]; cbn [bind].
           ++ repeat split; auto.
           ++ repeat split; auto.
        -- repeat split; auto.
    + repeat split; auto.
Qed.

Section Service.

Variable utcoffset : Z -> Z.

(** What a call of the service sends. *)
Lemma service_requests (config : Config) (city : string) (w : world) :
  exists k k' : nat,
    (k <= Z.to_nat (max_retries config))%nat
    /\ (k' <= Z.to_nat (max_retries config))%nat
    /\ trace (snd (get_current_weather utcoffset config city w))
       = trace w ++ spaced (Request (current_weather_url config)
                              (get_weather_params config city false))
                           (Sleep 1) k
    /\ trace (snd (get_forecast utcoffset config city w))
       = trace w ++ spaced (Request (forecast_url config)
                              (get_weather_params config city true))
                           (Sleep 1) k'.
Proof.
  unfold get_current_weather, get_forecast.
  destruct (make_request_runs config (current_weather_url config)
              (get_weather_params config city false) w)
    as (k & v & w1 & -> & Hk & Ht & _).
  destruct (make_request_runs config (forecast_url config)
              (get_weather_params config city true) w)
    as (k' & v' & w2 & -> & Hk' & Ht' & _).
  exists k, k'. split; [exact Hk|]. split; [exact Hk'|].
  split; [destruct (truthy v)|destruct (truthy v')]; assumption.
Qed.

(** X23. The service with the configuration that the program creates:
    whatever the network does, one call of [get_current_weather] or of
    [get_forecast] sends at most three requests, one second apart, to the
    weather or the forecast address of api.openweathermap.org, with the
    city, the key of the environment, the language ru, metric units and,
    for the forecast alone, [cnt = 40]. *)
Theorem service_with_the_created_configuration
    (environ : string -> option string) (config : Config)
    (instance : option Config) (city : string) (w : world) :
  get_config environ None = (Ok config, instance) ->
  exists (key : string) (k k' : nat),
    environ "WEATHER_API_KEY" = Some key
    /\ (k <= 3)%nat /\ (k' <= 3)%nat
    /\ trace (snd (get_current_weather utcoffset config city w))
       = trace w
         ++ spaced (Request "https://api.openweathermap.org/data/2.5/weather"
                      [ ("q", VStr city); ("appid", VStr key);
                        ("lang", VStr "ru"); ("units", VStr "metric") ])
                   (Sleep 1) k
    /\ trace (snd (get_forecast utcoffset config city w))
       = trace w
         ++ spaced (Request "https://api.openweathermap.org/data/2.5/forecast"
                      [ ("q", VStr city); ("appid", VStr key);
                        ("lang", VStr "ru"); ("units", VStr "metric");
                        ("cnt", VInt 40) ])
                   (Sleep 1) k'.
Proof.
  unfold get_config, __init__, _get_env_var.
  destruct (environ "BOT_TOKEN") as [token|]; [|discriminate].
  destruct (String.eqb token ""); [discriminate|]. cbn [bind].
  destruct (environ "WEATHER_API_KEY") as [key|]; [|discriminate].
  destruct (String.eqb key ""); [discriminate|]. cbn [bind].
  intros [= <- _].
  match goal with
  | |- context [get_current_weather _ ?c _ _] =>
      destruct (service_requests c city w) as (k & k' & Hk & Hk' & Ht & Ht')
  end.
  exists key, k, k'. split; [reflexivity|].
  split; [exact Hk|]. split; [exact Hk'|]. split; [exact Ht|exact Ht'].
Qed.

End Service.

End Configuration.

Module Favorites.

Import Main Keyboards Requests.

(** ** The dict of the users *)

Lemma user_lookup_set (u u' : Z) (l : list entry) (d : favorites) :
  user_lookup u' (user_set u l d)
  = if u' =? u then Some l else user_lookup u' d.
Proof.
  induction d as [|[k x] d IH]; cbn [user_set user_lookup].
  - reflexivity.
  - destruct (Z.eqb_spec u k) as [->|Hne]; cbn [user_lookup].
    + now destruct (u' =? k).
    + rewrite IH. destruct (Z.eqb_spec u' k) as [->|Hk]; [|reflexivity].
      destruct (Z.eqb_spec k u); [congruence|reflexivity].
Qed.

Lemma user_get_set (u u' : Z) (l : list entry) (d : favorites) :
  user_get u' (user_set u l d) = if u' =? u then l else user_get u' d.
Proof.
  unfold user_get. rewrite user_lookup_set. now destruct (u' =? u).
Qed.

Lemma user_lookup_del (u u' : Z) (d : favorites) :
  user_lookup u' (user_del u d) = if u' =? u then None else user_lookup u' d.
Proof.
  unfold user_del. induction d as [|[k x] d IH]; cbn [filter user_lookup fst].
  - now destruct (u' =? u).
  - destruct (Z.eqb_spec u k) as [->|Hk]; cbn [negb user_lookup].
    + rewrite IH. destruct (Z.eqb_spec u' k); reflexivity.
    + rewrite IH. destruct (Z.eqb_spec u' k) as [->|Hk']; [|reflexivity].
      destruct (Z.eqb_spec k u); [congruence|reflexivity].
Qed.

(** The membership test on a list of city names. *)
Lemma contains_city (c : string) (names : list string) :
  contains (city_entry c) (map city_entry names) = true <-> In c names.
Proof.
  unfold contains. rewrite existsb_exists. split.
  - intros (e & He & Heq). apply in_map_iff in He. destruct He as (n & <- & Hn).
    cbn in Heq. apply String.eqb_eq in Heq. now subst.
  - intros Hin. exists (city_entry c). split; [now apply in_map|].
    cbn. apply String.eqb_refl.
Qed.

Lemma tidy_nil : tidy [].
Proof. exists []. repeat split; [constructor|cbn; lia]. Qed.

(** ** The lines that file a city *)

(** What [file_city] does to the list of the user, and to no other. *)
Lemma file_city_spec (u : Z) (c : string) (d : favorites)
    (added : nat -> ui) (full present : ui) :
  let l := user_get u d in
  let d' := fst (file_city u (city_entry c) d added full present) in
  (forall u', u' <> u -> user_get u' d' = user_get u' d)
  /\ user_get u d'
     = (if negb (contains (city_entry c) l) && (List.length l <? 6)%nat
        then l ++ [city_entry c] else l).
Proof.
  cbv zeta. unfold file_city.
  set (d1 := match user_lookup u d with
             | Some _ => d
             | None => user_set u [] d
             end).
  assert (H1 : forall u', user_get u' d1 = user_get u' d).
  { intros u'. unfold d1. destruct (user_lookup u d) eqn:E; [reflexivity|].
    rewrite user_get_set. destruct (Z.eqb_spec u' u) as [->|]; [|reflexivity].
    unfold user_get. now rewrite E. }
  rewrite (H1 u).
  destruct (negb (contains (city_entry c) (user_get u d)));
    [destruct (List.length (user_get u d) <? 6)%nat|]; cbn [fst andb].
  - split.
    + intros u' Hne. rewrite user_get_set.
      destruct (Z.eqb_spec u' u); [congruence|apply H1].
    + rewrite user_get_set, Z.eqb_refl. reflexivity.
  - split; [intros u' _; apply H1|apply H1].
  - split; [intros u' _; apply H1|apply H1].
Qed.

Lemma file_city_tidy (u : Z) (c : string) (d : favorites)
    (added : nat -> ui) (full present : ui) :
  all_tidy d ->
  all_tidy (fst (file_city u (city_entry c) d added full present)).
Proof.
  intros Hd u'.
  destruct (file_city_spec u c d added full present) as [Hother Hsame].
  destruct (Z.eq_dec u' u) as [->|Hne]; [|rewrite Hother by exact Hne; apply Hd].
  rewrite Hsame. destruct (Hd u) as (names & El & Hnd & Hlen).
  destruct (contains (city_entry c) (user_get u d)) eqn:Ec; cbn [negb andb];
    [exists names; auto|].
  destruct (List.length (user_get u d) <? 6)%nat eqn:E6; [|exists names; auto].
  exists (names ++ [c]). rewrite map_app, El. split; [reflexivity|].
  apply Nat.ltb_lt in E6. rewrite El, length_map in E6.
  split; [|rewrite length_app; cbn; lia].
  apply NoDup_app; [exact Hnd|repeat constructor; intros []|].
  intros x Hx [<-|[]].
  rewrite El in Ec. apply contains_city in Hx. congruence.
Qed.

Section Handlers.

Variables (utcoffset : Z -> Z) (config : Config) (strip : string -> string).
Variable format_weather_message : CurrentWeather.t -> result string.
Variable format_forecast_message : ForecastData.t -> result string.

(** The name under which [process_add_favorite] files a city: the dict of
    the service has no key [name]. *)
Lemma filed_name (weather_data : CurrentWeather.t) (city : string) :
  weather_get weather_data "name" (Json (VStr city)) = city_entry city.
Proof. reflexivity. Qed.

Lemma show_weather_favorites (edit : bool) (city : string) (done failed : ui)
    (self : WeatherBot) :
  user_favorites (fst (show_weather utcoffset config format_weather_message
                         edit city done failed self))
  = user_favorites self.
Proof.
  unfold show_weather.
  destruct (get_current_weather utcoffset config city (weather_service self))
    as [[[[|r]|]|e] w]; reflexivity.
Qed.

Lemma show_forecast_favorites (edit : bool) (city : string) (done failed : ui)
    (self : WeatherBot) :
  user_favorites (fst (show_forecast utcoffset config format_forecast_message
                         edit city done failed self))
  = user_favorites self.
Proof.
  unfold show_forecast.
  destruct (get_forecast utcoffset config city (weather_service self))
    as [[[[|r]|]|e] w]; reflexivity.
Qed.

(** What [handle_callback] does to the favourites: nothing, or what
    [file_city] does with the text after the first colon. *)
Lemma handle_callback_favorites (data : string) (u : Z) (self : WeatherBot) :
  user_favorites (fst (Main.handle_callback utcoffset config format_weather_message
                         format_forecast_message data u self)) = user_favorites self
  \/ exists c added full present,
       user_favorites (fst (Main.handle_callback utcoffset config format_weather_message
                         format_forecast_message data u self))
       = fst (file_city u (city_entry c) (user_favorites self) added full present).
Proof.
  unfold Main.handle_callback, Main.handle_callback_try.
  repeat match goal with
         | |- context [if String.prefix ?p data then _ else _] =>
             destruct (String.prefix p data)
         end;
    try (destruct (after_first colon data) as [c|]; [|left; reflexivity]).
  - left. rewrite <- (show_weather_favorites true c
                        (Callback_answer (Some "🔄 Погода обновлена!") false)
                        (Callback_answer (Some "❌ Ошибка обновления данных") true)
                        self).
    now destruct (show_weather _ _ _ _ _ _ _ _) as [b [shown|e]].
  - left. rewrite <- (show_forecast_favorites true c
                        (Callback_answer (Some "🔄 Прогноз обновлен!") false)
                        (Callback_answer (Some "❌ Ошибка обновления прогноза") true)
                        self).
    now destruct (show_forecast _ _ _ _ _ _ _ _) as [b [shown|e]].
  - left. rewrite <- (show_forecast_favorites false c
                        (Callback_answer None false)
                        (Callback_answer (Some "❌ Ошибка получения прогноза") true)
                        self).
    now destruct (show_forecast _ _ _ _ _ _ _ _) as [b [shown|e]].
  - left. rewrite <- (show_weather_favorites false c
                        (Callback_answer None false)
                        (Callback_answer (Some "❌ Ошибка получения погоды") true)
                        self).
    now destruct (show_weather _ _ _ _ _ _ _ _) as [b [shown|e]].
  - right. eexists c, _, _, _.
    destruct (file_city u (Json (VStr c)) (user_favorites self) _ _ _)
      as [d shown] eqn:E.
    cbn [fst user_favorites with_favorites].
    change (Json (VStr c)) with (city_entry c) in E. rewrite E. reflexivity.
  - left. reflexivity.
  - left. reflexivity.
  - left. reflexivity.
Qed.

Lemma process_add_favorite_favorites (text : string) (u : Z) (self : WeatherBot) :
  user_favorites (fst (Main.process_add_favorite utcoffset config strip text u self)) = user_favorites self
  \/ exists added full present,
       user_favorites (fst (Main.process_add_favorite utcoffset config strip text u self))
       = fst (file_city u (city_entry (strip text)) (user_favorites self)
                added full present).
Proof.
  unfold Main.process_add_favorite.
  destruct (get_current_weather utcoffset config (strip text)
              (weather_service self)) as [[[[|r]|]|e] w];
    try (left; reflexivity).
  right. rewrite filed_name. eexists _, _, _.
  destruct (file_city u (city_entry (strip text)) (user_favorites self) _ _ _)
    as [d shown] eqn:E.
  cbn [fst user_favorites]. rewrite E. reflexivity.
Qed.

Lemma clear_favorites_spec (u : Z) (self : WeatherBot) :
  user_get u (user_favorites (fst (clear_favorites u self))) = []
  /\ forall u', u' <> u ->
       user_get u' (user_favorites (fst (clear_favorites u self)))
       = user_get u' (user_favorites self).
Proof.
  unfold clear_favorites, user_get. cbn [fst with_favorites user_favorites].
  destruct (user_lookup u (user_favorites self)) eqn:E.
  - split.
    + now rewrite user_lookup_del, Z.eqb_refl.
    + intros u' Hne. rewrite user_lookup_del.
      destruct (Z.eqb_spec u' u); [congruence|reflexivity].
  - split; [now rewrite E|reflexivity].
Qed.

(** The service returns [None] when every attempt is retried. *)
Lemma service_gives_up (city : string) (w : world) :
  (forall k, (k < Z.to_nat (max_retries config))%nat ->
             retried (network w (sent w + k)) = true) ->
  fst (get_current_weather utcoffset config city w) = Ok None
  /\ fst (get_forecast utcoffset config city w) = Ok None.
Proof.
  intros Hall. unfold get_current_weather, get_forecast.
  pose proof (make_request_all_retried config (current_weather_url config)
                (get_weather_params config city false) w Hall) as H1.
  pose proof (make_request_all_retried config (forecast_url config)
                (get_weather_params config city true) w Hall) as H2.
  destruct (_make_request config (current_weather_url config) _ w) as [v1 w1].
  destruct (_make_request config (forecast_url config) _ w) as [v2 w2].
  cbn [fst] in H1, H2. subst. split; reflexivity.
Qed.

(** X24. When every attempt to reach the provider fails (time-outs, lost
    connections, statuses other than 200 and 404, bodies that cannot be
    decoded), the user who asked for the weather or the forecast of a city,
    or who adds it to the favourites, is told that the city was not found;
    the favourites stay as they are. *)
Theorem failed_requests_are_shown_as_city_not_found
    (text : string) (user_id : Z) (self : WeatherBot) :
  (forall k, (k < Z.to_nat (max_retries config))%nat ->
             retried (network (weather_service self)
                        (sent (weather_service self) + k)) = true) ->
  snd (Main.process_city_weather utcoffset config strip format_weather_message
         text self)
  = [Loading; City_not_found (strip text)]
  /\ snd (Main.process_city_forecast utcoffset config strip
            format_forecast_message text self)
     = [Loading; City_not_found (strip text)]
  /\ snd (Main.process_add_favorite utcoffset config strip text user_id self)
     = [Loading; City_not_found (strip text)]
  /\ user_favorites
       (fst (Main.process_add_favorite utcoffset config strip text user_id self))
     = user_favorites self.
Proof.
  intros Hall.
  destruct (service_gives_up (strip text) (weather_service self) Hall)
    as [Hc Hf].
  unfold Main.process_city_weather, Main.process_city_forecast,
    Main.process_add_favorite.
  destruct (get_current_weather utcoffset config (strip text)
              (weather_service self)) as [r1 w1].
  destruct (get_forecast utcoffset config (strip text) (weather_service self))
    as [r2 w2].
  cbn [fst] in Hc, Hf. subst. repeat split; reflexivity.
Qed.

(** X25. The favourites stay tidy. When the list of every user holds city
    names, no name twice and at most six of them, as in the empty dict that
    the bot starts with, it does so after [process_add_favorite], after
    [handle_callback] and after [clear_favorites], whatever the text, the
    callback data and the network are; and after [clear_favorites] the
    menu of the favourites shows no city. *)
Theorem favorites_stay_tidy
    (text data : string) (user_id : Z) (self : WeatherBot) :
  all_tidy (user_favorites self) ->
  all_tidy (user_favorites
              (fst (Main.process_add_favorite utcoffset config strip
                      text user_id self)))
  /\ all_tidy (user_favorites
                 (fst (Main.handle_callback utcoffset config
                         format_weather_message format_forecast_message
                         data user_id self)))
  /\ all_tidy (user_favorites (fst (clear_favorites user_id self)))
  /\ snd (menu_favorites user_id (fst (clear_favorites user_id self)))
     = [Favorites_keyboard []].
Proof.
  intros Hd. split; [|split; [|split]].
  - destruct (process_add_favorite_favorites text user_id self)
      as [->|(a & f & p & ->)]; [exact Hd|now apply file_city_tidy].
  - destruct (handle_callback_favorites data user_id self)
      as [->|(c & a & f & p & ->)]; [exact Hd|now apply file_city_tidy].
  - intros u. destruct (clear_favorites_spec user_id self) as [Hu Hother].
    destruct (Z.eq_dec u user_id) as [->|Hne].
    + rewrite Hu. apply tidy_nil.
    + rewrite Hother by exact Hne. apply Hd.
  - unfold menu_favorites. cbn [snd].
    now rewrite (proj1 (clear_favorites_spec user_id self)).
Qed.

(** X26. Each user has favourites of their own: what one user types,
    presses or clears leaves the favourites of every other user as they
    are. *)
Theorem favorites_of_other_users_are_untouched
    (text data : string) (user_id other : Z) (self : WeatherBot) :
  other <> user_id ->
  user_get other
    (user_favorites
       (fst (Main.process_add_favorite utcoffset config strip text user_id self)))
  = user_get other (user_favorites self)
  /\ user_get other
       (user_favorites
          (fst (Main.handle_callback utcoffset config format_weather_message
                  format_forecast_message data user_id self)))
     = user_get other (user_favorites self)
  /\ user_get other (user_favorites (fst (clear_favorites user_id self)))
     = user_get other (user_favorites self).
Proof.
  intros Hne. split; [|split].
  - destruct (process_add_favorite_favorites text user_id self)
      as [->|(a & f & p & ->)]; [reflexivity|].
    now apply file_city_spec.
  - destruct (handle_callback_favorites data user_id self)
      as [->|(c & a & f & p & ->)]; [reflexivity|].
    now apply file_city_spec.
  - now apply clear_favorites_spec.
Qed.

(** X27. A city is filed under the name that the user typed. When the
    service returns the weather of the city, [process_add_favorite] appends
    the text of the message, stripped, to the favourites of the user (it is
    not there yet, and there are fewer than six): the dict of the service
    has no key [name], so the name that the provider gave is not used. *)
Theorem city_is_filed_as_typed
    (text : string) (user_id : Z) (self : WeatherBot)
    (weather_data : CurrentWeather.t) :
  fst (get_current_weather utcoffset config (strip text) (weather_service self))
  = Ok (Some (Dict weather_data)) ->
  contains (city_entry (strip text)) (user_get user_id (user_favorites self))
  = false ->
  (List.length (user_get user_id (user_favorites self)) < 6)%nat ->
  user_get user_id
    (user_favorites
       (fst (Main.process_add_favorite utcoffset config strip text user_id self)))
  = user_get user_id (user_favorites self) ++ [city_entry (strip text)]
  /\ snd (Main.process_add_favorite utcoffset config strip text user_id self)
     = [ Loading;
         Favorite_added (city_entry (strip text))
           (S (List.length (user_get user_id (user_favorites self))));
         Favorites_keyboard
           (user_get user_id (user_favorites self) ++ [city_entry (strip text)]) ].
Proof.
  intros Hw Hnew Hlen. unfold Main.process_add_favorite.
  destruct (get_current_weather utcoffset config (strip text)
              (weather_service self)) as [r w].
  cbn [fst] in Hw. subst r. rewrite filed_name.
  pose proof (file_city_spec user_id (strip text) (user_favorites self)
                (Favorite_added (city_entry (strip text))) Limit_exceeded
                (Already_favorite (city_entry (strip text)))) as [_ Hsame].
  cbv zeta in Hsame. rewrite Hnew in Hsame.
  apply Nat.ltb_lt in Hlen. rewrite Hlen in Hsame. cbn [negb andb] in Hsame.
  assert (Hshown : snd (file_city user_id (city_entry (strip text))
                          (user_favorites self)
                          (Favorite_added (city_entry (strip text)))
                          Limit_exceeded
                          (Already_favorite (city_entry (strip text))))
                   = Favorite_added (city_entry (strip text))
                       (S (List.length (user_get user_id (user_favorites self))))).
  { unfold file_city.
    assert (H1 : user_get user_id
                   match user_lookup user_id (user_favorites self) with
                   | Some _ => user_favorites self
                   | None => user_set user_id [] (user_favorites self)
                   end
                 = user_get user_id (user_favorites self)).
    { destruct (user_lookup user_id (user_favorites self)) eqn:E;
        [reflexivity|].
      rewrite user_get_set, Z.eqb_refl. unfold user_get. now rewrite E. }
    rewrite H1, Hnew, Hlen. reflexivity. }
  destruct (file_city user_id (city_entry (strip text)) (user_favorites self) _ _ _)
    as [d shown].
  cbn [fst snd user_favorites] in *. subst shown. rewrite Hsame.
  split; reflexivity.
Qed.

Lemma prefix_append (p s : string) : String.prefix p (p ++ s) = true.
Proof.
  induction p as [|c p IH]; cbn [append String.prefix].
  - now destruct s.
  - destruct (ascii_dec c c); [exact IH|congruence].
Qed.

Ltac route :=
  unfold Main.handle_callback_try;
  repeat match goal with
         | |- context [String.prefix ?p (?q ++ ?c)%string] =>
             first [ rewrite (prefix_append p c)
                   | replace (String.prefix p (q ++ c)%string) with false
                       by reflexivity ]
         end;
  reflexivity.

(** Where [handle_callback] sends the data of a button: the prefix up to
    the first colon chooses the branch, what follows the colon is the
    city. *)
Lemma route_refresh_weather (city : string) (u : Z) (self : WeatherBot) :
  Main.handle_callback_try utcoffset config format_weather_message
    format_forecast_message ("refresh_weather:" ++ city) u self
  = show_weather utcoffset config format_weather_message true city
      (Callback_answer (Some "🔄 Погода обновлена!") false)
      (Callback_answer (Some "❌ Ошибка обновления данных") true) self.
Proof. route. Qed.

Lemma route_refresh_forecast (city : string) (u : Z) (self : WeatherBot) :
  Main.handle_callback_try utcoffset config format_weather_message
    format_forecast_message ("refresh_forecast:" ++ city) u self
  = show_forecast utcoffset config format_forecast_message true city
      (Callback_answer (Some "🔄 Прогноз обновлен!") false)
      (Callback_answer (Some "❌ Ошибка обновления прогноза") true) self.
Proof. route. Qed.

Lemma route_get_forecast (city : string) (u : Z) (self : WeatherBot) :
  Main.handle_callback_try utcoffset config format_weather_message
    format_forecast_message ("get_forecast:" ++ city) u self
  = show_forecast utcoffset config format_forecast_message false city
      (Callback_answer None false)
      (Callback_answer (Some "❌ Ошибка получения прогноза") true) self.
Proof. route. Qed.

Lemma route_current_weather (city : string) (u : Z) (self : WeatherBot) :
  Main.handle_callback_try utcoffset config format_weather_message
    format_forecast_message ("current_weather:" ++ city) u self
  = show_weather utcoffset config format_weather_message false city
      (Callback_answer None false)
      (Callback_answer (Some "❌ Ошибка получения погоды") true) self.
Proof. route. Qed.

Lemma route_add_favorite (city : string) (u : Z) (self : WeatherBot) :
  Main.handle_callback_try utcoffset config format_weather_message
    format_forecast_message ("add_favorite:" ++ city) u self
  = (let (d, shown) :=
       file_city u (city_entry city) (user_favorites self)
         (fun _ => Callback_answer
                     (Some ("⭐ " ++ city ++ " добавлен в избранное!")%string)
                     false)
         (Callback_answer (Some "❌ Превышен лимит избранных городов (6)") true)
         (Callback_answer (Some ("ℹ️ " ++ city ++ " уже в избранном")%string)
            false) in
     (with_favorites self d, Ok [shown])).
Proof. route. Qed.

(** X28. The inline buttons act on their city. Pressed, the buttons that
    [get_inline_weather_keyboard] and [get_inline_forecast_keyboard] make
    for a city ask the service for the weather, or the forecast, of that
    very city, a colon in its name included, or file that city with the
    favourites of the user; filing asks the service nothing. *)
Theorem inline_buttons_act_on_their_city
    (city : string) (user_id : Z) (self : WeatherBot) :
  map callback_data (get_inline_weather_keyboard city)
  = [ Some ("refresh_weather:" ++ city)%string;
      Some ("get_forecast:" ++ city)%string;
      Some ("add_favorite:" ++ city)%string; None ]
  /\ map callback_data (get_inline_forecast_keyboard city)
     = [ Some ("current_weather:" ++ city)%string;
         Some ("refresh_forecast:" ++ city)%string;
         Some ("add_favorite:" ++ city)%string; None ]
  /\ (forall data,
        In data ["refresh_weather:" ++ city; "current_weather:" ++ city]%string ->
        weather_service
          (fst (Main.handle_callback utcoffset config format_weather_message
                  format_forecast_message data user_id self))
        = snd (get_current_weather utcoffset config city (weather_service self)))
  /\ (forall data,
        In data ["get_forecast:" ++ city; "refresh_forecast:" ++ city]%string ->
        weather_service
          (fst (Main.handle_callback utcoffset config format_weather_message
                  format_forecast_message data user_id self))
        = snd (get_forecast utcoffset config city (weather_service self)))
  /\ weather_service
       (fst (Main.handle_callback utcoffset config format_weather_message
               format_forecast_message ("add_favorite:" ++ city) user_id self))
     = weather_service self
  /\ user_get user_id
       (user_favorites
          (fst (Main.handle_callback utcoffset config format_weather_message
                  format_forecast_message ("add_favorite:" ++ city) user_id self)))
     = (if negb (contains (city_entry city)
                   (user_get user_id (user_favorites self)))
           && (List.length (user_get user_id (user_favorites self)) <? 6)%nat
        then user_get user_id (user_favorites self) ++ [city_entry city]
        else user_get user_id (user_favorites self)).
Proof.
  split; [reflexivity|]. split; [reflexivity|].
  assert (Hw : forall edit done failed,
             weather_service
               (fst (let (b, shown) :=
                       show_weather utcoffset config format_weather_message
                         edit city done failed self in
                     match shown with
                     | Ok shown => (b, shown)
                     | Raise _ =>
                         (b, [Callback_answer (Some "❌ Произошла ошибка") true])
                     end))
             = snd (get_current_weather utcoffset config city
                      (weather_service self))).
  { intros edit done failed. unfold show_weather.
    destruct (get_current_weather utcoffset config city (weather_service self))
      as [[[[|r]|]|e] w]; try reflexivity.
    cbn [snd]. now destruct (format_weather_message r). }
  assert (Hf : forall edit done failed,
             weather_service
               (fst (let (b, shown) :=
                       show_forecast utcoffset config format_forecast_message
                         edit city done failed self in
                     match shown with
                     | Ok shown => (b, shown)
                     | Raise _ =>
                         (b, [Callback_answer (Some "❌ Произошла ошибка") true])
                     end))
             = snd (get_forecast utcoffset config city (weather_service self))).
  { intros edit done failed. unfold show_forecast.
    destruct (get_forecast utcoffset config city (weather_service self))
      as [[[[|r]|]|e] w]; try reflexivity.
    cbn [snd]. now destruct (format_forecast_message r). }
  split; [|split; [|split]].
  - intros data [<-|[<-|[]]]; unfold Main.handle_callback;
      [rewrite route_refresh_weather|rewrite route_current_weather]; apply Hw.
  - intros data [<-|[<-|[]]]; unfold Main.handle_callback;
      [rewrite route_get_forecast|rewrite route_refresh_forecast]; apply Hf.
  - unfold Main.handle_callback. rewrite route_add_favorite.
    now destruct (file_city _ _ _ _ _ _).
  - unfold Main.handle_callback. rewrite route_add_favorite.
    pose proof (file_city_spec user_id city (user_favorites self)
                  (fun _ => Callback_answer
                              (Some ("⭐ " ++ city ++ " добавлен в избранное!")%string)
                              false)
                  (Callback_answer (Some "❌ Превышен лимит избранных городов (6)")
                     true)
                  (Callback_answer (Some ("ℹ️ " ++ city ++ " уже в избранном")%string)
                     false)) as [_ Hsame].
    cbv zeta in Hsame. rewrite <- Hsame.
    now destruct (file_city _ _ _ _ _ _).
Qed.

(** X29. The settings are not kept. Pressed, a button of
    [get_units_keyboard] or of [get_language_keyboard] is answered with the
    name of the choice and changes nothing: the favourites and the service
    are as before, and the requests of the service go on with the units and
    the language of the configuration. *)
Theorem settings_buttons_change_nothing
    (choice : string) (user_id : Z) (self : WeatherBot) :
  map callback_data get_units_keyboard
  = [Some "units:metric"; Some "units:imperial"; Some "units:kelvin"]
  /\ map callback_data get_language_keyboard
     = [Some "lang:ru"; Some "lang:en"; Some "lang:de"; Some "lang:fr"]
  /\ Main.handle_callback utcoffset config format_weather_message
       format_forecast_message ("units:" ++ choice) user_id self
     = (self, [Callback_answer
                 (Some ("🌡️ Единицы измерения: " ++ choice)%string) false])
  /\ Main.handle_callback utcoffset config format_weather_message
       format_forecast_message ("lang:" ++ choice) user_id self
     = (self, [Callback_answer
                 (Some ("🌍 Язык изменен на: " ++ choice)%string) false]).
Proof.
  split; [reflexivity|]. split; [reflexivity|].
  unfold Main.handle_callback. split; route.
Qed.

(** The service on a first attempt that is answered by HTTP 200 with a
    truthy body. *)
Lemma service_formats_first_answer (city : string) (w : world) (body : value) :
  0 < max_retries config ->
  succeeds_with body (network w (sent w)) ->
  truthy body = true ->
  fst (get_current_weather utcoffset config city w)
  = (r <- _format_current_weather utcoffset body ;; Ok (Some r)).
Proof.
  intros Hmax Hbody Htruthy.
  assert (H0 : (0 < Z.to_nat (max_retries config))%nat) by lia.
  assert (Hnot : retried (network w (sent w + 0)) = false).
  { rewrite Nat.add_0_r. destruct Hbody as (r & -> & Hs & Hj). cbn.
    now rewrite Hs, Hj. }
  destruct (make_request_stops_at config (current_weather_url config)
              (get_weather_params config city false) w 0 H0
              ltac:(intros i Hi; lia) Hnot)
    as (v & w' & Hrun & _ & _ & Hans).
  unfold get_current_weather. rewrite Hrun.
  rewrite Nat.add_0_r in Hans.
  assert (Ev : v = body).
  { destruct Hbody as (r & Hr & Hs & Hj).
    destruct Hans as [(H404 & _)|(r' & Hr' & _ & Hj')].
    - rewrite Hr in H404. cbn in H404. rewrite Hs in H404. discriminate.
    - rewrite Hr in Hr'. injection Hr' as <-. rewrite Hj in Hj'.
      now injection Hj' as <-. }
  subst v. now rewrite Htruthy.
Qed.

(** X30. What the user sees of an answer. When the provider answers the
    first request by HTTP 200 with a truthy body, [process_city_weather]
    shows the weather where [_format_current_weather] fills its dict from
    the body (and the message can be formatted); where the formatter
    returns the empty dict, a required key being missing, the user is told
    that the city was not found; where the formatter raises, the weather
    array being empty, say, the user is told that an error occurred. *)
Theorem answer_shown_to_the_user
    (text : string) (self : WeatherBot) (body : value) :
  0 < max_retries config ->
  succeeds_with body
    (network (weather_service self) (sent (weather_service self))) ->
  truthy body = true ->
  snd (Main.process_city_weather utcoffset config strip format_weather_message
         text self)
  = match _format_current_weather utcoffset body with
    | Ok (Dict weather_data) =>
        match format_weather_message weather_data with
        | Ok response_text =>
            [ Loading;
              Weather_message true response_text
                (get_inline_weather_keyboard (strip text));
              Choose_action ]
        | Raise _ => [Loading; Error_occurred]
        end
    | Ok Empty => [Loading; City_not_found (strip text)]
    | Raise _ => [Loading; Error_occurred]
    end.
Proof.
  intros Hmax Hbody Htruthy.
  pose proof (service_formats_first_answer (strip text) (weather_service self)
                body Hmax Hbody Htruthy) as Hrun.
  unfold Main.process_city_weather.
  destruct (get_current_weather utcoffset config (strip text)
              (weather_service self)) as [r w].
  cbn [fst] in Hrun. subst r.
  destruct (_format_current_weather utcoffset body) as [[|weather_data]|e];
    cbn [bind]; try reflexivity.
  now destruct (format_weather_message weather_data).
Qed.

End Handlers.
End Favorites.

(* ================================================================== *)
(** * Further runs *)
(* ================================================================== *)

Module MoreExamples.

Import Inputs.

(** ** The client *)

Lemma undecodable_body_is_retried_witness :
  (forall k, (k < Z.to_nat (max_retries config))%nat ->
             undecodable (network answers_undecodable
                                  (sent answers_undecodable + k)))
  /\ fst (_make_request config (current_weather_url config) weather_params
            answers_undecodable) = VNone
  /\ trace (snd (_make_request config (current_weather_url config) weather_params
                   answers_undecodable))
     = [weather_request; Sleep 1; weather_request; Sleep 1; weather_request].
Proof.
  assert (H : forall k, (k < Z.to_nat (max_retries config))%nat ->
                        undecodable (network answers_undecodable
                                             (sent answers_undecodable + k))).
  { intros k _. eexists. exists ClientError. repeat split. }
  split; [exact H|].
  destruct (Requests.undecodable_body_is_retried config
              (current_weather_url config) weather_params answers_undecodable H)
    as (Hv & Ht & _).
  split; [exact Hv|exact Ht].
Defined.

Lemma open_session_is_reused_witness :
  session_open with_open_session
  /\ session (snd (_make_request config (current_weather_url config)
                     weather_params with_open_session))
     = Some {| timeout := 99; closed := false |}.
Proof.
  assert (H : session_open with_open_session).
  { eexists. split; reflexivity. }
  split; [exact H|].
  exact (Requests.open_session_is_reused config (current_weather_url config)
           weather_params with_open_session H).
Defined.

Lemma falsy_body_returns_None_witness :
  (1 < Z.to_nat (max_retries config))%nat
  /\ (forall i, (i < 1)%nat ->
        retried (network answers_empty_object (sent answers_empty_object + i))
        = true)
  /\ succeeds_with (VDict [])
       (network answers_empty_object (sent answers_empty_object + 1))
  /\ truthy (VDict []) = false
  /\ fst (get_current_weather utc config "London" answers_empty_object) = Ok None
  /\ fst (get_forecast utc config "London" answers_empty_object) = Ok None.
Proof.
  assert (H1 : (1 < Z.to_nat (max_retries config))%nat) by (cbn; lia).
  assert (H2 : forall i, (i < 1)%nat ->
                 retried (network answers_empty_object
                                  (sent answers_empty_object + i)) = true).
  { intros [|i] Hi; [reflexivity|lia]. }
  assert (H3 : succeeds_with (VDict [])
                 (network answers_empty_object (sent answers_empty_object + 1))).
  { eexists. split; [reflexivity|]. split; reflexivity. }
  split; [exact H1|]. split; [exact H2|]. split; [exact H3|].
  split; [reflexivity|].
  destruct (Requests.falsy_body_returns_None utc config "London"
              answers_empty_object 1 (VDict []) H1 H2 H3 eq_refl)
    as (Hc & _ & Hf & _).
  split; [exact Hc|exact Hf].
Defined.

Lemma truthy_body_is_formatted_witness :
  (2 < Z.to_nat (max_retries config))%nat
  /\ (forall i, (i < 2)%nat ->
        retried (network fails_twice (sent fails_twice + i)) = true)
  /\ succeeds_with complete_body (network fails_twice (sent fails_twice + 2))
  /\ truthy complete_body = true
  /\ fst (get_current_weather utc config "London" fails_twice)
     = Ok (Some (Dict complete_body_result)).
Proof.
  assert (H1 : (2 < Z.to_nat (max_retries config))%nat) by (cbn; lia).
  assert (H2 : forall i, (i < 2)%nat ->
                 retried (network fails_twice (sent fails_twice + i)) = true).
  { intros [|[|i]] Hi; [reflexivity|reflexivity|lia]. }
  assert (H3 : succeeds_with complete_body
                 (network fails_twice (sent fails_twice + 2))).
  { eexists. split; [reflexivity|]. split; reflexivity. }
  split; [exact H1|]. split; [exact H2|]. split; [exact H3|].
  split; [reflexivity|].
  destruct (Requests.truthy_body_is_formatted utc config "London"
              fails_twice 2 complete_body H1 H2 H3 eq_refl)
    as (Hc & _).
  rewrite Hc. vm_compute. reflexivity.
Defined.

(** ** The current weather *)

Lemma complete_body_formats :
  _format_current_weather utc complete_body = Ok (Dict complete_body_result).
Proof. vm_compute. reflexivity. Qed.

Lemma optional_field_defaults_to_zero_witness :
  _format_current_weather utc complete_body = Ok (Dict complete_body_result)
  /\ _format_current_weather utc (without_optional Wind complete_body)
     = Ok (Dict (defaulted Wind complete_body_result))
  /\ CurrentWeather.wind_speed (defaulted Wind complete_body_result) = VInt 0
  /\ CurrentWeather.wind_direction (defaulted Wind complete_body_result) = VInt 0.
Proof.
  split; [exact complete_body_formats|].
  split; [|split; reflexivity].
  exact (CurrentWeatherMore.optional_field_defaults_to_zero utc complete_body
           complete_body_result Wind complete_body_formats).
Defined.

Lemma missing_required_key_gives_empty_dict_witness :
  _format_current_weather utc complete_body = Ok (Dict complete_body_result)
  /\ _format_current_weather utc (without Sys_sunrise complete_body) = Ok Empty
  /\ _format_current_weather utc (without_key "main" complete_body) = Ok Empty.
Proof.
  split; [exact complete_body_formats|].
  destruct (CurrentWeatherMore.missing_required_key_gives_empty_dict utc
              complete_body complete_body_result complete_body_formats)
    as (Hfld & Hmain & _).
  split; [exact (Hfld Sys_sunrise)|exact Hmain].
Defined.

Lemma malformed_field_raises_witness :
  _format_current_weather utc complete_body = Ok (Dict complete_body_result)
  /\ _format_current_weather utc
       (at_key "weather" (fun _ => VList []) complete_body) = Raise IndexError
  /\ _format_current_weather utc
       (at_key "main" (fun _ => VNone) complete_body) = Raise TypeError.
Proof.
  split; [exact complete_body_formats|].
  destruct (CurrentWeatherMore.malformed_field_raises utc complete_body
              complete_body_result complete_body_formats)
    as (Hindex & Htype & _).
  split; [exact Hindex|exact Htype].
Defined.

Lemma current_weather_fields_witness :
  _format_current_weather utc complete_body = Ok (Dict complete_body_result)
  /\ exists main temp feels : value,
       getitem complete_body "main" = Ok main
       /\ getitem main "temp" = Ok temp
       /\ getitem main "feels_like" = Ok feels
       /\ nearest_integer (num temp) (CurrentWeather.temperature complete_body_result)
       /\ getitem main "humidity"
          = Ok (CurrentWeather.humidity complete_body_result).
Proof.
  split; [exact complete_body_formats|].
  destruct (CurrentWeatherMore.current_weather_fields utc complete_body
              complete_body_result complete_body_formats)
    as (main & temp & feels & Hm & Ht & Hf & _ & _ & Rt & _ & Hh & _).
  exists main, temp, feels. repeat split; assumption.
Defined.

(** ** The forecast *)

Lemma two_days_format :
  _format_forecast_data utc two_days = Ok (Dict two_days_result).
Proof. vm_compute. reflexivity. Qed.


Lemma summaries_of_any_payload_witness :
  _format_forecast_data utc two_days = Ok (Dict two_days_result)
  /\ (List.length (ForecastData.forecasts two_days_result) <= 5)%nat
  /\ NoDup (map summary_key (ForecastData.forecasts two_days_result))
  /\ Forall (fun f => filled f /\ averaged f)
            (ForecastData.forecasts two_days_result).
Proof.
  split; [exact two_days_format|].
  exact (AnyPayload.summaries_of_any_payload utc two_days two_days_result
           two_days_format).
Defined.

Lemma sample_without_a_field_voids_the_forecast_witness :
  getitem two_days "list"
  = Ok (VList (firstn 5 two_days_items ++ nth 5 two_days_items VNone
                 :: skipn 6 two_days_items))
  /\ _format_forecast_data utc two_days = Ok (Dict two_days_result)
  /\ _format_forecast_data utc
       (with_list (firstn 5 two_days_items
                     ++ item_without Item_humidity (nth 5 two_days_items VNone)
                     :: skipn 6 two_days_items) two_days)
     = Ok Empty.
Proof.
  assert (H : getitem two_days "list"
              = Ok (VList (firstn 5 two_days_items ++ nth 5 two_days_items VNone
                             :: skipn 6 two_days_items))) by reflexivity.
  split; [exact H|]. split; [exact two_days_format|].
  exact (SampleFields.sample_without_a_field_voids_the_forecast utc two_days
           two_days_result _ _ _ Item_humidity H two_days_format).
Defined.

Lemma icon_is_read_from_the_first_sample_of_a_day_witness :
  getitem two_days "list"
  = Ok (VList (firstn 5 two_days_items ++ nth 5 two_days_items VNone
                 :: skipn 6 two_days_items))
  /\ _format_forecast_data utc two_days = Ok (Dict two_days_result)
  /\ item_date_key utc (nth 5 two_days_items VNone) = Ok "2023-11-15"
  /\ filed_under utc "2023-11-15" (firstn 5 two_days_items) = true
  /\ _format_forecast_data utc
       (with_list (firstn 5 two_days_items
                     ++ item_without_opening Item_icon (nth 5 two_days_items VNone)
                     :: skipn 6 two_days_items) two_days)
     = Ok (Dict two_days_result).
Proof.
  assert (H : getitem two_days "list"
              = Ok (VList (firstn 5 two_days_items ++ nth 5 two_days_items VNone
                             :: skipn 6 two_days_items))) by reflexivity.
  assert (Hk : item_date_key utc (nth 5 two_days_items VNone) = Ok "2023-11-15")
    by (vm_compute; reflexivity).
  assert (Hf : filed_under utc "2023-11-15" (firstn 5 two_days_items) = true)
    by (vm_compute; reflexivity).
  split; [exact H|]. split; [exact two_days_format|]. split; [exact Hk|].
  split; [exact Hf|].
  rewrite (SampleFields.icon_is_read_from_the_first_sample_of_a_day utc two_days
             two_days_result _ _ _ "2023-11-15" Item_icon H two_days_format Hk).
  rewrite Hf. reflexivity.
Defined.


Lemma day_range_covers_its_samples_witness :
  read_payload utc two_days = Some (VStr "London", VStr "GB", two_days_samples)
  /\ exists fs,
       _format_forecast_data utc two_days
       = Ok (Dict {| ForecastData.city := VStr "London";
                     ForecastData.country := VStr "GB";
                     ForecastData.forecasts := fs |})
       /\ Forall (fun f =>
                    exists lo hi : Z,
                      DailyForecast.temp_min f = VInt lo
                      /\ DailyForecast.temp_max f = VInt hi
                      /\ forall s, In s (day_group (summary_key f) two_days_samples) ->
                                   lo <= round_half_even (temperature s) <= hi) fs.
Proof.
  split; [exact Examples.two_days_read|].
  exact (Bounds.day_range_covers_its_samples utc two_days (VStr "London")
           (VStr "GB") two_days_samples Examples.two_days_read).
Defined.

(** ** The utilities *)

Example wind_from_the_west :
  Utils.get_wind_direction (VInt 270) = Ok "З"
  /\ Utils.get_wind_direction (VInt (-90)) = Ok "З"
  /\ Utils.get_wind_direction (VInt 349) = Ok "С"
  /\ Utils.get_wind_direction (VFloat (1125 # 100)) = Ok "С"
  /\ Utils.get_wind_direction (VFloat (3375 # 100)) = Ok "СВ".
Proof. repeat split; vm_compute; reflexivity. Qed.

Lemma wind_direction_is_a_compass_point_witness :
  is_number (VFloat (-45 # 2)) = true
  /\ exists d, Utils.get_wind_direction (VFloat (-45 # 2)) = Ok d
               /\ In d Utils.directions.
Proof.
  split; [reflexivity|].
  exact (WindDirection.wind_direction_is_a_compass_point (VFloat (-45 # 2))
           eq_refl).
Defined.

Lemma advice_for_great_heat_is_never_given_witness :
  Utils.advice_list ascii_lower hot_day
  = Ok ["☀️ Жарко! Не забудьте о солнцезащите"]
  /\ ~ In "🌡️ Очень жарко! Пейте больше воды"
          ["☀️ Жарко! Не забудьте о солнцезащите"].
Proof.
  assert (H : Utils.advice_list ascii_lower hot_day
              = Ok ["☀️ Жарко! Не забудьте о солнцезащите"])
    by (vm_compute; reflexivity).
  split; [exact H|].
  exact (proj1 (Advice.advice_for_great_heat_is_never_given ascii_lower hot_day
                  _ H)).
Defined.

(** ** The configuration *)

Lemma service_with_the_created_configuration_witness :
  get_config environ None = (Ok config, Some config)
  /\ exists (key : string) (k k' : nat),
       environ "WEATHER_API_KEY" = Some key
       /\ (k <= 3)%nat /\ (k' <= 3)%nat
       /\ trace (snd (get_current_weather utc config "London" always_timeout))
          = trace always_timeout
            ++ spaced (Request "https://api.openweathermap.org/data/2.5/weather"
                         [ ("q", VStr "London"); ("appid", VStr key);
                           ("lang", VStr "ru"); ("units", VStr "metric") ])
                      (Sleep 1) k
       /\ trace (snd (get_forecast utc config "London" always_timeout))
          = trace always_timeout
            ++ spaced (Request "https://api.openweathermap.org/data/2.5/forecast"
                         [ ("q", VStr "London"); ("appid", VStr key);
                           ("lang", VStr "ru"); ("units", VStr "metric");
                           ("cnt", VInt 40) ])
                      (Sleep 1) k'.
Proof.
  split; [reflexivity|].
  exact (Configuration.service_with_the_created_configuration utc environ config
           (Some config) "London" always_timeout eq_refl).
Defined.

(** ** The handlers *)

Lemma failed_requests_are_shown_as_city_not_found_witness :
  (forall k, (k < Z.to_nat (max_retries config))%nat ->
             retried (network (Main.weather_service bot_offline)
                        (sent (Main.weather_service bot_offline) + k)) = true)
  /\ snd (Main.process_city_weather utc config no_strip weather_text
            "London" bot_offline)
     = [Main.Loading; Main.City_not_found "London"]
  /\ snd (Main.process_add_favorite utc config no_strip "London" 7 bot_offline)
     = [Main.Loading; Main.City_not_found "London"].
Proof.
  assert (H : forall k, (k < Z.to_nat (max_retries config))%nat ->
                retried (network (Main.weather_service bot_offline)
                           (sent (Main.weather_service bot_offline) + k)) = true)
    by (intros k _; reflexivity).
  split; [exact H|].
  destruct (Favorites.failed_requests_are_shown_as_city_not_found utc config
              no_strip weather_text forecast_text "London" 7 bot_offline H)
    as (Hw & _ & Ha & _).
  split; [exact Hw|exact Ha].
Defined.

Lemma bot_starts_tidy : all_tidy (Main.user_favorites bot_online).
Proof. intros u. apply Favorites.tidy_nil. Qed.

Lemma favorites_stay_tidy_witness :
  all_tidy (Main.user_favorites bot_online)
  /\ all_tidy (Main.user_favorites
                 (fst (Main.process_add_favorite utc config no_strip
                         "London" 7 bot_online)))
  /\ all_tidy (Main.user_favorites
                 (fst (Main.handle_callback utc config weather_text forecast_text
                         "add_favorite:Paris" 7 bot_online))).
Proof.
  split; [exact bot_starts_tidy|].
  destruct (Favorites.favorites_stay_tidy utc config no_strip weather_text
              forecast_text "London" "add_favorite:Paris" 7 bot_online
              bot_starts_tidy) as (Hp & Hc & _).
  split; [exact Hp|exact Hc].
Defined.

Lemma favorites_of_other_users_are_untouched_witness :
  8 <> 7
  /\ Main.user_get 8
       (Main.user_favorites
          (fst (Main.handle_callback utc config weather_text forecast_text
                  "add_favorite:Paris" 7 bot_online)))
     = Main.user_get 8 (Main.user_favorites bot_online).
Proof.
  assert (H : 8 <> 7) by lia.
  split; [exact H|].
  exact (proj1 (proj2 (Favorites.favorites_of_other_users_are_untouched utc
                         config no_strip weather_text forecast_text
                         "London" "add_favorite:Paris" 7 8 bot_online H))).
Defined.

(** The user types the name in lower case; the provider names the city
    London; the favourites hold what the user typed. *)
Lemma city_is_filed_as_typed_witness :
  fst (get_current_weather utc config (no_strip "london")
         (Main.weather_service bot_online))
  = Ok (Some (Dict complete_body_result))
  /\ CurrentWeather.city complete_body_result = VStr "London"
  /\ Main.contains (city_entry (no_strip "london"))
       (Main.user_get 7 (Main.user_favorites bot_online)) = false
  /\ (List.length (Main.user_get 7 (Main.user_favorites bot_online)) < 6)%nat
  /\ Main.user_get 7
       (Main.user_favorites
          (fst (Main.process_add_favorite utc config no_strip "london" 7
                  bot_online)))
     = [city_entry "london"].
Proof.
  assert (H1 : fst (get_current_weather utc config (no_strip "london")
                      (Main.weather_service bot_online))
               = Ok (Some (Dict complete_body_result)))
    by (vm_compute; reflexivity).
  assert (H3 : (List.length (Main.user_get 7 (Main.user_favorites bot_online))
                < 6)%nat) by (cbn; lia).
  split; [exact H1|]. split; [reflexivity|]. split; [reflexivity|].
  split; [exact H3|].
  exact (proj1 (Favorites.city_is_filed_as_typed utc config no_strip "london" 7
                  bot_online complete_body_result H1 eq_refl H3)).
Defined.

(** The body without a weather entry, and the body without the weather
    key: an error for the one, a city not found for the other. *)
Lemma answer_shown_to_the_user_witness :
  0 < max_retries config
  /\ succeeds_with body_without_weather_entry
       (network (Main.weather_service bot_without_weather_entry)
          (sent (Main.weather_service bot_without_weather_entry)))
  /\ truthy body_without_weather_entry = true
  /\ snd (Main.process_city_weather utc config no_strip weather_text
            "London" bot_without_weather_entry)
     = [Main.Loading; Main.Error_occurred].
Proof.
  assert (H1 : 0 < max_retries config) by (cbn; lia).
  assert (H2 : succeeds_with body_without_weather_entry
                 (network (Main.weather_service bot_without_weather_entry)
                    (sent (Main.weather_service bot_without_weather_entry)))).
  { eexists. split; [reflexivity|]. split; reflexivity. }
  split; [exact H1|]. split; [exact H2|]. split; [reflexivity|].
  rewrite (Favorites.answer_shown_to_the_user utc config no_strip weather_text
             "London" bot_without_weather_entry body_without_weather_entry
             H1 H2 eq_refl).
  vm_compute. reflexivity.
Defined.

Example missing_key_is_shown_as_city_not_found :
  snd (Main.process_city_weather utc config no_strip weather_text "London"
         {| Main.user_favorites := [];
            Main.weather_service :=
              start (fun _ => Responds {| status := 200;
                                          json := inr body_without_weather_key |}) |})
  = [Main.Loading; Main.City_not_found "London"].
Proof. vm_compute. reflexivity. Qed.

End MoreExamples.
